(** * streaming_bcn: session registry, message buffer, chat gateway, admin

  A shallow embedding of the in-memory services of the chat backend
  ([SessionManager], [MessageBufferService], [AdminService], the handlers
  of [ChatGateway], the live-room documents of [ChatService] and the token
  extraction of [WsAuthMiddleware]) together with the properties stated
  about them.

  Conventions.
  - A JavaScript [Map<string, V>] whose iteration order is never observed
    is a [gmap string V]; [userSessions], which the code iterates with an
    early [break], is an insertion-ordered association list ([OMap]).
  - A [Set<string>] is a [gset string].
  - Integer-valued JavaScript numbers (lengths, limits, epoch
    milliseconds) are [Z].
  - [Date.now()], [new Date()] and [generateId()] are read from the
    environment, so the functions take them as arguments.
  - The outcome of [insertMany] is an argument of the flush ([true]: the
    batch was stored, [false]: the promise rejected). *)

From Stdlib Require Import Sorted Ascii.
From stdpp Require Import gmap strings list fin_maps.

Open Scope Z_scope.

(** ** JavaScript array primitives used by the services *)

Module JsArray.
Section ops.
Context {A : Type}.

Definition len (l : list A) : Z := Z.of_nat (length l).

(** [Array.prototype.slice(start)]: a negative [start] counts from the
    end, and both ends are clamped to the array. *)
Definition slice (start : Z) (l : list A) : list A :=
  let k := if start <? 0 then Z.max (len l + start) 0
           else Z.min start (len l) in
  drop (Z.to_nat k) l.

(** [Array.prototype.splice(0, deleteCount)]: the removed prefix and
    what is left in the array; [deleteCount] is clamped to [0 .. length]. *)
Definition splice0 (deleteCount : Z) (l : list A) : list A * list A :=
  let k := Z.to_nat (Z.min (Z.max deleteCount 0) (len l)) in
  (take k l, drop k l).

(** [arr.unshift(...items)] *)
Definition unshift (items l : list A) : list A := items ++ l.

(** [arr.push(x)] *)
Definition push (x : A) (l : list A) : list A := l ++ [x].

End ops.
End JsArray.

(** ** MessageBufferService *)

Module Msg.
(** [interface PendingMessage] *)
Record t := mk {
  id : string;
  roomId : string;
  userId : string;
  username : string;
  message : string;
  type : string;
  timestamp : Z;
  }.

#[global] Instance eq_dec : EqDecision t.
  Proof. solve_decision. Defined.
End Msg.

Module MessageBuffer.
Import JsArray.

(** The document handed to [insertMany] for one pending message. *)
Record MongoMessage := mkMongo {
  doc_roomId : string;
  doc_userId : string;
  doc_username : string;
  doc_message : string;
  doc_type : string;
  doc_timestamp : Z;
  doc_isDeleted : bool;
  }.

Definition toMongo (msg : Msg.t) : MongoMessage :=
  {| doc_roomId := Msg.roomId msg;
     doc_userId := Msg.userId msg;
     doc_username := Msg.username msg;
     doc_message := Msg.message msg;
     doc_type := Msg.type msg;
     doc_timestamp := Msg.timestamp msg;
     doc_isDeleted := false |}.

(** The service's configuration fields. *)
Record Config := mkConfig {
  BATCH_SIZE : Z;
  MAX_RECENT_MESSAGES : Z;
  EMERGENCY_FLUSH_SIZE : Z;
  }.

(** The values of the source: [MAX_RECENT_MESSAGES = 100] and
    [EMERGENCY_FLUSH_SIZE = 1000] are fixed, [BATCH_SIZE] is read from
    [MESSAGE_BUFFER_SIZE] (default 100). *)
Definition sourceConfig (batch : Z) : Config :=
  {| BATCH_SIZE := batch; MAX_RECENT_MESSAGES := 100;
     EMERGENCY_FLUSH_SIZE := 1000 |}.

Definition defaultConfig : Config := sourceConfig 100.

(** The service's mutable fields, the batches whose [insertMany] has not
    settled yet, and the documents the collection has accepted from this
    service. *)
Record State := mkState {
  recentMessages : gmap string (list Msg.t);
  pendingWrites : list Msg.t;
  inFlight : list (list Msg.t);
  stored : list MongoMessage;
  }.

Definition init : State :=
  {| recentMessages := ∅; pendingWrites := []; inFlight := [];
     stored := [] |}.

Definition setRecent (r : gmap string (list Msg.t)) (st : State) : State :=
  {| recentMessages := r; pendingWrites := pendingWrites st;
     inFlight := inFlight st; stored := stored st |}.

Definition setPending (p : list Msg.t) (st : State) : State :=
  {| recentMessages := recentMessages st; pendingWrites := p;
     inFlight := inFlight st; stored := stored st |}.

Definition setInFlight (f : list (list Msg.t)) (st : State) : State :=
  {| recentMessages := recentMessages st; pendingWrites := pendingWrites st;
     inFlight := f; stored := stored st |}.

Definition setStored (s : list MongoMessage) (st : State) : State :=
  {| recentMessages := recentMessages st; pendingWrites := pendingWrites st;
     inFlight := inFlight st; stored := s |}.

(** Modelled from the spec: [MessageBufferService.deleteMessage], which
    [AdminService.deleteMessage] calls, is missing from the sources.  The
    spec: "removes from RecentCache if present"; the caller reads the result
    as "the buffer held the message".  The write queue is not mentioned
    and is left alone. *)
Definition deleteMessage (messageId roomId : string) (st : State) : bool * State :=
  let messages := default [] (recentMessages st !! roomId) in
  if bool_decide (Exists (λ msg, Msg.id msg = messageId) messages) then
    (true,
     setRecent (<[roomId := filter (λ msg, Msg.id msg ≠ messageId) messages]>
                  (recentMessages st)) st)
  else (false, st).

Section service.
Variable cfg : Config.

(** [flushToDatabase], the part that runs before the [await]: nothing
    when the queue is empty, otherwise the first [BATCH_SIZE] entries
    are spliced out of [pendingWrites]. *)
Definition flushToDatabase_drain (st : State) : State * option (list Msg.t) :=
  if bool_decide (len (pendingWrites st) = 0) then (st, None)
  else
    let '(messagesToWrite, rest) := splice0 (BATCH_SIZE cfg) (pendingWrites st) in
    (setPending rest st, Some messagesToWrite).

(** What the [catch] block leaves in [pendingWrites]. *)
Definition requeue (messagesToWrite pending : list Msg.t) : list Msg.t :=
  let pending := unshift messagesToWrite pending in
  if len pending >? EMERGENCY_FLUSH_SIZE cfg * 2
  then (splice0 (len pending - EMERGENCY_FLUSH_SIZE cfg) pending).2
  else pending.

(** [flushToDatabase], the part that runs once [insertMany] has settled. *)
Definition flushToDatabase_settle (ok : bool) (messagesToWrite : list Msg.t)
    (st : State) : State :=
  if ok then setStored (stored st ++ map toMongo messagesToWrite) st
  else setPending (requeue messagesToWrite (pendingWrites st)) st.

(** [await flushToDatabase()] with nothing else running in between. *)
Definition flushToDatabase (ok : bool) (st : State) : State :=
  match flushToDatabase_drain st with
  | (st', None) => st'
  | (st', Some messagesToWrite) => flushToDatabase_settle ok messagesToWrite st'
  end.

(** [addMessage]; [newId] is the value of [generateId()] and [now] the
    value of [new Date()].  The emergency flush is started but not
    awaited: its batch leaves [pendingWrites] at once and waits in
    [inFlight]. *)
Definition addMessage (roomId userId username message type : string)
    (newId : string) (now : Z) (st : State) : Msg.t * State :=
  let messageData :=
    {| Msg.id := newId; Msg.roomId := roomId; Msg.userId := userId;
       Msg.username := username; Msg.message := message; Msg.type := type;
       Msg.timestamp := now |} in
  let roomMessages := push messageData (default [] (recentMessages st !! roomId)) in
  let roomMessages :=
    if len roomMessages >? MAX_RECENT_MESSAGES cfg
    then (splice0 (len roomMessages - MAX_RECENT_MESSAGES cfg) roomMessages).2
    else roomMessages in
  let st := setRecent (<[roomId := roomMessages]> (recentMessages st)) st in
  let st := setPending (push messageData (pendingWrites st)) st in
  let st :=
    if len (pendingWrites st) >=? EMERGENCY_FLUSH_SIZE cfg then
      match flushToDatabase_drain st with
      | (st', None) => st'
      | (st', Some batch) => setInFlight (inFlight st' ++ [batch]) st'
      end
    else st in
  (messageData, st).

(** The continuation of the oldest emergency flush. *)
Definition settleInFlight (ok : bool) (st : State) : State :=
  match inFlight st with
  | [] => st
  | batch :: others => flushToDatabase_settle ok batch (setInFlight others st)
  end.

(** [getRecentMessages(roomId, limit)] *)
Definition getRecentMessages (roomId : string) (limit : Z) (st : State) : list Msg.t :=
  let messages := default [] (recentMessages st !! roomId) in
  reverse (slice (- limit) messages).

(** [getRoomMessageCount] *)
Definition getRoomMessageCount (roomId : string) (st : State) : Z :=
  from_option len 0 (recentMessages st !! roomId).

(** [clearRoomMessages] *)
Definition clearRoomMessages (roomId : string) (st : State) : State :=
  let st := setRecent (delete roomId (recentMessages st)) st in
  setPending (filter (λ msg, Msg.roomId msg ≠ roomId) (pendingWrites st)) st.

(** [forceFlush] *)
Definition forceFlush (ok : bool) (st : State) : State :=
  if bool_decide (len (pendingWrites st) = 0) then st
  else flushToDatabase ok st.

(** [onApplicationShutdown]: [while (pendingWrites.length > 0) await
    flushToDatabase()].  [outcome k] is how the [k]-th [insertMany] of the
    loop settles; the loop has no bound of its own, so the model counts
    iterations in [fuel] and answers [None] when they run out. *)
Fixpoint onApplicationShutdown (fuel : nat) (outcome : nat -> bool)
    (k : nat) (st : State) : option State :=
  if bool_decide (len (pendingWrites st) > 0) then
    match fuel with
    | O => None
    | S fuel' =>
        onApplicationShutdown fuel' outcome (S k) (flushToDatabase (outcome k) st)
    end
  else Some st.

(** The result of [getStats]. *)
Record Stats := mkStats {
  stat_pendingWrites : Z;
  stat_totalRecentMessages : Z;
  stat_activeRooms : Z;
  stat_flushInterval : Z;
  stat_batchSize : Z;
}.

(** [getStats]; [FLUSH_INTERVAL] is the service's timer period, which
    nothing else here reads. *)
Definition getStats (FLUSH_INTERVAL : Z) (st : State) : Stats :=
  {| stat_pendingWrites := len (pendingWrites st);
     stat_totalRecentMessages :=
       map_fold (λ _ messages sum, sum + len messages) 0 (recentMessages st);
     stat_activeRooms := Z.of_nat (size (recentMessages st));
     stat_flushInterval := FLUSH_INTERVAL;
     stat_batchSize := BATCH_SIZE cfg |}.

End service.
End MessageBuffer.

(** ** SessionManager *)

Module Session.
(** [interface UserSession] *)
Record t := mk {
  userId : string;
  username : string;
  socketId : string;
  roomId : string;
  joinTime : Z;
  lastActivity : Z;
}.

Definition touch (now : Z) (s : t) : t :=
  {| userId := userId s; username := username s; socketId := socketId s;
     roomId := roomId s; joinTime := joinTime s; lastActivity := now |}.
End Session.

(** An insertion-ordered [Map<string, V>]: [put] keeps the position of a
    key that is already present and appends a new one, as [Map.set] does. *)
Module OMap.
Section omap.
Context {V : Type}.

Fixpoint get (k : string) (m : list (string * V)) : option V :=
  match m with
  | [] => None
  | (k', v) :: m' => if bool_decide (k' = k) then Some v else get k m'
  end.

Fixpoint put (k : string) (v : V) (m : list (string * V)) : list (string * V) :=
  match m with
  | [] => [(k, v)]
  | (k', v') :: m' =>
      if bool_decide (k' = k) then (k, v) :: m' else (k', v') :: put k v m'
  end.

Fixpoint del (k : string) (m : list (string * V)) : list (string * V) :=
  match m with
  | [] => []
  | (k', v') :: m' =>
      if bool_decide (k' = k) then m' else (k', v') :: del k m'
  end.

(** The first entry, in iteration order, whose value satisfies [p]. *)
Fixpoint findFirst (p : V -> bool) (m : list (string * V)) : option (string * V) :=
  match m with
  | [] => None
  | (k, v) :: m' => if p v then Some (k, v) else findFirst p m'
  end.

(** Apply [f] to the first value that satisfies [p]. *)
Fixpoint updateFirst (p : V -> bool) (f : V -> V) (m : list (string * V))
    : list (string * V) :=
  match m with
  | [] => []
  | (k, v) :: m' =>
      if p v then (k, f v) :: m' else (k, v) :: updateFirst p f m'
  end.

Definition keys (m : list (string * V)) : list string := m.*1.
Definition values (m : list (string * V)) : list V := m.*2.
End omap.
End OMap.

Module SessionManager.
Import JsArray.

Record State := mkState {
  userSessions : list (string * Session.t);
  userRooms : gmap string string;
  roomUsers : gmap string (gset string);
  roomMessageCounts : gmap string Z;
  typingUsers : gmap string (gset string);
  rateLimitMap : gmap string (list Z);
}.

Definition init : State :=
  {| userSessions := []; userRooms := ∅; roomUsers := ∅;
     roomMessageCounts := ∅; typingUsers := ∅; rateLimitMap := ∅ |}.

Definition setUserSessions (x : list (string * Session.t)) (st : State) : State :=
  {| userSessions := x; userRooms := userRooms st; roomUsers := roomUsers st;
     roomMessageCounts := roomMessageCounts st; typingUsers := typingUsers st;
     rateLimitMap := rateLimitMap st |}.

Definition setUserRooms (x : gmap string string) (st : State) : State :=
  {| userSessions := userSessions st; userRooms := x; roomUsers := roomUsers st;
     roomMessageCounts := roomMessageCounts st; typingUsers := typingUsers st;
     rateLimitMap := rateLimitMap st |}.

Definition setRoomUsers (x : gmap string (gset string)) (st : State) : State :=
  {| userSessions := userSessions st; userRooms := userRooms st; roomUsers := x;
     roomMessageCounts := roomMessageCounts st; typingUsers := typingUsers st;
     rateLimitMap := rateLimitMap st |}.

Definition setRoomMessageCounts (x : gmap string Z) (st : State) : State :=
  {| userSessions := userSessions st; userRooms := userRooms st;
     roomUsers := roomUsers st; roomMessageCounts := x;
     typingUsers := typingUsers st; rateLimitMap := rateLimitMap st |}.

Definition setTypingUsers (x : gmap string (gset string)) (st : State) : State :=
  {| userSessions := userSessions st; userRooms := userRooms st;
     roomUsers := roomUsers st; roomMessageCounts := roomMessageCounts st;
     typingUsers := x; rateLimitMap := rateLimitMap st |}.

Definition setRateLimitMap (x : gmap string (list Z)) (st : State) : State :=
  {| userSessions := userSessions st; userRooms := userRooms st;
     roomUsers := roomUsers st; roomMessageCounts := roomMessageCounts st;
     typingUsers := typingUsers st; rateLimitMap := x |}.

(** [m.get(roomId)?.delete(userId)] on a map of sets *)
Definition setDelete (roomId userId : string) (m : gmap string (gset string))
    : gmap string (gset string) :=
  alter (λ users, users ∖ {[userId]}) roomId m.

(** [if (!m.has(roomId)) m.set(roomId, new Set()); m.get(roomId).add(userId)] *)
Definition setAdd (roomId userId : string) (m : gmap string (gset string))
    : gmap string (gset string) :=
  <[roomId := default ∅ (m !! roomId) ∪ {[userId]}]> m.

(** [x ∈ m.get(roomId)], false when the room has no set *)
Definition inRoomSet (roomId userId : string) (m : gmap string (gset string)) : Prop :=
  userId ∈ default ∅ (m !! roomId).

Definition isUser (userId : string) (s : Session.t) : bool :=
  bool_decide (Session.userId s = userId).

(** [removeUserFromAllRooms]: the room recorded in [userRooms] is left when
    it is a non-empty string ([if (roomId)]), then the first session of the
    user in iteration order is deleted. *)
Definition removeUserFromAllRooms (userId : string) (st : State) : State :=
  let st :=
    match userRooms st !! userId with
    | Some roomId =>
        if bool_decide (roomId ≠ "") then
          setTypingUsers (setDelete roomId userId (typingUsers st))
            (setRoomUsers (setDelete roomId userId (roomUsers st)) st)
        else st
    | None => st
    end in
  let st := setUserRooms (delete userId (userRooms st)) st in
  match OMap.findFirst (isUser userId) (userSessions st) with
  | Some (socketId, _) => setUserSessions (OMap.del socketId (userSessions st)) st
  | None => st
  end.

(** [addUserToRoom]; [now] is the value of [new Date()]. *)
Definition addUserToRoom (socketId userId username roomId : string) (now : Z)
    (st : State) : State :=
  let st := removeUserFromAllRooms userId st in
  let userSession :=
    {| Session.userId := userId; Session.username := username;
       Session.socketId := socketId; Session.roomId := roomId;
       Session.joinTime := now; Session.lastActivity := now |} in
  let st := setUserSessions (OMap.put socketId userSession (userSessions st)) st in
  let st := setUserRooms (<[userId := roomId]> (userRooms st)) st in
  setRoomUsers (setAdd roomId userId (roomUsers st)) st.

(** [removeUserFromRoom] *)
Definition removeUserFromRoom (socketId : string) (st : State)
    : option Session.t * State :=
  match OMap.get socketId (userSessions st) with
  | None => (None, st)
  | Some userSession =>
      let userId := Session.userId userSession in
      let roomId := Session.roomId userSession in
      let st := setUserSessions (OMap.del socketId (userSessions st)) st in
      let st := setUserRooms (delete userId (userRooms st)) st in
      let st := setRoomUsers (setDelete roomId userId (roomUsers st)) st in
      let st := setTypingUsers (setDelete roomId userId (typingUsers st)) st in
      (Some userSession, st)
  end.

(** [getRoomUserCount] *)
Definition getRoomUserCount (roomId : string) (st : State) : Z :=
  Z.of_nat (size (default ∅ (roomUsers st !! roomId))).

(** [getUserBySocketId] *)
Definition getUserBySocketId (socketId : string) (st : State) : option Session.t :=
  OMap.get socketId (userSessions st).

(** [getUserByUserId] and [getUserSession] *)
Definition getUserByUserId (userId : string) (st : State) : option Session.t :=
  snd <$> OMap.findFirst (isUser userId) (userSessions st).

(** [updateUserActivity] *)
Definition updateUserActivity (userId : string) (now : Z) (st : State) : State :=
  setUserSessions
    (OMap.updateFirst (isUser userId) (Session.touch now) (userSessions st)) st.

(** [incrementMessageCount] *)
Definition incrementMessageCount (roomId : string) (st : State) : State :=
  let current := default 0 (roomMessageCounts st !! roomId) in
  setRoomMessageCounts (<[roomId := current + 1]> (roomMessageCounts st)) st.

(** [cleanupInactiveUsers] *)
Definition cleanupInactiveUsers (inactiveThresholdMs : Z) (now : Z) (st : State)
    : State :=
  let sessionsToRemove :=
    OMap.keys
      (filter (λ e, now - Session.lastActivity e.2 > inactiveThresholdMs)
              (userSessions st)) in
  foldl (λ st socketId, (removeUserFromRoom socketId st).2) st sessionsToRemove.

(** The timestamps [checkRateLimit] counts: [requests.filter(time => now -
    time < windowMs)]. *)
Definition recentRequests (now windowMs : Z) (requests : list Z) : list Z :=
  filter (λ time, now - time < windowMs) requests.

(** [checkRateLimit]; [now] is the value of [Date.now()]. *)
Definition checkRateLimit (socketId : string) (maxRequests windowMs : Z)
    (now : Z) (st : State) : bool * State :=
  let requests := default [] (rateLimitMap st !! socketId) in
  let recent := recentRequests now windowMs requests in
  if bool_decide (len recent >= maxRequests) then (false, st)
  else (true, setRateLimitMap (<[socketId := push now recent]> (rateLimitMap st)) st).

(** [addTypingUser], [removeTypingUser] *)
Definition addTypingUser (roomId userId : string) (st : State) : State :=
  setTypingUsers (setAdd roomId userId (typingUsers st)) st.

Definition removeTypingUser (roomId userId : string) (st : State) : State :=
  setTypingUsers (setDelete roomId userId (typingUsers st)) st.

(** [disconnectUser] *)
Definition disconnectUser (userId : string) (st : State) : State :=
  match OMap.findFirst (isUser userId) (userSessions st) with
  | Some (socketId, _) => (removeUserFromRoom socketId st).2
  | None => st
  end.

(** [getUserSocketIds] *)
Definition getUserSocketIds (userId : string) (st : State) : list string :=
  OMap.keys (filter (λ e, Session.userId e.2 = userId) (userSessions st)).

(** [getTotalOnlineUsers] *)
Definition getTotalOnlineUsers (st : State) : Z := len (userSessions st).

(** The calls the gateway and the admin service make on the registry. *)
Inductive Op :=
| OpAddUserToRoom (socketId userId username roomId : string) (now : Z)
| OpRemoveUserFromRoom (socketId : string)
| OpRemoveUserFromAllRooms (userId : string)
| OpUpdateUserActivity (userId : string) (now : Z)
| OpIncrementMessageCount (roomId : string)
| OpCleanupInactiveUsers (inactiveThresholdMs now : Z)
| OpCheckRateLimit (socketId : string) (maxRequests windowMs now : Z)
| OpAddTypingUser (roomId userId : string)
| OpRemoveTypingUser (roomId userId : string)
| OpDisconnectUser (userId : string).

Definition applyOp (op : Op) (st : State) : State :=
  match op with
  | OpAddUserToRoom socketId userId username roomId now =>
      addUserToRoom socketId userId username roomId now st
  | OpRemoveUserFromRoom socketId => (removeUserFromRoom socketId st).2
  | OpRemoveUserFromAllRooms userId => removeUserFromAllRooms userId st
  | OpUpdateUserActivity userId now => updateUserActivity userId now st
  | OpIncrementMessageCount roomId => incrementMessageCount roomId st
  | OpCleanupInactiveUsers threshold now => cleanupInactiveUsers threshold now st
  | OpCheckRateLimit socketId maxRequests windowMs now =>
      (checkRateLimit socketId maxRequests windowMs now st).2
  | OpAddTypingUser roomId userId => addTypingUser roomId userId st
  | OpRemoveTypingUser roomId userId => removeTypingUser roomId userId st
  | OpDisconnectUser userId => disconnectUser userId st
  end.

Definition run (ops : list Op) (st : State) : State :=
  foldl (λ st op, applyOp op st) st ops.

(** Both gateways refuse a join whose [roomId] is empty before they reach
    [addUserToRoom] ([if (!roomId) ... return]). *)
Definition fromGateway (op : Op) : Prop :=
  match op with
  | OpAddUserToRoom _ _ _ roomId _ => roomId ≠ ""
  | _ => True
  end.

(** [getRoomUsers] *)
Definition getRoomUsers (roomId : string) (st : State) : list Session.t :=
  let userIds := default ∅ (roomUsers st !! roomId) in
  filter (λ session, Session.userId session ∈ userIds
                     ∧ Session.roomId session = roomId)
         (OMap.values (userSessions st)).

(** [getTypingUsers].  [Array.from] lists a Set in insertion order, which a
    [gset] does not keep: only the members of the result are meaningful. *)
Definition getTypingUsers (roomId : string) (st : State) : list string :=
  elements (default ∅ (typingUsers st !! roomId)).

(** [getActiveRoomsCount] *)
Definition getActiveRoomsCount (st : State) : Z := Z.of_nat (size (roomUsers st)).

(** [getAllOnlineSessions] *)
Definition getAllOnlineSessions (st : State) : list Session.t :=
  OMap.values (userSessions st).

(** The [users] entries of [getRoomStats]. *)
Record RoomStatsUser := mkRoomStatsUser {
  su_userId : string;
  su_username : string;
  su_joinTime : Z;
  su_lastActivity : Z;
}.

Record RoomInfo := mkRoomInfo {
  ri_roomId : string;
  ri_userCount : Z;
  ri_messageCount : Z;
  ri_createdAt : Z;
  ri_users : list RoomStatsUser;
}.

(** [getRoomStats]; [now] is the value of [new Date()]. *)
Definition getRoomStats (roomId : string) (now : Z) (st : State) : RoomInfo :=
  {| ri_roomId := roomId;
     ri_userCount := getRoomUserCount roomId st;
     ri_messageCount := default 0 (roomMessageCounts st !! roomId);
     ri_createdAt := now;
     ri_users :=
       map (λ user, {| su_userId := Session.userId user;
                       su_username := Session.username user;
                       su_joinTime := Session.joinTime user;
                       su_lastActivity := Session.lastActivity user |})
           (getRoomUsers roomId st) |}.

(** [getAllRooms] lists the statistics of every key of [roomUsers], in the
    order of the keys (here: of [map_to_list]). *)
Definition getAllRooms (now : Z) (st : State) : list RoomInfo :=
  map (λ roomId, getRoomStats roomId now st) (map_to_list (roomUsers st)).*1.

End SessionManager.

(** ** The collaborators shared by the gateway and the admin service *)

Module User.
(** The fields of the [User] schema the services read or write. *)
Record t := mk {
  studentId : string;
  fullName : string;
  isActive : bool;
  isBanned : bool;
  bannedReason : option string;
  bannedAt : option Z;
  bannedBy : option string;
}.
End User.

(** What is sent over Socket.IO.  The localized message texts are left
    out of the payloads. *)
Inductive Payload :=
| ErrorPayload (message : string) (code : option string)
| BannedPayload (reason bannedBy : option string)
| NewMessagePayload (msg : Msg.t)
| AdminUserBanned (userId : string) (reason bannedBy : option string)
| AdminUserUnbanned (userId : string).

Inductive Emit :=
| ServerEmit (event : string) (payload : Payload)
| ToEmit (target event : string) (payload : Payload)
| ClientEmit (socketId event : string) (payload : Payload)
| ClientDisconnect (socketId : string).

(** A stored chat message as [deleteOne({ _id, roomId })] sees it. *)
Record ChatDoc := mkChatDoc { doc_id : string; doc_room : string }.

Inductive Exception :=
| NotFoundException (message : string)
| BadRequestException (message : string).

Record World := mkWorld {
  userModel : gmap string User.t;
  chatMessageModel : list ChatDoc;
  sessionManager : SessionManager.State;
  messageBuffer : MessageBuffer.State;
  server : bool;
  emitted : list Emit;
}.

Definition setUserModel (x : gmap string User.t) (w : World) : World :=
  {| userModel := x; chatMessageModel := chatMessageModel w;
     sessionManager := sessionManager w; messageBuffer := messageBuffer w;
     server := server w; emitted := emitted w |}.

Definition setChatMessageModel (x : list ChatDoc) (w : World) : World :=
  {| userModel := userModel w; chatMessageModel := x;
     sessionManager := sessionManager w; messageBuffer := messageBuffer w;
     server := server w; emitted := emitted w |}.

Definition setSessionManager (x : SessionManager.State) (w : World) : World :=
  {| userModel := userModel w; chatMessageModel := chatMessageModel w;
     sessionManager := x; messageBuffer := messageBuffer w;
     server := server w; emitted := emitted w |}.

Definition setMessageBuffer (x : MessageBuffer.State) (w : World) : World :=
  {| userModel := userModel w; chatMessageModel := chatMessageModel w;
     sessionManager := sessionManager w; messageBuffer := x;
     server := server w; emitted := emitted w |}.

Definition emit (e : list Emit) (w : World) : World :=
  {| userModel := userModel w; chatMessageModel := chatMessageModel w;
     sessionManager := sessionManager w; messageBuffer := messageBuffer w;
     server := server w; emitted := emitted w ++ e |}.

(** The connection has been closed by the server. *)
Definition disconnected (socketId : string) (w : World) : Prop :=
  ClientDisconnect socketId ∈ emitted w.

(** ** AdminService *)

Module AdminService.

Record BanUserDto := mkBanUserDto {
  ban_userId : string;
  ban_reason : option string;
  ban_bannedBy : option string;
}.

Record DeleteMessageDto := mkDeleteMessageDto {
  del_messageId : string;
  del_roomId : string;
  del_deletedBy : string;
}.

Record BannedStatus := mkBannedStatus {
  st_isBanned : bool;
  st_bannedReason : option string;
  st_bannedBy : option string;
}.

(** [reason || 'Violated community guidelines'] *)
Definition reasonOrDefault (reason : option string) : string :=
  match reason with
  | Some r => if bool_decide (r = "") then "Violated community guidelines" else r
  | None => "Violated community guidelines"
  end.

Definition isBannedNotice (socketId : string) (e : Emit) : bool :=
  match e with
  | ToEmit target event _ =>
      bool_decide (target = socketId) && bool_decide (event = "user:banned")
  | ClientEmit target event _ =>
      bool_decide (target = socketId) && bool_decide (event = "user:banned")
  | _ => false
  end.

(** [banUser]; [now] is the value of [new Date()].  The result is the
    world the call leaves and the exception it raised, if any. *)
Definition banUser (dto : BanUserDto) (now : Z) (w : World) : World * option Exception :=
  let userId := ban_userId dto in
  match userModel w !! userId with
  | None =>
      (w, Some (NotFoundException ("User with ID " +:+ userId +:+ " not found")))
  | Some user =>
      if User.isBanned user then
        (w, Some (BadRequestException ("User " +:+ userId +:+ " is already banned")))
      else
        let banned :=
          {| User.studentId := User.studentId user;
             User.fullName := User.fullName user;
             User.isActive := User.isActive user;
             User.isBanned := true;
             User.bannedReason := Some (reasonOrDefault (ban_reason dto));
             User.bannedAt := Some now;
             User.bannedBy := ban_bannedBy dto |} in
        let w := setUserModel (<[userId := banned]> (userModel w)) w in
        let w := setSessionManager
                   (SessionManager.disconnectUser userId (sessionManager w)) w in
        let w :=
          if server w then
            let w := emit [ServerEmit "admin:userBanned"
                             (AdminUserBanned userId (ban_reason dto) (ban_bannedBy dto))] w in
            let userSocketIds :=
              SessionManager.getUserSocketIds userId (sessionManager w) in
            emit (map (λ socketId,
                         ToEmit socketId "user:banned"
                           (BannedPayload (ban_reason dto) (ban_bannedBy dto)))
                      userSocketIds) w
          else w in
        (w, None)
  end.

(** [unbanUser] *)
Definition unbanUser (userId : string) (w : World) : World * option Exception :=
  match userModel w !! userId with
  | None =>
      (w, Some (NotFoundException ("User with ID " +:+ userId +:+ " not found")))
  | Some user =>
      if negb (User.isBanned user) then
        (w, Some (BadRequestException ("User " +:+ userId +:+ " is not banned")))
      else
        let cleared :=
          {| User.studentId := User.studentId user;
             User.fullName := User.fullName user;
             User.isActive := User.isActive user;
             User.isBanned := false;
             User.bannedReason := None;
             User.bannedAt := None;
             User.bannedBy := None |} in
        let w := setUserModel (<[userId := cleared]> (userModel w)) w in
        (if server w
         then emit [ServerEmit "admin:userUnbanned" (AdminUserUnbanned userId)] w
         else w, None)
  end.

(** [checkUserBannedStatus] *)
Definition checkUserBannedStatus (userId : string) (w : World) : BannedStatus :=
  match userModel w !! userId with
  | None => {| st_isBanned := false; st_bannedReason := None; st_bannedBy := None |}
  | Some user =>
      {| st_isBanned := User.isBanned user;
         st_bannedReason := User.bannedReason user;
         st_bannedBy := User.bannedBy user |}
  end.

Definition matchesDoc (messageId roomId : string) (d : ChatDoc) : Prop :=
  doc_id d = messageId ∧ doc_room d = roomId.

#[global] Instance matchesDoc_dec messageId roomId d :
  Decision (matchesDoc messageId roomId d).
Proof. unfold matchesDoc. apply _. Defined.

(** [chatMessageModel.deleteOne({ _id: messageId, roomId })]: the first
    matching document is removed; the result is [deletedCount]. *)
Fixpoint deleteOne (messageId roomId : string) (docs : list ChatDoc)
    : Z * list ChatDoc :=
  match docs with
  | [] => (0, [])
  | d :: docs' =>
      if decide (matchesDoc messageId roomId d) then (1, docs')
      else let '(n, rest) := deleteOne messageId roomId docs' in (n, d :: rest)
  end.

(** [deleteMessage] *)
Definition deleteMessage (dto : DeleteMessageDto) (w : World) : World * option Exception :=
  let messageId := del_messageId dto in
  let roomId := del_roomId dto in
  let '(bufferDeleted, buf) :=
    MessageBuffer.deleteMessage messageId roomId (messageBuffer w) in
  let w := setMessageBuffer buf w in
  let '(deletedCount, docs) := deleteOne messageId roomId (chatMessageModel w) in
  let w := setChatMessageModel docs w in
  if negb bufferDeleted && bool_decide (deletedCount = 0) then
    (w, Some (NotFoundException ("Message with ID " +:+ messageId +:+ " not found")))
  else (w, None).

End AdminService.

(** ** ChatGateway.handleMessage *)

Module ChatGateway.

Record WsUser := mkWsUser {
  ws_studentId : string;
  ws_fullName : string;
  ws_userId : string;
}.

Record ChatMessageDto := mkChatMessageDto {
  dto_roomId : string;
  dto_message : string;
  dto_type : option string;
}.

(** White space that [String.prototype.trim] strips, within ASCII. *)
Definition isWhiteSpace (c : Ascii.ascii) : bool :=
  let n := Ascii.nat_of_ascii c in
  ((9 <=? n)%nat && (n <=? 13)%nat) || (n =? 32)%nat.

Fixpoint trimStart (l : list Ascii.ascii) : list Ascii.ascii :=
  match l with
  | c :: l' => if isWhiteSpace c then trimStart l' else l
  | [] => []
  end.

Definition trim (s : string) : string :=
  String.string_of_list_ascii
    (rev (trimStart (rev (trimStart (String.list_ascii_of_string s))))).

Definition strlen (s : string) : Z := Z.of_nat (String.length s).

Section gateway.
Variable cfg : MessageBuffer.Config.
Variable rateLimitMaxRequests rateLimitWindowMs : Z.

(** [ChatService.createMessage] *)
Definition createMessage (roomId userId username message type newId : string)
    (now : Z) (w : World) : Msg.t * World :=
  let '(bufferedMessage, buf) :=
    MessageBuffer.addMessage cfg roomId userId username message type newId now
      (messageBuffer w) in
  (bufferedMessage, setMessageBuffer buf w).

(** [handleMessage] for the connection [client] authenticated as [user];
    [now] is the clock and [newId] the id [generateId()] would return. *)
Definition handleMessage (data : ChatMessageDto) (client : string) (user : WsUser)
    (now : Z) (newId : string) (w : World) : World :=
  let '(allowed, sm) :=
    SessionManager.checkRateLimit client rateLimitMaxRequests rateLimitWindowMs
      now (sessionManager w) in
  let w := setSessionManager sm w in
  if negb allowed then
    emit [ClientEmit client "error"
            (ErrorPayload "Rate limit exceeded. Please slow down." None)] w
  else
    let bannedStatus := AdminService.checkUserBannedStatus (ws_userId user) w in
    if AdminService.st_isBanned bannedStatus then
      let w := emit [ClientEmit client "user:banned"
                       (BannedPayload (AdminService.st_bannedReason bannedStatus)
                                      (AdminService.st_bannedBy bannedStatus))] w in
      let w := setSessionManager
                 (SessionManager.removeUserFromRoom client (sessionManager w)).2 w in
      emit [ClientDisconnect client] w
    else
      match SessionManager.getUserBySocketId client (sessionManager w) with
      | None =>
          emit [ClientEmit client "error"
                  (ErrorPayload
                     "User session not found. Please refresh and rejoin the room."
                     (Some "SESSION_NOT_FOUND"))] w
      | Some userSession =>
          let userId := Session.userId userSession in
          let username := Session.username userSession in
          let roomId := Session.roomId userSession in
          if bool_decide (ws_userId user ≠ userId) then
            emit [ClientEmit client "error"
                    (ErrorPayload
                       "Authentication mismatch. Please refresh and rejoin."
                       (Some "AUTH_MISMATCH"))] w
          else
            let message := dto_message data in
            let type := default "text" (dto_type data) in
            if bool_decide (message = "") || bool_decide (strlen (trim message) = 0)
            then w
            else if bool_decide (strlen message > 1000) then
              emit [ClientEmit client "error" (ErrorPayload "Message too long" None)] w
            else
              let '(savedMessage, w) :=
                createMessage roomId userId username (trim message) type newId now w in
              let w := setSessionManager
                         (SessionManager.updateUserActivity userId now
                            (sessionManager w)) w in
              let w := setSessionManager
                         (SessionManager.incrementMessageCount roomId
                            (sessionManager w)) w in
              let w := setSessionManager
                         (SessionManager.removeTypingUser roomId userId
                            (sessionManager w)) w in
              emit [ToEmit roomId "newMessage" (NewMessagePayload savedMessage)] w
      end.

End gateway.
End ChatGateway.

(** ** ChatService.endRoom *)

Module ChatService.

Record LiveRoom := mkLiveRoom {
  room_isActive : bool;
  room_endTime : option Z;
}.

Record State := mkState {
  messageBufferService : MessageBuffer.State;
  liveRoomModel : gmap string LiveRoom;
}.

(** [endRoom]: the buffer is cleared, then the room document is marked
    inactive ([updateOne] changes nothing when there is no such room). *)
Definition endRoom (roomId : string) (now : Z) (st : State) : State :=
  {| messageBufferService :=
       MessageBuffer.clearRoomMessages roomId (messageBufferService st);
     liveRoomModel :=
       alter (λ _, {| room_isActive := false; room_endTime := Some now |})
             roomId (liveRoomModel st) |}.

End ChatService.

(** ** Auxiliary definitions for the statements *)

(** A run of flushes, one after the other, with the given [insertMany]
    outcomes. *)
Definition flushes (cfg : MessageBuffer.Config) (outcomes : list bool)
    (st : MessageBuffer.State) : MessageBuffer.State :=
  foldl (λ st ok, MessageBuffer.flushToDatabase cfg ok st) st outcomes.

(** One [addMessage] call with what it reads from the environment. *)
Record AddCall := mkAddCall {
  add_roomId : string;
  add_userId : string;
  add_username : string;
  add_message : string;
  add_type : string;
  add_newId : string;
  add_now : Z;
}.

Definition messageOf (c : AddCall) : Msg.t :=
  {| Msg.id := add_newId c; Msg.roomId := add_roomId c;
     Msg.userId := add_userId c; Msg.username := add_username c;
     Msg.message := add_message c; Msg.type := add_type c;
     Msg.timestamp := add_now c |}.

Definition addCall (cfg : MessageBuffer.Config) (st : MessageBuffer.State)
    (c : AddCall) : MessageBuffer.State :=
  (MessageBuffer.addMessage cfg (add_roomId c) (add_userId c) (add_username c)
     (add_message c) (add_type c) (add_newId c) (add_now c) st).2.

Definition addAll (cfg : MessageBuffer.Config) (calls : list AddCall)
    (st : MessageBuffer.State) : MessageBuffer.State :=
  foldl (addCall cfg) st calls.

(** The messages a run of calls added to one room, oldest first. *)
Definition addedTo (roomId : string) (calls : list AddCall) : list Msg.t :=
  messageOf <$> filter (λ c, add_roomId c = roomId) calls.

(** The newest [n] elements of a list that grows at its end. *)
Definition newest {A} (n : Z) (l : list A) : list A :=
  drop (length l - Z.to_nat n) l.

(** The window of the rate limiter as the specification words it: the
    closed interval [[now - windowMs, now]]. *)
Definition inClosedWindow (now windowMs time : Z) : Prop :=
  now - windowMs <= time <= now.

#[global] Instance inClosedWindow_dec now windowMs time :
  Decision (inClosedWindow now windowMs time).
Proof. unfold inClosedWindow. apply _. Defined.

(** Successive [checkRateLimit] calls of one connection at the given
    times, with their answers. *)
Fixpoint rateLimitCalls (socketId : string) (maxRequests windowMs : Z)
    (times : list Z) (st : SessionManager.State) : list bool * SessionManager.State :=
  match times with
  | [] => ([], st)
  | now :: times' =>
      let '(ok, st) :=
        SessionManager.checkRateLimit socketId maxRequests windowMs now st in
      let '(oks, st) := rateLimitCalls socketId maxRequests windowMs times' st in
      (ok :: oks, st)
  end.

(** What [addMessage] keeps of a room's list once the new message is
    pushed. *)
Definition capped (cfg : MessageBuffer.Config) (roomMessages : list Msg.t)
    : list Msg.t :=
  if JsArray.len roomMessages >? MessageBuffer.MAX_RECENT_MESSAGES cfg
  then (JsArray.splice0
          (JsArray.len roomMessages - MessageBuffer.MAX_RECENT_MESSAGES cfg)
          roomMessages).2
  else roomMessages.

(** The shutdown loop, started at its [k]-th insert, returns, and returns
    with an empty queue. *)
Definition shutdownReturns (cfg : MessageBuffer.Config) (outcome : nat -> bool)
    (k : nat) (st : MessageBuffer.State) : Prop :=
  ∃ fuel st',
    MessageBuffer.onApplicationShutdown cfg fuel outcome k st = Some st'
    ∧ MessageBuffer.pendingWrites st' = [].

(** The representation invariant of the registry: [userSessions] has one
    entry per socket id and one per user id, and every session's room is
    the non-empty room recorded for its user in [userRooms]. *)
Record RegistryInv (st : SessionManager.State) : Prop := mkRegistryInv {
  inv_sockets : NoDup (OMap.keys (SessionManager.userSessions st));
  inv_users :
    NoDup (Session.userId <$> OMap.values (SessionManager.userSessions st));
  inv_rooms : ∀ e, e ∈ SessionManager.userSessions st ->
    SessionManager.userRooms st !! Session.userId e.2 = Some (Session.roomId e.2);
  inv_nonempty : ∀ e, e ∈ SessionManager.userSessions st ->
    Session.roomId e.2 ≠ "";
}.

(** Every session's user is a member of the session's room in
    [roomUsers]. *)
Definition RoomIndexInv (st : SessionManager.State) : Prop :=
  ∀ e, e ∈ SessionManager.userSessions st ->
    SessionManager.inRoomSet (Session.roomId e.2) (Session.userId e.2)
      (SessionManager.roomUsers st).

(** The times of the calls that [checkRateLimit] admitted. *)
Fixpoint admittedTimes (times : list Z) (oks : list bool) : list Z :=
  match times, oks with
  | time :: times', ok :: oks' =>
      if ok then time :: admittedTimes times' oks' else admittedTimes times' oks'
  | _, _ => []
  end.

(** The admitted calls that are less than [windowMs] older than the last
    admitted one (which is among them). *)
Definition admittedWindow (windowMs : Z) (admitted : list Z) : list Z :=
  match last admitted with
  | Some latest => filter (λ time, latest - time < windowMs) admitted
  | None => []
  end.


(** ** ChatService: the live-room documents *)

Module LiveRooms.

(** The fields of the [LiveRoom] schema that the service reads or writes;
    [roomId], which is unique, is the key of the collection. *)
Record Doc := mkDoc {
  title : string;
  hostId : string;
  hostName : string;
  viewerCount : Z;
  isActive : bool;
  startTime : Z;
  endTime : option Z;
}.

Definition setViewerCount (count : Z) (room : Doc) : Doc :=
  {| title := title room; hostId := hostId room; hostName := hostName room;
     viewerCount := count; isActive := isActive room;
     startTime := startTime room; endTime := endTime room |}.

(** [updateViewerCount]: [updateOne({ roomId }, { viewerCount: count })] *)
Definition updateViewerCount (roomId : string) (count : Z)
    (rooms : gmap string Doc) : gmap string Doc :=
  alter (setViewerCount count) roomId rooms.

(** [getRoomInfo]: [findOne({ roomId, isActive: true })] *)
Definition getRoomInfo (roomId : string) (rooms : gmap string Doc) : option Doc :=
  match rooms !! roomId with
  | Some room => if isActive room then Some room else None
  | None => None
  end.

(** [roomExists] *)
Definition roomExists (roomId : string) (rooms : gmap string Doc) : bool :=
  match getRoomInfo roomId rooms with
  | Some _ => true
  | None => false
  end.

End LiveRooms.

(** ** ChatGateway: connections, rooms and typing

    The handlers of the gateway other than [handleMessage].  The calls on
    the room collection succeed, so the [catch] branches of the handlers,
    which log or answer with an error, are not reached. *)

Module RoomGateway.
Import ChatGateway.

(** The payloads of the events these handlers emit.  The text of the ban
    error is built from the stored reason, which is what the payload keeps
    of it here. *)
Inductive Notice :=
| ErrorNotice (message : string)
| BannedNotice (reason : option string)
| ConnectedNotice (timestamp : Z) (socketId studentId fullName : string)
| JoinedRoomNotice (roomId : string) (messages : list Msg.t)
    (roomInfo : option LiveRooms.Doc) (viewerCount : Z)
| UserJoinedNotice (userId username : string) (timestamp viewerCount : Z)
| UserLeftNotice (userId username : string) (timestamp viewerCount : Z)
| UserTypingNotice (userId username : string) (isTyping : bool) (timestamp : Z)
| RoomStatsNotice (stats : SessionManager.RoomInfo).

(** What a handler does on the socket: [client.emit], [client.to(roomId)
    .emit] (every socket of the room but [client]), [client.join],
    [client.leave] and [client.disconnect]. *)
Inductive Action :=
| Reply (client event : string) (notice : Notice)
| Broadcast (client roomId event : string) (notice : Notice)
| SocketJoin (client roomId : string)
| SocketLeave (client roomId : string)
| SocketDisconnect (client : string).

Record State := mkState {
  world : World;
  liveRoomModel : gmap string LiveRooms.Doc;
  actions : list Action;
}.

Definition setWorld (w : World) (st : State) : State :=
  {| world := w; liveRoomModel := liveRoomModel st; actions := actions st |}.

Definition setRegistry (sm : SessionManager.State) (st : State) : State :=
  setWorld (setSessionManager sm (world st)) st.

Definition setLiveRoomModel (rooms : gmap string LiveRooms.Doc) (st : State)
    : State :=
  {| world := world st; liveRoomModel := rooms; actions := actions st |}.

Definition act (new : list Action) (st : State) : State :=
  {| world := world st; liveRoomModel := liveRoomModel st;
     actions := actions st ++ new |}.

Definition registry (st : State) : SessionManager.State :=
  sessionManager (world st).

Record UserTypingDto := mkUserTypingDto {
  typing_roomId : string;
  typing_isTyping : bool;
}.

(** [handleConnection]; [user] is [client.data.user], [now] the clock. *)
Definition handleConnection (client : string) (user : option WsUser) (now : Z)
    (st : State) : State :=
  match user with
  | None => act [SocketDisconnect client] st
  | Some user =>
      let bannedStatus :=
        AdminService.checkUserBannedStatus (ws_studentId user) (world st) in
      if AdminService.st_isBanned bannedStatus then
        act [Reply client "error"
               (BannedNotice (AdminService.st_bannedReason bannedStatus));
             SocketDisconnect client] st
      else
        act [Reply client "connected"
               (ConnectedNotice now client (ws_studentId user) (ws_fullName user))]
            st
  end.

(** [handleDisconnect] *)
Definition handleDisconnect (client : string) (now : Z) (st : State) : State :=
  let '(userSession, sm) :=
    SessionManager.removeUserFromRoom client (registry st) in
  let st := setRegistry sm st in
  match userSession with
  | None => st
  | Some userSession =>
      let roomId := Session.roomId userSession in
      let userId := Session.userId userSession in
      let username := Session.username userSession in
      let st := setRegistry
                  (SessionManager.removeTypingUser roomId userId (registry st)) st in
      let st := act [Broadcast client roomId "userLeft"
                       (UserLeftNotice userId username now
                          (SessionManager.getRoomUserCount roomId (registry st)))]
                    st in
      setLiveRoomModel
        (LiveRooms.updateViewerCount roomId
           (SessionManager.getRoomUserCount roomId (registry st))
           (liveRoomModel st)) st
  end.

(** [handleJoinRoom] *)
Definition handleJoinRoom (roomId : string) (client : string) (user : WsUser)
    (now : Z) (st : State) : State :=
  if bool_decide (roomId = "") then
    act [Reply client "error" (ErrorNotice "Invalid room data")] st
  else
    let userId := ws_userId user in
    let username := ws_fullName user in
    let st := setRegistry
                (SessionManager.addUserToRoom client userId username roomId now
                   (registry st)) st in
    let st := act [SocketJoin client roomId] st in
    let recentMessages :=
      MessageBuffer.getRecentMessages roomId 100 (messageBuffer (world st)) in
    let roomInfo := LiveRooms.getRoomInfo roomId (liveRoomModel st) in
    let st := act [Reply client "joinedRoom"
                     (JoinedRoomNotice roomId (reverse recentMessages) roomInfo
                        (SessionManager.getRoomUserCount roomId (registry st)))]
                  st in
    let st := act [Broadcast client roomId "userJoined"
                     (UserJoinedNotice userId username now
                        (SessionManager.getRoomUserCount roomId (registry st)))]
                  st in
    setLiveRoomModel
      (LiveRooms.updateViewerCount roomId
         (SessionManager.getRoomUserCount roomId (registry st))
         (liveRoomModel st)) st.

(** [handleLeaveRoom]: the room and the user are the ones of the request
    and of the authentication, not the ones of the removed session. *)
Definition handleLeaveRoom (roomId : string) (client : string) (user : WsUser)
    (now : Z) (st : State) : State :=
  let userId := ws_userId user in
  let st := act [SocketLeave client roomId] st in
  let '(userSession, sm) :=
    SessionManager.removeUserFromRoom client (registry st) in
  let st := setRegistry sm st in
  match userSession with
  | None => st
  | Some userSession =>
      let st := setRegistry
                  (SessionManager.removeTypingUser roomId userId (registry st)) st in
      let st := act [Broadcast client roomId "userLeft"
                       (UserLeftNotice userId (Session.username userSession) now
                          (SessionManager.getRoomUserCount roomId (registry st)))]
                    st in
      setLiveRoomModel
        (LiveRooms.updateViewerCount roomId
           (SessionManager.getRoomUserCount roomId (registry st))
           (liveRoomModel st)) st
  end.

(** [handleTyping] *)
Definition handleTyping (data : UserTypingDto) (client : string) (user : WsUser)
    (now : Z) (st : State) : State :=
  match SessionManager.getUserBySocketId client (registry st) with
  | None => st
  | Some _ =>
      let roomId := typing_roomId data in
      let isTyping := typing_isTyping data in
      let userId := ws_userId user in
      let username := ws_fullName user in
      let st :=
        if isTyping
        then setRegistry (SessionManager.addTypingUser roomId userId (registry st)) st
        else setRegistry
               (SessionManager.removeTypingUser roomId userId (registry st)) st in
      let st := act [Broadcast client roomId "userTyping"
                       (UserTypingNotice userId username isTyping now)] st in
      if isTyping
      then setRegistry (SessionManager.updateUserActivity userId now (registry st)) st
      else st
  end.

(** [handleGetRoomStats] *)
Definition handleGetRoomStats (client : string) (now : Z) (st : State) : State :=
  match SessionManager.getUserBySocketId client (registry st) with
  | None => act [Reply client "error" (ErrorNotice "User not in any room")] st
  | Some userSession =>
      act [Reply client "roomStats"
             (RoomStatsNotice
                (SessionManager.getRoomStats (Session.roomId userSession) now
                   (registry st)))] st
  end.

End RoomGateway.

(** ** WsAuthMiddleware: the token of a connection *)

Module WsAuthMiddleware.

(** A value of the parsed query string: [string | string[]]. *)
Inductive QueryValue :=
| QueryString (value : string)
| QueryArray (values : list string).

(** What [extractTokenFromSocket] reads of [socket.handshake]. *)
Record Handshake := mkHandshake {
  query_token : option QueryValue;
  header_authorization : option string;
  header_cookie : option string;
}.

(** A string in a condition: the empty string is false. *)
Definition truthy (s : string) : bool := negb (String.eqb s "").

(** [s.split(sep)] for a separator of one character. *)
Fixpoint split (sep : Ascii.ascii) (s : string) : list string :=
  match s with
  | EmptyString => [EmptyString]
  | String c s' =>
      if Ascii.eqb c sep then EmptyString :: split sep s'
      else match split sep s' with
           | part :: parts => String c part :: parts
           | [] => [String c EmptyString]
           end
  end.

(** The loop over [cookies.split(';')]. *)
Fixpoint findCookie (cookieArray : list string) : option string :=
  match cookieArray with
  | [] => None
  | cookie :: rest =>
      match split "="%char (ChatGateway.trim cookie) with
      | name :: value :: _ =>
          if String.eqb name "access_token" && truthy value then Some value
          else findCookie rest
      | _ => findCookie rest
      end
  end.

(** [extractTokenFromSocket] *)
Definition extractTokenFromSocket (handshake : Handshake) : option string :=
  let fromQuery :=
    match query_token handshake with
    | Some (QueryString queryToken) =>
        if truthy queryToken then Some queryToken else None
    | _ => None
    end in
  match fromQuery with
  | Some token => Some token
  | None =>
      let fromHeader :=
        match header_authorization handshake with
        | Some authHeader =>
            if truthy authHeader then
              match split " "%char authHeader with
              | type :: token :: _ =>
                  if String.eqb type "Bearer" && truthy token then Some token
                  else None
              | _ => None
              end
            else None
        | None => None
        end in
      match fromHeader with
      | Some token => Some token
      | None =>
          match header_cookie handshake with
          | Some cookies =>
              if truthy cookies then findCookie (split ";"%char cookies) else None
          | None => None
          end
      end
  end.

End WsAuthMiddleware.

(** The characters of a string. *)
Definition chars (s : string) : list Ascii.ascii := String.list_ascii_of_string s.



(** One cookie of the header, and the pieces into which the semicolons cut
    the header. *)
Definition render (cookie : string * string) : string :=
  cookie.1 +:+ "=" +:+ cookie.2.

Definition items (jar : list (string * string)) : list string :=
  match jar with
  | [] => [""]
  | cookie :: rest => render cookie :: map (λ other, String " " (render other)) rest
  end.

(** * Properties *)

(** ** Arrays *)

Section JsArrayFacts.
Context {A : Type}.
Implicit Types l : list A.
Import JsArray.

Lemma len_nonneg l : 0 <= len l.
Proof. unfold len. lia. Qed.

Lemma len_app l1 l2 : len (l1 ++ l2) = len l1 + len l2.
Proof. unfold len. rewrite length_app. lia. Qed.

Lemma len_nil_iff l : len l = 0 <-> l = [].
Proof.
  unfold len. split.
  - intros H. destruct l; [done | simpl in H; lia].
  - by intros ->.
Qed.

Lemma splice0_app n l : (splice0 n l).1 ++ (splice0 n l).2 = l.
Proof. apply take_drop. Qed.

Lemma splice0_removed_length n l :
  len (splice0 n l).1 = Z.min (Z.max n 0) (len l).
Proof. unfold splice0, len; simpl. rewrite length_take. lia. Qed.

Lemma splice0_rest_length n l :
  len (splice0 n l).2 = len l - Z.min (Z.max n 0) (len l).
Proof. unfold splice0, len; simpl. rewrite length_drop. lia. Qed.

Lemma splice0_rest_drop n l :
  0 <= n -> (splice0 n l).2 = drop (Z.to_nat n) l.
Proof.
  intros Hn. unfold splice0, len; simpl.
  destruct (Z.le_gt_cases n (Z.of_nat (length l))) as [Hle|Hgt].
  - f_equal. lia.
  - rewrite !drop_ge; [done | lia | lia].
Qed.

Lemma slice_neg_positive n l : 0 < n -> slice (- n) l = newest n l.
Proof.
  intros Hn. unfold slice, newest, len.
  destruct (Z.ltb_spec (- n) 0) as [_|]; [|lia].
  f_equal. lia.
Qed.

Lemma slice_zero l : slice 0 l = l.
Proof.
  unfold slice, len; simpl.
  replace (Z.to_nat (Z.min 0 (Z.of_nat (length l)))) with 0%nat by lia.
  reflexivity.
Qed.

Lemma newest_length n l : 0 <= n -> len (newest n l) = Z.min n (len l).
Proof. intros Hn. unfold newest, len. rewrite length_drop. lia. Qed.

Lemma newest_all n l : len l <= n -> newest n l = l.
Proof.
  unfold newest, len. intros Hn.
  replace (length l - Z.to_nat n)%nat with 0%nat by lia. done.
Qed.

Lemma newest_snoc n l x : 0 < n -> newest n (l ++ [x]) = newest (n - 1) l ++ [x].
Proof.
  intros Hn. unfold newest. rewrite length_app. simpl.
  rewrite drop_app_le by lia.
  do 2 f_equal. lia.
Qed.

Lemma newest_newest n m l :
  0 <= n -> 0 <= m -> newest n (newest m l) = newest (Z.min n m) l.
Proof.
  intros Hn Hm. unfold newest. rewrite length_drop, drop_drop.
  f_equal. lia.
Qed.

End JsArrayFacts.


(** ** The recent cache *)

Section RecentCache.
Import JsArray MessageBuffer.
Variable cfg : Config.

Lemma capped_newest l :
  0 <= MAX_RECENT_MESSAGES cfg -> capped cfg l = newest (MAX_RECENT_MESSAGES cfg) l.
Proof.
  intros Hcap. unfold capped.
  destruct (Z.gtb_spec (len l) (MAX_RECENT_MESSAGES cfg)) as [Hgt|Hle].
  - rewrite splice0_rest_drop by lia. unfold newest, len in *. f_equal. lia.
  - by rewrite newest_all.
Qed.

Lemma drain_recentMessages st :
  recentMessages (flushToDatabase_drain cfg st).1 = recentMessages st.
Proof.
  unfold flushToDatabase_drain. case_bool_decide; [done|].
  by destruct (splice0 _ _).
Qed.

Lemma addCall_recentMessages st c :
  recentMessages (addCall cfg st c)
  = <[add_roomId c :=
        capped cfg (default [] (recentMessages st !! add_roomId c) ++ [messageOf c])]>
      (recentMessages st).
Proof.
  unfold addCall, addMessage. cbn [snd].
  match goal with |- context [if ?b then _ else _] => destruct b end.
  - match goal with |- context [flushToDatabase_drain cfg ?s] =>
      pose proof (drain_recentMessages s) as Hd;
      destruct (flushToDatabase_drain cfg s) as [st' [batch|]] end; apply Hd.
  - reflexivity.
Qed.

Lemma addedTo_snoc roomId calls c :
  addedTo roomId (calls ++ [c])
  = addedTo roomId calls
    ++ (if decide (add_roomId c = roomId) then [messageOf c] else []).
Proof.
  unfold addedTo. rewrite filter_app, fmap_app. f_equal.
  rewrite filter_cons, filter_nil. by destruct (decide _).
Qed.

Lemma addAll_snoc calls c st :
  addAll cfg (calls ++ [c]) st = addCall cfg (addAll cfg calls st) c.
Proof. unfold addAll. by rewrite foldl_app. Qed.

(** The cache of a room holds the newest [MAX_RECENT_MESSAGES] messages
    added to it, oldest first. *)
Lemma recent_cache_contents roomId calls :
  0 <= MAX_RECENT_MESSAGES cfg ->
  default [] (recentMessages (addAll cfg calls init) !! roomId)
  = newest (MAX_RECENT_MESSAGES cfg) (addedTo roomId calls).
Proof.
  intros Hcap. induction calls as [|c calls IH] using rev_ind.
  - by rewrite newest_all.
  - rewrite addAll_snoc, addCall_recentMessages, addedTo_snoc.
    destruct (decide (add_roomId c = roomId)) as [->|Hne].
    + rewrite lookup_insert_eq. simpl. rewrite IH, capped_newest by done.
      destruct (decide (MAX_RECENT_MESSAGES cfg = 0)) as [Hz|Hnz].
      * rewrite Hz. unfold newest. simpl. rewrite !Nat.sub_0_r.
        by rewrite !drop_all.
      * rewrite !newest_snoc by lia. rewrite newest_newest by lia.
        do 2 f_equal. lia.
    + rewrite lookup_insert_ne by done. rewrite IH. by rewrite app_nil_r.
Qed.

(** The cache of a room never holds more than [MAX_RECENT_MESSAGES]
    messages. *)
Lemma recent_cache_bounded roomId calls :
  0 <= MAX_RECENT_MESSAGES cfg ->
  getRoomMessageCount roomId (addAll cfg calls init) <= MAX_RECENT_MESSAGES cfg.
Proof.
  intros Hcap. unfold getRoomMessageCount.
  pose proof (recent_cache_contents roomId calls Hcap) as H.
  destruct (recentMessages (addAll cfg calls init) !! roomId) as [l|]; simpl in *.
  - rewrite H, newest_length by done. lia.
  - done.
Qed.

(** For a positive limit, [getRecentMessages] answers the newest
    [min limit MAX_RECENT_MESSAGES] messages added to the room, newest
    first. *)
Lemma getRecentMessages_newest_first roomId limit calls :
  0 <= MAX_RECENT_MESSAGES cfg -> 0 < limit ->
  getRecentMessages roomId limit (addAll cfg calls init)
  = reverse (newest (Z.min limit (MAX_RECENT_MESSAGES cfg)) (addedTo roomId calls)).
Proof.
  intros Hcap Hlim. unfold getRecentMessages.
  rewrite recent_cache_contents, slice_neg_positive by done.
  by rewrite newest_newest by lia.
Qed.

(** With limit 0 the array is sliced from [-0], that is from its start:
    the whole cache comes back. *)
Lemma getRecentMessages_zero roomId st :
  getRecentMessages roomId 0 st
  = reverse (default [] (recentMessages st !! roomId)).
Proof. unfold getRecentMessages. simpl. by rewrite slice_zero. Qed.

End RecentCache.

(** The scenario of the specification: capacity 2, three messages sent
    to room r1, and a read with limit 10. *)
Example recent_cache_scenario :
  let cfg := {| MessageBuffer.BATCH_SIZE := 100;
                MessageBuffer.MAX_RECENT_MESSAGES := 2;
                MessageBuffer.EMERGENCY_FLUSH_SIZE := 1000 |} in
  let send text i := mkAddCall "r1" "u1" "alice" text "text" text i in
  Msg.message <$>
    MessageBuffer.getRecentMessages "r1" 10
      (addAll cfg [send "hello" 1; send "world" 2; send "again" 3]
         MessageBuffer.init)
  = ["again"; "world"].
Proof. vm_compute. reflexivity. Qed.

(** C1. [getRecentMessages(room, N)] is to return the N most recently
    added messages.  After "hello" and "world" have been added to room r1,
    a read with limit 0 returns both messages instead of none: the limit
    is negated and passed to [slice], and [slice(-0)] is [slice(0)].  For
    every positive limit the answer is the newest [min limit 100] messages
    added to the room, newest first, and no room's cache exceeds 100
    messages. *)
Theorem getRecentMessages_limit_zero_returns_cache :
  (let send text i := mkAddCall "r1" "u1" "alice" text "text" text i in
   let st := addAll MessageBuffer.defaultConfig [send "hello" 1; send "world" 2]
               MessageBuffer.init in
   Msg.message <$> MessageBuffer.getRecentMessages "r1" 0 st = ["world"; "hello"]
   ∧ Msg.message <$> MessageBuffer.getRecentMessages "r1" 1 st = ["world"]
   ∧ MessageBuffer.getRecentMessages "r1" 0 st ≠ [])
  ∧ (∀ batchSize calls roomId limit,
       0 < limit ->
       MessageBuffer.getRecentMessages roomId limit
         (addAll (MessageBuffer.sourceConfig batchSize) calls MessageBuffer.init)
       = reverse (newest (Z.min limit 100) (addedTo roomId calls)))
  ∧ (∀ batchSize calls roomId,
       MessageBuffer.getRoomMessageCount roomId
         (addAll (MessageBuffer.sourceConfig batchSize) calls MessageBuffer.init)
       <= 100).
Proof.
  split_and!.
  - vm_compute. split_and!; [reflexivity | reflexivity | discriminate].
  - intros batchSize calls roomId limit Hpos.
    by apply (getRecentMessages_newest_first (MessageBuffer.sourceConfig batchSize)).
  - intros batchSize calls roomId.
    by apply (recent_cache_bounded (MessageBuffer.sourceConfig batchSize)).
Qed.

(** ** The write queue and the flush *)

Section Flush.
Import JsArray MessageBuffer.
Variable cfg : Config.

#[local] Abbreviation batchOf st := (splice0 (BATCH_SIZE cfg) (pendingWrites st)).1.
#[local] Abbreviation restOf st := (splice0 (BATCH_SIZE cfg) (pendingWrites st)).2.

Lemma splice0_nil n : splice0 n (@nil Msg.t) = ([], []).
Proof. unfold splice0. by rewrite take_nil, drop_nil. Qed.

Lemma flush_ok_pending st :
  pendingWrites (flushToDatabase cfg true st) = restOf st.
Proof.
  unfold flushToDatabase, flushToDatabase_drain.
  case_bool_decide as Hlen.
  - apply len_nil_iff in Hlen. rewrite Hlen. by rewrite splice0_nil.
  - by destruct (splice0 _ _).
Qed.

Lemma flush_ok_stored st :
  stored (flushToDatabase cfg true st) = stored st ++ map toMongo (batchOf st).
Proof.
  unfold flushToDatabase, flushToDatabase_drain.
  case_bool_decide as Hlen.
  - apply len_nil_iff in Hlen. rewrite Hlen, splice0_nil. simpl.
    by rewrite app_nil_r.
  - by destruct (splice0 _ _).
Qed.

Lemma requeue_nil : requeue cfg [] [] = [].
Proof.
  unfold requeue, unshift. cbn [app].
  destruct (_ >? _); [|done]. unfold splice0. cbn [snd]. apply drop_nil.
Qed.

Lemma flush_fail_pending st :
  pendingWrites (flushToDatabase cfg false st)
  = requeue cfg (batchOf st) (restOf st).
Proof.
  unfold flushToDatabase, flushToDatabase_drain.
  case_bool_decide as Hlen.
  - apply len_nil_iff in Hlen. rewrite Hlen, splice0_nil. simpl.
    by rewrite requeue_nil.
  - by destruct (splice0 _ _).
Qed.

Lemma flush_fail_stored st :
  stored (flushToDatabase cfg false st) = stored st.
Proof.
  unfold flushToDatabase, flushToDatabase_drain.
  case_bool_decide; [done|]. by destruct (splice0 _ _).
Qed.

(** The [catch] block puts the batch back in front of whatever the queue
    holds by then, as long as the ceiling is not exceeded. *)
Lemma requeue_under_ceiling batch pending :
  len (batch ++ pending) <= EMERGENCY_FLUSH_SIZE cfg * 2 ->
  requeue cfg batch pending = batch ++ pending.
Proof.
  intros Hle. unfold requeue, unshift.
  destruct (Z.gtb_spec (len (batch ++ pending)) (EMERGENCY_FLUSH_SIZE cfg * 2));
    [lia | done].
Qed.

(** Above the ceiling only the newest [EMERGENCY_FLUSH_SIZE] entries stay. *)
Lemma requeue_over_ceiling batch pending :
  0 <= EMERGENCY_FLUSH_SIZE cfg ->
  len (batch ++ pending) > EMERGENCY_FLUSH_SIZE cfg * 2 ->
  requeue cfg batch pending = newest (EMERGENCY_FLUSH_SIZE cfg) (batch ++ pending).
Proof.
  intros He Hgt. unfold requeue, unshift.
  destruct (Z.gtb_spec (len (batch ++ pending)) (EMERGENCY_FLUSH_SIZE cfg * 2));
    [|lia].
  rewrite splice0_rest_drop by lia. unfold newest, len in *. f_equal. lia.
Qed.

Lemma requeue_length_le batch pending :
  len (requeue cfg batch pending) <= len (batch ++ pending).
Proof.
  unfold requeue, unshift. destruct (_ >? _); [|lia].
  rewrite splice0_rest_length. pose proof (len_nonneg (batch ++ pending)). lia.
Qed.

Lemma requeue_subseteq batch pending :
  requeue cfg batch pending ⊆ batch ++ pending.
Proof.
  unfold requeue, unshift. destruct (_ >? _); [|done].
  unfold splice0; simpl. apply subseteq_drop.
Qed.

Lemma flush_pending_subseteq ok st :
  pendingWrites (flushToDatabase cfg ok st) ⊆ pendingWrites st.
Proof.
  destruct ok.
  - rewrite flush_ok_pending. unfold splice0; simpl. apply subseteq_drop.
  - rewrite flush_fail_pending.
    etrans; [apply requeue_subseteq|]. by rewrite splice0_app.
Qed.

Lemma flush_pending_length_le ok st :
  len (pendingWrites (flushToDatabase cfg ok st)) <= len (pendingWrites st).
Proof.
  destruct ok.
  - rewrite flush_ok_pending, splice0_rest_length.
    pose proof (len_nonneg (pendingWrites st)). lia.
  - rewrite flush_fail_pending.
    etrans; [apply requeue_length_le|]. by rewrite splice0_app.
Qed.

Lemma flush_stored ok st :
  ∃ batch, batch ⊆ pendingWrites st
           ∧ stored (flushToDatabase cfg ok st) = stored st ++ map toMongo batch.
Proof.
  destruct ok.
  - exists (batchOf st). split; [|apply flush_ok_stored].
    unfold splice0; simpl. apply subseteq_take.
  - exists []. split; [set_solver|].
    rewrite flush_fail_stored. by rewrite app_nil_r.
Qed.

End Flush.

(** Five pending messages and a batch size of two take three flushes:
    two, two and one message are stored. *)
Example flush_scenario_three_cycles :
  let entry i := Msg.mk "m" "r1" "u1" "alice" "x" "text" i in
  let cfg := MessageBuffer.sourceConfig 2 in
  let st0 := MessageBuffer.setPending (entry <$> [1; 2; 3; 4; 5]) MessageBuffer.init in
  let st1 := MessageBuffer.flushToDatabase cfg true st0 in
  let st2 := MessageBuffer.flushToDatabase cfg true st1 in
  let st3 := MessageBuffer.flushToDatabase cfg true st2 in
  (length (MessageBuffer.stored st1), length (MessageBuffer.stored st2),
   length (MessageBuffer.stored st3)) = (2%nat, 4%nat, 5%nat)
  ∧ MessageBuffer.pendingWrites st2 ≠ []
  ∧ MessageBuffer.pendingWrites st3 = [].
Proof. vm_compute. split_and!; [reflexivity | discriminate | reflexivity]. Qed.

(** A flush that [addMessage] started and that fails later puts its batch
    in front of whatever has been queued in the meantime. *)
Lemma settleInFlight_failure_requeues_at_head (cfg : MessageBuffer.Config)
    (batch : list Msg.t) (others : list (list Msg.t)) (st : MessageBuffer.State) :
  MessageBuffer.inFlight st = batch :: others ->
  JsArray.len (batch ++ MessageBuffer.pendingWrites st)
    <= MessageBuffer.EMERGENCY_FLUSH_SIZE cfg * 2 ->
  MessageBuffer.pendingWrites (MessageBuffer.settleInFlight cfg false st)
  = batch ++ MessageBuffer.pendingWrites st.
Proof.
  intros Hin Hle. unfold MessageBuffer.settleInFlight. rewrite Hin. simpl.
  by apply requeue_under_ceiling.
Qed.

(** C2. When the batch insert of a flush fails and the queue is within
    the ceiling of twice the emergency threshold, the drained batch is back
    at the head of the queue in its original order, so the queue is what it
    was; a following successful flush hands exactly that batch to the
    store, once, and takes it off the queue.  A failed insert is taken to
    have stored nothing. *)
Theorem failed_flush_requeues_batch (cfg : MessageBuffer.Config)
    (st : MessageBuffer.State) :
  JsArray.len (MessageBuffer.pendingWrites st)
    <= MessageBuffer.EMERGENCY_FLUSH_SIZE cfg * 2 ->
  let batch := (JsArray.splice0 (MessageBuffer.BATCH_SIZE cfg)
                  (MessageBuffer.pendingWrites st)).1 in
  let rest := (JsArray.splice0 (MessageBuffer.BATCH_SIZE cfg)
                 (MessageBuffer.pendingWrites st)).2 in
  let failed := MessageBuffer.flushToDatabase cfg false st in
  let retried := MessageBuffer.flushToDatabase cfg true failed in
  MessageBuffer.pendingWrites failed = batch ++ rest
  ∧ MessageBuffer.pendingWrites failed = MessageBuffer.pendingWrites st
  ∧ MessageBuffer.stored failed = MessageBuffer.stored st
  ∧ MessageBuffer.stored retried
    = MessageBuffer.stored st ++ map MessageBuffer.toMongo batch
  ∧ MessageBuffer.pendingWrites retried = rest.
Proof.
  intros Hle batch rest failed retried.
  assert (Hq : MessageBuffer.pendingWrites failed = batch ++ rest).
  { unfold failed, batch, rest. rewrite flush_fail_pending.
    apply requeue_under_ceiling. by rewrite splice0_app. }
  assert (Hsame : MessageBuffer.pendingWrites failed = MessageBuffer.pendingWrites st).
  { rewrite Hq. unfold batch, rest. apply splice0_app. }
  split_and!; [done | done | apply flush_fail_stored | |].
  - unfold retried. rewrite flush_ok_stored, Hsame.
    unfold failed. by rewrite flush_fail_stored.
  - unfold retried. by rewrite flush_ok_pending, Hsame.
Qed.

Lemma failed_flush_requeues_batch_witness :
  let entry i := Msg.mk "m" "r1" "u1" "alice" "x" "text" i in
  let cfg := MessageBuffer.sourceConfig 2 in
  let st := MessageBuffer.setPending [entry 1; entry 2; entry 3] MessageBuffer.init in
  let failed := MessageBuffer.flushToDatabase cfg false st in
  let retried := MessageBuffer.flushToDatabase cfg true failed in
  MessageBuffer.pendingWrites failed = [entry 1; entry 2] ++ [entry 3]
  ∧ MessageBuffer.pendingWrites failed = MessageBuffer.pendingWrites st
  ∧ MessageBuffer.stored failed = MessageBuffer.stored st
  ∧ MessageBuffer.stored retried
    = MessageBuffer.stored st ++ map MessageBuffer.toMongo [entry 1; entry 2]
  ∧ MessageBuffer.pendingWrites retried = [entry 3].
Proof.
  intros entry cfg st.
  apply (failed_flush_requeues_batch cfg st).
  vm_compute. discriminate.
Defined.

(** C3, as stated, fails: with 2001 entries queued, a failed flush does
    not keep the newest 2000. *)
Lemma failed_flush_drops_below_ceiling :
  ¬ (∀ st : MessageBuffer.State,
       JsArray.len (MessageBuffer.pendingWrites st) > 2000 ->
       MessageBuffer.pendingWrites
         (MessageBuffer.flushToDatabase MessageBuffer.defaultConfig false st)
       = newest 2000 (MessageBuffer.pendingWrites st)).
Proof.
  intros H.
  pose (queue := (λ i : nat, Msg.mk "m" "r1" "u1" "alice" "x" "text" (Z.of_nat i))
                   <$> seq 0 2001).
  specialize (H (MessageBuffer.setPending queue MessageBuffer.init)).
  apply (f_equal length) in H; [|by vm_compute].
  vm_compute in H. discriminate H.
Qed.

(** C3, amended.  After a failed flush the queue is kept as it was when it
    holds at most 2000 entries; when it holds more, everything but its
    newest 1000 entries is dropped.  Either way at most 2000 entries remain
    and nothing reaches the store. *)
Theorem failed_flush_keeps_newest_thousand (batchSize : Z)
    (st : MessageBuffer.State) :
  let queue := MessageBuffer.pendingWrites st in
  let after := MessageBuffer.flushToDatabase
                 (MessageBuffer.sourceConfig batchSize) false st in
  (JsArray.len queue > 2000 ->
     MessageBuffer.pendingWrites after = newest 1000 queue
     ∧ JsArray.len (MessageBuffer.pendingWrites after) = 1000)
  ∧ (JsArray.len queue <= 2000 -> MessageBuffer.pendingWrites after = queue)
  ∧ JsArray.len (MessageBuffer.pendingWrites after) <= 2000
  ∧ MessageBuffer.stored after = MessageBuffer.stored st.
Proof.
  intros queue after.
  assert (Hover : JsArray.len queue > 2000 ->
                  MessageBuffer.pendingWrites after = newest 1000 queue
                  ∧ JsArray.len (MessageBuffer.pendingWrites after) = 1000).
  { intros Hgt. unfold after. rewrite flush_fail_pending.
    rewrite requeue_over_ceiling; rewrite ?splice0_app; simpl; [|lia|fold queue; lia].
    split; [done|]. rewrite newest_length by lia. fold queue. lia. }
  assert (Hunder : JsArray.len queue <= 2000 ->
                   MessageBuffer.pendingWrites after = queue).
  { intros Hle. unfold after. rewrite flush_fail_pending.
    rewrite requeue_under_ceiling; rewrite ?splice0_app; simpl; [done | fold queue; lia]. }
  split_and!; [done | done | | apply flush_fail_stored].
  destruct (Z.le_gt_cases (JsArray.len queue) 2000) as [Hle|Hgt].
  - by rewrite Hunder.
  - destruct Hover as [_ ->]; lia.
Qed.

(** ** Shutdown *)

Section Shutdown.
Import JsArray MessageBuffer.
Variable cfg : Config.

Lemma shutdown_empty fuel outcome k st :
  pendingWrites st = [] ->
  onApplicationShutdown cfg fuel outcome k st = Some st.
Proof.
  intros Hq. destruct fuel; simpl; rewrite Hq;
    rewrite bool_decide_eq_false_2; done.
Qed.

Lemma shutdown_step fuel outcome k st :
  pendingWrites st ≠ [] ->
  onApplicationShutdown cfg (S fuel) outcome k st
  = onApplicationShutdown cfg fuel outcome (S k)
      (flushToDatabase cfg (outcome k) st).
Proof.
  intros Hq. simpl. rewrite bool_decide_eq_true_2; [done|].
  destruct (pendingWrites st); [done|]. unfold len. simpl. lia.
Qed.

Lemma shutdown_out_of_fuel outcome k st :
  pendingWrites st ≠ [] ->
  onApplicationShutdown cfg 0 outcome k st = None.
Proof.
  intros Hq. simpl. rewrite bool_decide_eq_true_2; [done|].
  destruct (pendingWrites st); [done|]. unfold len. simpl. lia.
Qed.

Lemma flush_ok_shrinks st :
  0 < BATCH_SIZE cfg -> pendingWrites st ≠ [] ->
  len (pendingWrites (flushToDatabase cfg true st)) < len (pendingWrites st).
Proof.
  intros Hb Hq. rewrite flush_ok_pending, splice0_rest_length.
  pose proof (len_nonneg (pendingWrites st)).
  assert (len (pendingWrites st) ≠ 0) by (by rewrite len_nil_iff).
  lia.
Qed.

Lemma nonempty_len_pos (q : list Msg.t) : q ≠ [] -> 0 < len q.
Proof. destruct q; [done|]. unfold len. simpl. lia. Qed.

Lemma flush_fail_nonempty st :
  0 < EMERGENCY_FLUSH_SIZE cfg -> pendingWrites st ≠ [] ->
  pendingWrites (flushToDatabase cfg false st) ≠ [].
Proof.
  intros He Hq. rewrite flush_fail_pending.
  pose proof (nonempty_len_pos _ Hq) as Hpos.
  rewrite <- (splice0_app (BATCH_SIZE cfg) (pendingWrites st)) in Hpos.
  intros Hnil. apply len_nil_iff in Hnil. revert Hnil.
  set (b := (splice0 (BATCH_SIZE cfg) (pendingWrites st)).1) in *.
  set (r := (splice0 (BATCH_SIZE cfg) (pendingWrites st)).2) in *.
  destruct (Z.le_gt_cases (len (b ++ r)) (EMERGENCY_FLUSH_SIZE cfg * 2)) as [Hle|Hgt].
  - rewrite requeue_under_ceiling by done. lia.
  - rewrite requeue_over_ceiling by lia. rewrite newest_length by lia. lia.
Qed.

(** With inserts that always fail the loop never leaves a non-empty queue. *)
Lemma shutdown_diverges fuel : ∀ k st,
  0 < EMERGENCY_FLUSH_SIZE cfg -> pendingWrites st ≠ [] ->
  onApplicationShutdown cfg fuel (λ _, false) k st = None.
Proof.
  induction fuel as [|fuel IH]; intros k st He Hq.
  - by apply shutdown_out_of_fuel.
  - rewrite shutdown_step by done. apply IH; [done|].
    by apply flush_fail_nonempty.
Qed.

Section recovering.
Variable outcome : nat -> bool.
Hypothesis batch_positive : 0 < BATCH_SIZE cfg.
Hypothesis recovers : ∀ k : nat, ∃ j : nat, (k <= j)%nat ∧ outcome j = true.

#[local] Abbreviation drains := (shutdownReturns cfg outcome).

Lemma drains_empty k st : pendingWrites st = [] -> drains k st.
Proof. intros Hq. exists 0%nat, st. split; [by apply shutdown_empty | done]. Qed.

Lemma drains_step k st :
  drains (S k) (flushToDatabase cfg (outcome k) st) -> drains k st.
Proof.
  intros (fuel & st' & Hrun & Hq).
  destruct (decide (pendingWrites st = [])) as [He|Hne].
  - by apply drains_empty.
  - exists (S fuel), st'. by rewrite shutdown_step.
Qed.

Lemma drains_bounded (n : nat) : ∀ k st,
  len (pendingWrites st) <= Z.of_nat n -> drains k st.
Proof.
  induction n as [|n IHn]; intros k st Hlen.
  - apply drains_empty. apply len_nil_iff.
    pose proof (len_nonneg (pendingWrites st)). lia.
  - destruct (recovers k) as (j & Hkj & Hj).
    remember (j - k)%nat as d eqn:Hd.
    revert k st Hlen j Hkj Hj Hd.
    induction d as [|d IHd]; intros k st Hlen j Hkj Hj Hd.
    + assert (j = k) as -> by lia.
      apply drains_step. rewrite Hj.
      destruct (decide (pendingWrites st = [])) as [He|Hne].
      * apply drains_empty. apply len_nil_iff.
        pose proof (flush_pending_length_le cfg true st) as Hle.
        rewrite He in Hle. unfold len at 2 in Hle. simpl in Hle.
        pose proof (len_nonneg (pendingWrites (flushToDatabase cfg true st))).
        lia.
      * apply IHn. pose proof (flush_ok_shrinks st batch_positive Hne). lia.
    + apply drains_step. destruct (outcome k) eqn:Hk.
      * destruct (decide (pendingWrites st = [])) as [He|Hne].
        -- apply drains_empty. apply len_nil_iff.
           pose proof (flush_pending_length_le cfg true st) as Hle.
           rewrite He in Hle. unfold len at 2 in Hle. simpl in Hle.
           pose proof (len_nonneg (pendingWrites (flushToDatabase cfg true st))).
           lia.
        -- apply IHn. pose proof (flush_ok_shrinks st batch_positive Hne). lia.
      * apply (IHd (S k) _) with (j := j); [|lia|done|lia].
        pose proof (flush_pending_length_le cfg false st). lia.
Qed.

End recovering.
End Shutdown.

(** C8, as stated, fails: with one message pending and a store that
    rejects every batch, the shutdown loop returns for no number of
    iterations. *)
Lemma shutdown_never_returns_when_every_insert_fails :
  let st := MessageBuffer.setPending
              [Msg.mk "m1" "r1" "u1" "alice" "hello" "text" 1] MessageBuffer.init in
  ¬ ∃ fuel st',
      MessageBuffer.onApplicationShutdown MessageBuffer.defaultConfig fuel
        (λ _, false) 0 st = Some st'.
Proof.
  intros st (fuel & st' & Hrun).
  rewrite shutdown_diverges in Hrun; [discriminate | done | done].
Qed.

(** C8, amended.  The shutdown loop repeats the flush until the queue is
    empty and has no retry limit.  With a positive batch size it returns,
    with an empty queue, whenever the store accepts a batch again after
    every failure. *)
Theorem shutdown_returns_when_inserts_recover (cfg : MessageBuffer.Config)
    (outcome : nat -> bool) (st : MessageBuffer.State) :
  0 < MessageBuffer.BATCH_SIZE cfg ->
  (∀ k : nat, ∃ j : nat, (k <= j)%nat ∧ outcome j = true) ->
  ∃ fuel st',
    MessageBuffer.onApplicationShutdown cfg fuel outcome 0 st = Some st'
    ∧ MessageBuffer.pendingWrites st' = [].
Proof.
  intros Hb Hrec.
  apply (drains_bounded cfg outcome Hb Hrec
           (length (MessageBuffer.pendingWrites st))).
  unfold JsArray.len. lia.
Qed.

Lemma shutdown_returns_when_inserts_recover_witness :
  let entry i := Msg.mk "m" "r1" "u1" "alice" "x" "text" i in
  let st := MessageBuffer.setPending [entry 1; entry 2; entry 3] MessageBuffer.init in
  ∃ fuel st',
    MessageBuffer.onApplicationShutdown (MessageBuffer.sourceConfig 2) fuel
      (λ k, Nat.odd k) 0 st = Some st'
    ∧ MessageBuffer.pendingWrites st' = [].
Proof.
  intros entry st.
  apply (shutdown_returns_when_inserts_recover (MessageBuffer.sourceConfig 2)
           (λ k, Nat.odd k) st).
  - simpl. lia.
  - intros k. destruct (Nat.odd k) eqn:Hk.
    + exists k. split; [lia | exact Hk].
    + exists (S k). split; [lia|].
      rewrite Nat.odd_succ. rewrite <- Nat.negb_odd, Hk. reflexivity.
Defined.

(** ** Ending a room *)

Section ClearRoom.
Import JsArray MessageBuffer.
Variable cfg : Config.

Lemma flushes_snoc outcomes ok st :
  flushes cfg (outcomes ++ [ok]) st = flushToDatabase cfg ok (flushes cfg outcomes st).
Proof. unfold flushes. by rewrite foldl_app. Qed.

Lemma flushes_pending_subseteq outcomes st :
  pendingWrites (flushes cfg outcomes st) ⊆ pendingWrites st.
Proof.
  induction outcomes as [|ok outcomes IH] using rev_ind; [done|].
  rewrite flushes_snoc. etrans; [apply flush_pending_subseteq | done].
Qed.

Lemma filter_toMongo_none roomId (batch : list Msg.t) :
  (∀ msg, msg ∈ batch -> Msg.roomId msg ≠ roomId) ->
  filter (λ doc, doc_roomId doc = roomId) (map toMongo batch) = [].
Proof.
  induction batch as [|m batch IH]; intros Hall; [done|].
  simpl. rewrite filter_cons_False.
  - apply IH. intros msg Hin. apply Hall. by right.
  - simpl. apply Hall. by left.
Qed.

(** Flushes store nothing of a room that has no entry in the queue. *)
Lemma flushes_store_nothing_of roomId outcomes st :
  (∀ msg, msg ∈ pendingWrites st -> Msg.roomId msg ≠ roomId) ->
  filter (λ doc, doc_roomId doc = roomId) (stored (flushes cfg outcomes st))
  = filter (λ doc, doc_roomId doc = roomId) (stored st).
Proof.
  intros Hnone.
  induction outcomes as [|ok outcomes IH] using rev_ind; [done|].
  rewrite flushes_snoc.
  destruct (flush_stored cfg ok (flushes cfg outcomes st)) as (batch & Hsub & ->).
  rewrite filter_app, IH, filter_toMongo_none; [by rewrite app_nil_r|].
  intros msg Hin. apply Hnone.
  by apply (flushes_pending_subseteq outcomes st), Hsub.
Qed.

End ClearRoom.

(** C10. [clearRoomMessages], which [endRoom] calls, deletes the room's
    recent cache and takes the room's entries out of the write queue
    without storing them: the store is untouched, and no later flush,
    whatever its outcome, stores one of them.  The caches and the queued
    entries of the other rooms are as before. *)
Theorem clearRoomMessages_discards_unflushed (cfg : MessageBuffer.Config)
    (roomId : string) (now : Z) (st : ChatService.State) :
  let before := ChatService.messageBufferService st in
  let after := ChatService.messageBufferService (ChatService.endRoom roomId now st) in
  after = MessageBuffer.clearRoomMessages roomId before
  ∧ MessageBuffer.recentMessages after !! roomId = None
  ∧ MessageBuffer.getRecentMessages roomId 100 after = []
  ∧ MessageBuffer.pendingWrites after
    = filter (λ msg, Msg.roomId msg ≠ roomId) (MessageBuffer.pendingWrites before)
  ∧ (∀ msg, msg ∈ MessageBuffer.pendingWrites after -> Msg.roomId msg ≠ roomId)
  ∧ MessageBuffer.stored after = MessageBuffer.stored before
  ∧ (∀ outcomes,
       filter (λ doc, MessageBuffer.doc_roomId doc = roomId)
              (MessageBuffer.stored (flushes cfg outcomes after))
       = filter (λ doc, MessageBuffer.doc_roomId doc = roomId)
                (MessageBuffer.stored before))
  ∧ (∀ other, other ≠ roomId ->
       MessageBuffer.recentMessages after !! other
       = MessageBuffer.recentMessages before !! other
       ∧ filter (λ msg, Msg.roomId msg = other) (MessageBuffer.pendingWrites after)
         = filter (λ msg, Msg.roomId msg = other) (MessageBuffer.pendingWrites before)).
Proof.
  intros before after.
  assert (Hq : ∀ msg, msg ∈ MessageBuffer.pendingWrites after -> Msg.roomId msg ≠ roomId).
  { intros msg Hin. unfold after in Hin. simpl in Hin.
    by apply list_elem_of_filter in Hin as [? _]. }
  split_and!; try done.
  - unfold after. simpl. apply lookup_delete_eq.
  - unfold after, MessageBuffer.getRecentMessages. simpl.
    by rewrite lookup_delete_eq.
  - intros outcomes. by rewrite flushes_store_nothing_of.
  - intros other Hne. split.
    + unfold after. simpl. by apply lookup_delete_ne.
    + unfold after. simpl. rewrite list_filter_filter.
      apply list_filter_iff. intros msg. split; [by intros [? _]|].
      intros Heq. split; [done | congruence].
Qed.

(** ** Insertion-ordered maps *)

Section OMapFacts.
Context {V : Type}.
Implicit Types m : list (string * V).

Lemma filter_all_in {A} (P : A -> Prop) `{!∀ x, Decision (P x)} (l : list A) :
  (∀ x, x ∈ l -> P x) -> filter P l = l.
Proof.
  induction l as [|x l IH]; intros Hall; [done|].
  rewrite filter_cons_True by (apply Hall; by left).
  f_equal. apply IH. intros y Hy. apply Hall. by right.
Qed.

Lemma filter_ext_in {A} (P Q : A -> Prop)
    `{!∀ x, Decision (P x)} `{!∀ x, Decision (Q x)} (l : list A) :
  (∀ x, x ∈ l -> P x ↔ Q x) -> filter P l = filter Q l.
Proof.
  induction l as [|x l IH]; intros Hall; [done|].
  assert (Hx : P x ↔ Q x) by (apply Hall; by left).
  assert (Hl : filter P l = filter Q l).
  { apply IH. intros y Hy. apply Hall. by right. }
  rewrite !filter_cons. rewrite Hl.
  destruct (decide (P x)), (decide (Q x)); tauto.
Qed.

Lemma NoDup_fmap_eq {A B} (f : A -> B) (l : list A) x y :
  NoDup (f <$> l) -> x ∈ l -> y ∈ l -> f x = f y -> x = y.
Proof.
  induction l as [|a l IH]; intros Hnd Hx Hy Hf; [by inv Hx|].
  rewrite fmap_cons in Hnd. apply NoDup_cons in Hnd as [Ha Hnd].
  apply elem_of_cons in Hx as [->|Hx]; apply elem_of_cons in Hy as [->|Hy].
  - done.
  - exfalso. apply Ha. rewrite Hf. by apply list_elem_of_fmap_2.
  - exfalso. apply Ha. rewrite <- Hf. by apply list_elem_of_fmap_2.
  - by apply IH.
Qed.

Lemma omap_key_elem m k v : (k, v) ∈ m -> k ∈ OMap.keys m.
Proof. intros H. unfold OMap.keys. by apply (list_elem_of_fmap_2 fst) in H. Qed.

Lemma omap_get_None m k : OMap.get k m = None ↔ k ∉ OMap.keys m.
Proof.
  unfold OMap.keys. induction m as [|[k0 v0] m IH]; simpl.
  - split; [intros _; apply not_elem_of_nil | done].
  - case_bool_decide as Hk.
    + split; [done|]. intros Hn. exfalso. apply Hn. subst. by left.
    + rewrite IH. rewrite not_elem_of_cons. split; [intros ?; split; [auto | done] | tauto].
Qed.

Lemma omap_get_Some_elem m k v : OMap.get k m = Some v -> (k, v) ∈ m.
Proof.
  induction m as [|[k0 v0] m IH]; simpl; [done|].
  case_bool_decide as Hk.
  - intros [= ->]. subst. by left.
  - intros H. right. by apply IH.
Qed.

Lemma omap_elem_get m k v : NoDup (OMap.keys m) -> (k, v) ∈ m -> OMap.get k m = Some v.
Proof.
  unfold OMap.keys. induction m as [|[k0 v0] m IH]; intros Hnd Hin; [by inv Hin|].
  rewrite fmap_cons in Hnd. apply NoDup_cons in Hnd as [Hk0 Hnd]. simpl in *.
  apply elem_of_cons in Hin as [[= -> ->]|Hin].
  - by rewrite bool_decide_eq_true_2.
  - case_bool_decide as Hk.
    + subst. exfalso. apply Hk0. by apply (omap_key_elem m k v).
    + by apply IH.
Qed.

Lemma omap_del_filter m k :
  NoDup (OMap.keys m) -> OMap.del k m = filter (λ e, e.1 ≠ k) m.
Proof.
  unfold OMap.keys. induction m as [|[k0 v0] m IH]; intros Hnd; [done|].
  rewrite fmap_cons in Hnd. apply NoDup_cons in Hnd as [Hk0 Hnd]. simpl in *.
  case_bool_decide as Hk.
  - subst. rewrite filter_cons_False by (simpl; tauto).
    symmetry. apply filter_all_in. intros [k' v'] Hin. simpl. intros ->.
    apply Hk0. by apply (omap_key_elem m k v').
  - rewrite filter_cons_True by done. f_equal. by apply IH.
Qed.

Lemma omap_get_put_eq m k v : OMap.get k (OMap.put k v m) = Some v.
Proof.
  induction m as [|[k0 v0] m IH]; simpl.
  - by rewrite bool_decide_eq_true_2.
  - case_bool_decide as Hk; simpl.
    + by rewrite bool_decide_eq_true_2.
    + by rewrite bool_decide_eq_false_2.
Qed.

Lemma omap_get_put_ne m k k' v : k ≠ k' -> OMap.get k' (OMap.put k v m) = OMap.get k' m.
Proof.
  intros Hne. induction m as [|[k0 v0] m IH]; simpl.
  - by rewrite bool_decide_eq_false_2.
  - case_bool_decide as Hk; simpl.
    + subst. by rewrite !bool_decide_eq_false_2.
    + by rewrite IH.
Qed.

Lemma omap_elem_put m k v e : e ∈ OMap.put k v m -> e = (k, v) ∨ e ∈ m.
Proof.
  induction m as [|[k0 v0] m IH]; simpl.
  - intros ->%list_elem_of_singleton. by left.
  - case_bool_decide as Hk.
    + intros [->|H]%elem_of_cons; [by left|]. right. by right.
    + intros [->|H]%elem_of_cons; [right; by left|].
      destruct (IH H); [by left|]. right. by right.
Qed.

Lemma omap_put_keys_NoDup m k v :
  NoDup (OMap.keys m) -> NoDup (OMap.keys (OMap.put k v m)).
Proof.
  unfold OMap.keys. induction m as [|[k0 v0] m IH]; intros Hnd; simpl.
  - apply NoDup_singleton.
  - rewrite fmap_cons in Hnd. apply NoDup_cons in Hnd as [Hk0 Hnd]. simpl in *.
    case_bool_decide as Hk; rewrite fmap_cons; simpl; apply NoDup_cons.
    + subst. done.
    + split; [|by apply IH].
      intros (e & He1 & He2)%list_elem_of_fmap.
      apply omap_elem_put in He2 as [->|He2]; simpl in *; [done|].
      apply Hk0. rewrite He1. by apply list_elem_of_fmap_2.
Qed.

Lemma omap_put_NoDup_on {B} (f : V -> B) m k v :
  NoDup (f <$> OMap.values m) ->
  (∀ e, e ∈ m -> f e.2 ≠ f v) ->
  NoDup (f <$> OMap.values (OMap.put k v m)).
Proof.
  unfold OMap.values. induction m as [|[k0 v0] m IH]; intros Hnd Hfresh; simpl.
  - apply NoDup_singleton.
  - rewrite !fmap_cons in Hnd. apply NoDup_cons in Hnd as [Hv0 Hnd]. simpl in *.
    case_bool_decide as Hk; rewrite !fmap_cons; simpl; apply NoDup_cons.
    + split; [|done].
      intros (x & Hx1 & (e & -> & He)%list_elem_of_fmap)%list_elem_of_fmap.
      apply (Hfresh e); [by right | done].
    + split.
      * intros (x & Hx1 & (e & -> & He)%list_elem_of_fmap)%list_elem_of_fmap.
        apply omap_elem_put in He as [->|He]; simpl in *.
        -- apply (Hfresh (k0, v0)); [by left | done].
        -- apply Hv0. rewrite Hx1. apply list_elem_of_fmap_2.
           by apply (list_elem_of_fmap_2 snd) in He.
      * apply IH; [done|]. intros e He. apply Hfresh. by right.
Qed.

Lemma omap_findFirst_Some p m k v :
  OMap.findFirst p m = Some (k, v) -> (k, v) ∈ m ∧ p v = true.
Proof.
  induction m as [|[k0 v0] m IH]; simpl; [done|].
  destruct (p v0) eqn:Hp.
  - intros [= -> ->]. split; [by left | done].
  - intros H. destruct (IH H). split; [by right | done].
Qed.

Lemma omap_findFirst_None p m :
  OMap.findFirst p m = None -> ∀ e, e ∈ m -> p e.2 = false.
Proof.
  induction m as [|[k0 v0] m IH]; simpl; intros H e He; [by inv He|].
  destruct (p v0) eqn:Hp; [done|].
  apply elem_of_cons in He as [->|He]; [done | by apply IH].
Qed.

Lemma omap_updateFirst_keys p f m :
  OMap.keys (OMap.updateFirst p f m) = OMap.keys m.
Proof.
  unfold OMap.keys. induction m as [|[k0 v0] m IH]; simpl; [done|].
  destruct (p v0); rewrite !fmap_cons; simpl; [done | by rewrite IH].
Qed.

Lemma omap_updateFirst_on {B} (g : V -> B) p f m :
  (∀ v, g (f v) = g v) ->
  g <$> OMap.values (OMap.updateFirst p f m) = g <$> OMap.values m.
Proof.
  intros Hg. unfold OMap.values. induction m as [|[k0 v0] m IH]; simpl; [done|].
  destruct (p v0); rewrite !fmap_cons; simpl; [by rewrite Hg | by rewrite IH].
Qed.

Lemma omap_elem_updateFirst p f m e :
  e ∈ OMap.updateFirst p f m -> e ∈ m ∨ ∃ v, (e.1, v) ∈ m ∧ e.2 = f v.
Proof.
  induction m as [|[k0 v0] m IH]; simpl; [by left|].
  destruct (p v0).
  - intros [->|H]%elem_of_cons.
    + right. exists v0. split; [by left | done].
    + left. by right.
  - intros [->|H]%elem_of_cons; [left; by left|].
    destruct (IH H) as [?|(v & ? & ?)]; [left; by right|].
    right. exists v. split; [by right | done].
Qed.

End OMapFacts.

(** ** The session registry *)

Section Registry.
Import SessionManager.
Implicit Types st : State.

Lemma sessions_users_sublist (m m' : list (string * Session.t)) :
  m' `sublist_of` m ->
  NoDup (Session.userId <$> OMap.values m) ->
  NoDup (Session.userId <$> OMap.values m').
Proof.
  intros Hsub Hnd. eapply sublist_NoDup; [exact Hnd|].
  unfold OMap.values. by apply fmap_sublist, fmap_sublist.
Qed.

Lemma sessions_keys_sublist (m m' : list (string * Session.t)) :
  m' `sublist_of` m -> NoDup (OMap.keys m) -> NoDup (OMap.keys m').
Proof.
  intros Hsub Hnd. eapply sublist_NoDup; [exact Hnd|].
  unfold OMap.keys. by apply fmap_sublist.
Qed.

(** Under the invariant, deleting the first session of a user deletes
    every session of that user. *)
Lemma evict_first_is_filter userId (m : list (string * Session.t)) :
  NoDup (OMap.keys m) -> NoDup (Session.userId <$> OMap.values m) ->
  match OMap.findFirst (isUser userId) m with
  | Some (socketId, _) => OMap.del socketId m
  | None => m
  end = filter (λ e, Session.userId e.2 ≠ userId) m.
Proof.
  intros Hk Hu. destruct (OMap.findFirst _ m) as [[sid s]|] eqn:Hf.
  - apply omap_findFirst_Some in Hf as [Hin Hp].
    unfold isUser in Hp. apply bool_decide_eq_true_1 in Hp.
    rewrite omap_del_filter by done.
    apply filter_ext_in. intros [k' s'] Hin'. simpl. split.
    + intros Hne Heq. apply Hne.
      assert ((k', s') = (sid, s)) as [= -> ->]; [|done].
      apply (NoDup_fmap_eq (λ e, Session.userId e.2) m); [|done|done|simpl; congruence].
      unfold OMap.values in Hu. by rewrite <- list_fmap_compose in Hu.
    + intros Hne ->. apply Hne.
      assert (Some s' = Some s) as [= ->]; [|done].
      rewrite <- !(omap_elem_get m sid) by done. done.
  - symmetry. apply filter_all_in. intros e He.
    apply (omap_findFirst_None _ _ Hf) in He.
    unfold isUser in He. by apply bool_decide_eq_false_1 in He.
Qed.

Lemma removeUserFromAllRooms_sessions userId st :
  RegistryInv st ->
  userSessions (removeUserFromAllRooms userId st)
  = filter (λ e, Session.userId e.2 ≠ userId) (userSessions st).
Proof.
  intros [Hk Hu _ _]. rewrite <- evict_first_is_filter by done.
  unfold removeUserFromAllRooms.
  destruct (userRooms st !! userId) as [r|]; [case_bool_decide|]; simpl;
    destruct (OMap.findFirst _ _) as [[? ?]|]; done.
Qed.

Lemma removeUserFromAllRooms_userRooms userId st :
  userRooms (removeUserFromAllRooms userId st) = delete userId (userRooms st).
Proof.
  unfold removeUserFromAllRooms.
  destruct (userRooms st !! userId) as [r|]; [case_bool_decide|]; simpl;
    destruct (OMap.findFirst _ _) as [[? ?]|]; done.
Qed.

Lemma removeUserFromAllRooms_roomUsers userId st :
  roomUsers (removeUserFromAllRooms userId st)
  = match userRooms st !! userId with
    | Some roomId =>
        if bool_decide (roomId ≠ "") then setDelete roomId userId (roomUsers st)
        else roomUsers st
    | None => roomUsers st
    end.
Proof.
  unfold removeUserFromAllRooms.
  destruct (userRooms st !! userId) as [r|]; [case_bool_decide|]; simpl;
    destruct (OMap.findFirst _ _) as [[? ?]|]; done.
Qed.

Lemma removeUserFromAllRooms_typingUsers userId st :
  typingUsers (removeUserFromAllRooms userId st)
  = match userRooms st !! userId with
    | Some roomId =>
        if bool_decide (roomId ≠ "") then setDelete roomId userId (typingUsers st)
        else typingUsers st
    | None => typingUsers st
    end.
Proof.
  unfold removeUserFromAllRooms.
  destruct (userRooms st !! userId) as [r|]; [case_bool_decide|]; simpl;
    destruct (OMap.findFirst _ _) as [[? ?]|]; done.
Qed.

Lemma inv_init : RegistryInv init.
Proof.
  split; simpl.
  - apply NoDup_nil_2.
  - apply NoDup_nil_2.
  - intros e He. by inv He.
  - intros e He. by inv He.
Qed.

Lemma inv_removeUserFromAllRooms userId st :
  RegistryInv st -> RegistryInv (removeUserFromAllRooms userId st).
Proof.
  intros Hinv. pose proof Hinv as [Hk Hu Hr Hn].
  split; rewrite ?removeUserFromAllRooms_sessions, ?removeUserFromAllRooms_userRooms
    by done.
  - eapply sessions_keys_sublist; [apply sublist_filter | done].
  - eapply sessions_users_sublist; [apply sublist_filter | done].
  - intros e [Hne He]%list_elem_of_filter.
    rewrite lookup_delete_ne by done. by apply Hr.
  - intros e [Hne He]%list_elem_of_filter. by apply Hn.
Qed.

Lemma removeUserFromRoom_sessions socketId st :
  RegistryInv st ->
  userSessions (removeUserFromRoom socketId st).2
  = filter (λ e, e.1 ≠ socketId) (userSessions st).
Proof.
  intros [Hk _ _ _]. unfold removeUserFromRoom.
  destruct (OMap.get socketId (userSessions st)) as [s|] eqn:Hg; simpl.
  - by apply omap_del_filter.
  - symmetry. apply filter_all_in. intros [k v] Hin. simpl. intros ->.
    apply omap_get_None in Hg. apply Hg. by apply (omap_key_elem _ _ v).
Qed.

Lemma inv_removeUserFromRoom socketId st :
  RegistryInv st -> RegistryInv (removeUserFromRoom socketId st).2.
Proof.
  intros Hinv. pose proof Hinv as [Hk Hu Hr Hn].
  split; rewrite ?removeUserFromRoom_sessions by done.
  - eapply sessions_keys_sublist; [apply sublist_filter | done].
  - eapply sessions_users_sublist; [apply sublist_filter | done].
  - intros e [Hne He]%list_elem_of_filter.
    unfold removeUserFromRoom.
    destruct (OMap.get socketId (userSessions st)) as [s|] eqn:Hg; simpl;
      [|by apply Hr].
    apply omap_get_Some_elem in Hg.
    rewrite lookup_delete_ne; [by apply Hr|].
    intros Heq. apply Hne.
    assert (e = (socketId, s)) as ->; [|done].
    apply (NoDup_fmap_eq (λ e, Session.userId e.2) (userSessions st));
      [|done|done|done].
    unfold OMap.values in Hu. by rewrite <- list_fmap_compose in Hu.
  - intros e [Hne He]%list_elem_of_filter. by apply Hn.
Qed.

Lemma inv_addUserToRoom socketId userId username roomId now st :
  roomId ≠ "" -> RegistryInv st ->
  RegistryInv (addUserToRoom socketId userId username roomId now st).
Proof.
  intros Hroom Hinv.
  pose proof (inv_removeUserFromAllRooms userId st Hinv) as [Hk Hu Hr Hn].
  pose proof (removeUserFromAllRooms_sessions userId st Hinv) as Hs.
  unfold addUserToRoom.
  set (ev := removeUserFromAllRooms userId st) in *.
  set (new := Session.mk userId username socketId roomId now now).
  assert (Hfresh : ∀ e, e ∈ userSessions ev -> Session.userId e.2 ≠ userId).
  { intros e He. rewrite Hs in He. by apply list_elem_of_filter in He as [? _]. }
  split; simpl.
  - by apply omap_put_keys_NoDup.
  - by apply omap_put_NoDup_on.
  - intros e [->|He]%omap_elem_put; simpl.
    + by rewrite lookup_insert_eq.
    + rewrite lookup_insert_ne; [by apply Hr|]. intros Heq. by apply (Hfresh e).
  - intros e [->|He]%omap_elem_put; simpl; [done | by apply Hn].
Qed.

Lemma inv_updateUserActivity userId now st :
  RegistryInv st -> RegistryInv (updateUserActivity userId now st).
Proof.
  intros [Hk Hu Hr Hn]. unfold updateUserActivity. split; simpl.
  - by rewrite omap_updateFirst_keys.
  - by rewrite omap_updateFirst_on.
  - intros e [He|(v & He & Hv)]%omap_elem_updateFirst; [by apply Hr|].
    rewrite Hv. simpl. by apply (Hr (e.1, v)).
  - intros e [He|(v & He & Hv)]%omap_elem_updateFirst; [by apply Hn|].
    rewrite Hv. simpl. by apply (Hn (e.1, v)).
Qed.

Lemma inv_cleanupInactiveUsers threshold now st :
  RegistryInv st -> RegistryInv (cleanupInactiveUsers threshold now st).
Proof.
  unfold cleanupInactiveUsers. generalize (OMap.keys
    (filter (λ e, now - Session.lastActivity e.2 > threshold) (userSessions st))).
  intros l. revert st. induction l as [|sid l IH]; intros st Hinv; [done|].
  simpl. apply IH. by apply inv_removeUserFromRoom.
Qed.

Lemma inv_disconnectUser userId st :
  RegistryInv st -> RegistryInv (disconnectUser userId st).
Proof.
  intros Hinv. unfold disconnectUser.
  destruct (OMap.findFirst _ _) as [[sid s]|]; [|done].
  by apply inv_removeUserFromRoom.
Qed.

Lemma inv_applyOp op st :
  fromGateway op -> RegistryInv st -> RegistryInv (applyOp op st).
Proof.
  intros Hop Hinv. destruct op; simpl in *.
  - by apply inv_addUserToRoom.
  - by apply inv_removeUserFromRoom.
  - by apply inv_removeUserFromAllRooms.
  - by apply inv_updateUserActivity.
  - by destruct Hinv.
  - by apply inv_cleanupInactiveUsers.
  - unfold checkRateLimit. case_bool_decide; simpl; by destruct Hinv.
  - by destruct Hinv.
  - by destruct Hinv.
  - by apply inv_disconnectUser.
Qed.

Lemma inv_run ops : ∀ st,
  Forall fromGateway ops -> RegistryInv st -> RegistryInv (run ops st).
Proof.
  induction ops as [|op ops IH]; intros st Hops Hinv; [done|].
  apply Forall_cons in Hops as [Hop Hops].
  simpl. apply IH; [done|]. by apply inv_applyOp.
Qed.

End Registry.

Section RegistryJoin.
Import SessionManager.
Implicit Types st : State.

Lemma one_socket_per_user userId (m : list (string * Session.t)) :
  NoDup (Session.userId <$> OMap.values m) ->
  (length (filter (λ e, Session.userId e.2 = userId) m) <= 1)%nat.
Proof.
  unfold OMap.values. induction m as [|e m IH]; intros Hnd; [simpl; lia|].
  rewrite !fmap_cons in Hnd. apply NoDup_cons in Hnd as [He Hnd].
  destruct (decide (Session.userId e.2 = userId)) as [Heq|Hne].
  - rewrite filter_cons_True by done.
    replace (filter (λ e0, Session.userId e0.2 = userId) m) with
      (@nil (string * Session.t)); [simpl; lia|].
    symmetry. apply elem_of_nil_inv. intros x [Hx Hin]%list_elem_of_filter.
    apply He. rewrite Heq, <- Hx.
    apply list_elem_of_fmap_2. by apply (list_elem_of_fmap_2 snd) in Hin.
  - rewrite filter_cons_False by done. by apply IH.
Qed.

Lemma filter_put_fresh (P : string * Session.t -> Prop) `{!∀ e, Decision (P e)}
    (m : list (string * Session.t)) k v :
  (∀ k', P (k', v)) -> (∀ e, e ∈ m -> ¬ P e) ->
  filter P (OMap.put k v m) = [(k, v)].
Proof.
  intros Hv. induction m as [|[k0 v0] m IH]; intros Hm; simpl.
  - by rewrite filter_cons_True, filter_nil.
  - case_bool_decide as Hk.
    + rewrite filter_cons_True by done. f_equal.
      apply elem_of_nil_inv. intros x [Hx Hin]%list_elem_of_filter.
      apply (Hm x); [by right | done].
    + rewrite filter_cons_False by (apply Hm; by left).
      apply IH. intros e He. apply Hm. by right.
Qed.

Lemma setDelete_not_in roomId userId (m : gmap string (gset string)) :
  ¬ inRoomSet roomId userId (setDelete roomId userId m).
Proof.
  unfold inRoomSet, setDelete. rewrite lookup_alter_eq.
  destruct (m !! roomId) as [users|]; simpl.
  - rewrite elem_of_difference, elem_of_singleton. tauto.
  - apply not_elem_of_empty.
Qed.

End RegistryJoin.

(** C5. In every state the registry reaches from the empty one, no two
    sessions share a connection id and no two share a user id.  When a
    user who has a session on one connection joins from another one,
    [addUserToRoom] first removes that session, the user's membership of
    its room and the user's typing entry there, and registers the new
    session on the state so obtained.  Joins carry a non-empty room id,
    which both gateways check before they call the registry. *)
Theorem registry_one_session_per_user (ops : list SessionManager.Op) :
  Forall SessionManager.fromGateway ops ->
  let st := SessionManager.run ops SessionManager.init in
  NoDup (OMap.keys (SessionManager.userSessions st))
  ∧ (∀ e1 e2, e1 ∈ SessionManager.userSessions st ->
       e2 ∈ SessionManager.userSessions st ->
       Session.userId e1.2 = Session.userId e2.2 -> e1 = e2)
  ∧ (∀ userId, (length (SessionManager.getUserSocketIds userId st) <= 1)%nat)
  ∧ ∀ first s second username roomId now,
      SessionManager.getUserBySocketId first st = Some s ->
      second ≠ first ->
      let userId := Session.userId s in
      let evicted := SessionManager.removeUserFromAllRooms userId st in
      let joined :=
        SessionManager.addUserToRoom second userId username roomId now st in
      let session := Session.mk userId username second roomId now now in
      SessionManager.getUserBySocketId first evicted = None
      ∧ SessionManager.getUserSocketIds userId evicted = []
      ∧ SessionManager.userRooms evicted !! userId = None
      ∧ ¬ SessionManager.inRoomSet (Session.roomId s) userId
            (SessionManager.roomUsers evicted)
      ∧ ¬ SessionManager.inRoomSet (Session.roomId s) userId
            (SessionManager.typingUsers evicted)
      ∧ SessionManager.userSessions joined
        = OMap.put second session (SessionManager.userSessions evicted)
      ∧ SessionManager.userRooms joined
        = <[userId := roomId]> (SessionManager.userRooms evicted)
      ∧ SessionManager.roomUsers joined
        = SessionManager.setAdd roomId userId (SessionManager.roomUsers evicted)
      ∧ SessionManager.typingUsers joined = SessionManager.typingUsers evicted
      ∧ SessionManager.getUserBySocketId first joined = None
      ∧ SessionManager.getUserBySocketId second joined = Some session
      ∧ SessionManager.getUserSocketIds userId joined = [second].
Proof.
  intros Hops st.
  assert (Hinv : RegistryInv st).
  { apply inv_run; [done | apply inv_init]. }
  pose proof Hinv as [Hk Hu Hr Hn].
  split_and!.
  - done.
  - intros e1 e2 H1 H2 Heq.
    apply (NoDup_fmap_eq (λ e, Session.userId e.2) (SessionManager.userSessions st));
      [|done|done|done].
    unfold OMap.values in Hu. by rewrite <- list_fmap_compose in Hu.
  - intros userId. unfold SessionManager.getUserSocketIds, OMap.keys.
    rewrite length_fmap. by apply one_socket_per_user.
  - intros first s second username roomId now Hget Hne userId evicted joined session.
    apply omap_get_Some_elem in Hget as Hin.
    pose proof (removeUserFromAllRooms_sessions userId st Hinv) as Hs.
    fold evicted in Hs.
    pose proof (Hr _ Hin) as Hroom. pose proof (Hn _ Hin) as Hnonempty.
    simpl in Hroom, Hnonempty. fold userId in Hroom.
    assert (Hgone : ∀ e, e ∈ SessionManager.userSessions evicted ->
                         Session.userId e.2 ≠ userId).
    { intros e He. rewrite Hs in He. by apply list_elem_of_filter in He as [? _]. }
    assert (Hfirst : SessionManager.getUserBySocketId first evicted = None).
    { unfold SessionManager.getUserBySocketId. apply omap_get_None.
      intros (e & He1 & He2)%list_elem_of_fmap.
      pose proof (Hgone e He2) as Hgone_e.
      rewrite Hs in He2. apply list_elem_of_filter in He2 as [_ He2].
      destruct e as [k v]. simpl in *. subst k.
      apply (omap_elem_get _ _ _ Hk) in He2.
      unfold SessionManager.getUserBySocketId in Hget.
      rewrite Hget in He2. injection He2 as <-. by apply Hgone_e. }
    split_and!.
    + done.
    + unfold SessionManager.getUserSocketIds.
      replace (filter (λ e, Session.userId e.2 = userId)
                 (SessionManager.userSessions evicted))
        with (@nil (string * Session.t)); [done|].
      symmetry. apply elem_of_nil_inv. intros e [Hu' He]%list_elem_of_filter.
      by apply (Hgone e He).
    + unfold evicted. rewrite removeUserFromAllRooms_userRooms.
      apply lookup_delete_eq.
    + unfold evicted. rewrite removeUserFromAllRooms_roomUsers, Hroom.
      rewrite bool_decide_eq_true_2 by done. apply setDelete_not_in.
    + unfold evicted. rewrite removeUserFromAllRooms_typingUsers, Hroom.
      rewrite bool_decide_eq_true_2 by done. apply setDelete_not_in.
    + done.
    + done.
    + done.
    + done.
    + unfold SessionManager.getUserBySocketId, joined, SessionManager.addUserToRoom.
      simpl. rewrite omap_get_put_ne by done. exact Hfirst.
    + unfold SessionManager.getUserBySocketId, joined, SessionManager.addUserToRoom.
      simpl. apply omap_get_put_eq.
    + unfold SessionManager.getUserSocketIds, joined, SessionManager.addUserToRoom.
      simpl. rewrite (filter_put_fresh _ _ second); [done | done |].
      intros e He. by apply Hgone.
Qed.

Lemma registry_one_session_per_user_witness :
  let ops := [SessionManager.OpAddUserToRoom "s1" "u1" "alice" "r1" 1;
              SessionManager.OpAddTypingUser "r1" "u1"] in
  let st := SessionManager.run ops SessionManager.init in
  Forall SessionManager.fromGateway ops
  ∧ NoDup (OMap.keys (SessionManager.userSessions st))
  ∧ SessionManager.getUserSocketIds "u1"
      (SessionManager.addUserToRoom "s2" "u1" "alice" "r2" 2 st) = ["s2"].
Proof.
  intros ops st.
  assert (Hops : Forall SessionManager.fromGateway ops).
  { repeat constructor. simpl. discriminate. }
  destruct (registry_one_session_per_user ops Hops) as (Hk & _ & _ & Hjoin).
  split; [exact Hops|]. split; [exact Hk|].
  destruct (Hjoin "s1" (Session.mk "u1" "alice" "s1" "r1" 1 1) "s2" "alice" "r2" 2)
    as (_ & _ & _ & _ & _ & _ & _ & _ & _ & _ & _ & Hids).
  - reflexivity.
  - discriminate.
  - exact Hids.
Defined.

(** ** The rate limiter *)

Section RateLimit.
Import JsArray SessionManager.

Lemma recentRequests_spec now windowMs requests time :
  time ∈ recentRequests now windowMs requests
  ↔ time ∈ requests ∧ now - windowMs < time.
Proof.
  unfold recentRequests. rewrite list_elem_of_filter. split.
  - intros [H ?]. split; [done | lia].
  - intros [? H]. split; [lia | done].
Qed.

Lemma checkRateLimit_admits socketId maxRequests windowMs now st :
  len (recentRequests now windowMs (default [] (rateLimitMap st !! socketId)))
    < maxRequests ->
  checkRateLimit socketId maxRequests windowMs now st
  = (true,
     setRateLimitMap
       (<[socketId :=
            recentRequests now windowMs (default [] (rateLimitMap st !! socketId))
            ++ [now]]> (rateLimitMap st)) st).
Proof.
  intros Hlt. unfold checkRateLimit.
  rewrite bool_decide_eq_false_2 by lia. done.
Qed.

Lemma checkRateLimit_rejects socketId maxRequests windowMs now st :
  maxRequests
    <= len (recentRequests now windowMs (default [] (rateLimitMap st !! socketId))) ->
  checkRateLimit socketId maxRequests windowMs now st = (false, st).
Proof.
  intros Hge. unfold checkRateLimit.
  rewrite bool_decide_eq_true_2 by lia. done.
Qed.

Lemma recentRequests_all now windowMs requests :
  (∀ time, time ∈ requests -> now - windowMs < time) ->
  recentRequests now windowMs requests = requests.
Proof.
  intros H. unfold recentRequests. apply filter_all_in.
  intros time Hin. specialize (H time Hin). lia.
Qed.

Lemma recentRequests_none now windowMs requests :
  (∀ time, time ∈ requests -> time <= now - windowMs) ->
  recentRequests now windowMs requests = [].
Proof.
  intros H. unfold recentRequests. apply elem_of_nil_inv.
  intros time [Hlt Hin]%list_elem_of_filter. specialize (H time Hin). lia.
Qed.

Lemma admit_known socketId maxRequests windowMs now st requests :
  default [] (rateLimitMap st !! socketId) = requests ->
  (∀ time, time ∈ requests -> now - windowMs < time) ->
  len requests < maxRequests ->
  ∃ st', checkRateLimit socketId maxRequests windowMs now st = (true, st')
         ∧ default [] (rateLimitMap st' !! socketId) = requests ++ [now].
Proof.
  intros Hreq Hall Hlt. eexists. split.
  - apply checkRateLimit_admits. rewrite Hreq, recentRequests_all by done. done.
  - simpl. rewrite lookup_insert_eq. simpl.
    by rewrite Hreq, recentRequests_all by done.
Qed.

Lemma reject_known socketId maxRequests windowMs now st requests :
  default [] (rateLimitMap st !! socketId) = requests ->
  (∀ time, time ∈ requests -> now - windowMs < time) ->
  maxRequests <= len requests ->
  checkRateLimit socketId maxRequests windowMs now st = (false, st).
Proof.
  intros Hreq Hall Hge.
  apply checkRateLimit_rejects. by rewrite Hreq, recentRequests_all by done.
Qed.

Lemma admit_expired socketId maxRequests windowMs now st requests :
  default [] (rateLimitMap st !! socketId) = requests ->
  (∀ time, time ∈ requests -> time <= now - windowMs) ->
  0 < maxRequests ->
  ∃ st', checkRateLimit socketId maxRequests windowMs now st = (true, st')
         ∧ default [] (rateLimitMap st' !! socketId) = [now].
Proof.
  intros Hreq Hall Hlt. eexists. split.
  - apply checkRateLimit_admits. rewrite Hreq, recentRequests_none by done. done.
  - simpl. rewrite lookup_insert_eq. simpl.
    by rewrite Hreq, recentRequests_none by done.
Qed.

#[local] Ltac in_list :=
  let time := fresh "time" in let Hin := fresh "Hin" in
  intros time Hin;
  repeat (apply elem_of_cons in Hin as [->|Hin]; [lia|]);
  by apply elem_of_nil in Hin.

(** Three calls at one instant are admitted, the fourth is not, and a call
    once the window has gone by is admitted again. *)
Lemma rate_limit_three_per_window socketId t0 t1 st :
  rateLimitMap st !! socketId = None -> t0 + 1000 <= t1 ->
  (rateLimitCalls socketId 3 1000 [t0; t0; t0; t0; t1] st).1
  = [true; true; true; false; true].
Proof.
  intros Hnone Hlater.
  assert (H0 : default [] (rateLimitMap st !! socketId) = []) by (by rewrite Hnone).
  destruct (admit_known socketId 3 1000 t0 st [] H0) as (st1 & E1 & H1);
    [in_list | done |].
  destruct (admit_known socketId 3 1000 t0 st1 _ H1) as (st2 & E2 & H2);
    [in_list | done |].
  destruct (admit_known socketId 3 1000 t0 st2 _ H2) as (st3 & E3 & H3);
    [in_list | done |].
  pose proof (reject_known socketId 3 1000 t0 st3 _ H3) as E4.
  destruct (admit_expired socketId 3 1000 t1 st3 _ H3) as (st5 & E5 & H5);
    [in_list | done |].
  cbn [rateLimitCalls]. rewrite E1, E2, E3, E4, E5; [done | in_list | done].
Qed.

End RateLimit.

(** C4, as stated, fails: a request recorded exactly [windowMs] ago lies
    in the closed window and is not retained. *)
Lemma rate_window_excludes_its_lower_end :
  ¬ (∀ now windowMs requests,
       SessionManager.recentRequests now windowMs requests
       = filter (inClosedWindow now windowMs) requests).
Proof.
  intros H. specialize (H 1000 1000 [0]). vm_compute in H. discriminate H.
Qed.

(** With one request allowed per second, a request made exactly one second
    after an admitted one is admitted. *)
Example rate_limit_at_the_boundary :
  (rateLimitCalls "s1" 1 1000 [0; 999; 1000] SessionManager.init).1
  = [true; false; true].
Proof. vm_compute. reflexivity. Qed.

(** C4, amended.  [checkRateLimit] counts the recorded timestamps that are
    less than [windowMs] old, that is those later than [now - windowMs].
    When fewer than [maxRequests] are counted the call is admitted and the
    connection's record becomes the counted timestamps followed by [now];
    otherwise the call is rejected and nothing is recorded.  With three
    requests per 1000 ms, three calls at one instant are admitted, a fourth
    is rejected, and a call 1000 ms or more later is admitted. *)
Theorem checkRateLimit_sliding_window (socketId : string)
    (maxRequests windowMs now : Z) (st : SessionManager.State) :
  let requests := default [] (SessionManager.rateLimitMap st !! socketId) in
  let counted := SessionManager.recentRequests now windowMs requests in
  (∀ time, time ∈ counted ↔ time ∈ requests ∧ now - windowMs < time)
  ∧ (JsArray.len counted < maxRequests ->
       SessionManager.checkRateLimit socketId maxRequests windowMs now st
       = (true,
          SessionManager.setRateLimitMap
            (<[socketId := counted ++ [now]]> (SessionManager.rateLimitMap st)) st))
  ∧ (maxRequests <= JsArray.len counted ->
       SessionManager.checkRateLimit socketId maxRequests windowMs now st
       = (false, st))
  ∧ (∀ t0 t1,
       SessionManager.rateLimitMap st !! socketId = None -> t0 + 1000 <= t1 ->
       (rateLimitCalls socketId 3 1000 [t0; t0; t0; t0; t1] st).1
       = [true; true; true; false; true]).
Proof.
  intros requests counted. split_and!.
  - intros time. apply recentRequests_spec.
  - apply checkRateLimit_admits.
  - apply checkRateLimit_rejects.
  - intros t0 t1. apply rate_limit_three_per_window.
Qed.

(** ** Sending while banned *)

Section Banned.
Import SessionManager.

Lemma removeUserFromRoom_gone socketId st :
  NoDup (OMap.keys (userSessions st)) ->
  getUserBySocketId socketId (removeUserFromRoom socketId st).2 = None.
Proof.
  intros Hk. unfold getUserBySocketId, removeUserFromRoom.
  destruct (OMap.get socketId (userSessions st)) as [s|] eqn:Hg; simpl; [|done].
  rewrite omap_del_filter by done. apply omap_get_None.
  intros (e & He & [Hne _]%list_elem_of_filter)%list_elem_of_fmap. congruence.
Qed.

Lemma checkRateLimit_userSessions socketId maxRequests windowMs now st :
  userSessions (checkRateLimit socketId maxRequests windowMs now st).2
  = userSessions st.
Proof. unfold checkRateLimit. by case_bool_decide. Qed.

End Banned.

(** C6. A send that passes the rate limit while the ban oracle reports
    the sender as banned emits the ban notice to the connection, removes
    the connection's session, closes the connection and leaves the
    message buffer as it was, whatever the message is and whether or not
    the connection has a session: the ban check comes before the session
    lookup, the identity check and the validation of the content. *)
Theorem banned_sender_is_disconnected (cfg : MessageBuffer.Config)
    (maxRequests windowMs : Z) (data : ChatGateway.ChatMessageDto)
    (client : string) (user : ChatGateway.WsUser) (now : Z) (newId : string)
    (w : World) :
  NoDup (OMap.keys (SessionManager.userSessions (sessionManager w))) ->
  (SessionManager.checkRateLimit client maxRequests windowMs now
     (sessionManager w)).1 = true ->
  AdminService.st_isBanned
    (AdminService.checkUserBannedStatus (ChatGateway.ws_userId user) w) = true ->
  let status := AdminService.checkUserBannedStatus (ChatGateway.ws_userId user) w in
  let w' := ChatGateway.handleMessage cfg maxRequests windowMs data client user
              now newId w in
  emitted w'
  = emitted w
    ++ [ClientEmit client "user:banned"
          (BannedPayload (AdminService.st_bannedReason status)
                         (AdminService.st_bannedBy status));
        ClientDisconnect client]
  ∧ SessionManager.getUserBySocketId client (sessionManager w') = None
  ∧ disconnected client w'
  ∧ messageBuffer w' = messageBuffer w
  ∧ userModel w' = userModel w.
Proof.
  intros Hk Hrate Hban status w'.
  assert (Hw' : w' =
    emit [ClientDisconnect client]
      (setSessionManager
         (SessionManager.removeUserFromRoom client
            (SessionManager.checkRateLimit client maxRequests windowMs now
               (sessionManager w)).2).2
         (emit [ClientEmit client "user:banned"
                  (BannedPayload (AdminService.st_bannedReason status)
                                 (AdminService.st_bannedBy status))]
            (setSessionManager
               (SessionManager.checkRateLimit client maxRequests windowMs now
                  (sessionManager w)).2 w)))).
  { unfold w', ChatGateway.handleMessage.
    destruct (SessionManager.checkRateLimit _ _ _ _ _) as [allowed sm].
    simpl in Hrate. subst allowed. simpl.
    change (AdminService.checkUserBannedStatus (ChatGateway.ws_userId user)
              (setSessionManager sm w)) with status.
    unfold status at 1. rewrite Hban. done. }
  rewrite Hw'. split_and!.
  - simpl. by rewrite <- app_assoc.
  - simpl. apply removeUserFromRoom_gone.
    by rewrite checkRateLimit_userSessions.
  - unfold disconnected. simpl. rewrite !elem_of_app. right.
    by apply list_elem_of_singleton.
  - done.
  - done.
Qed.

Lemma banned_sender_is_disconnected_witness :
  let sm := SessionManager.addUserToRoom "s1" "u1" "alice" "r1" 1
              SessionManager.init in
  let w := {| userModel :=
                {["u1" := User.mk "u1" "Alice" true true (Some "spam") (Some 2)
                            (Some "admin")]};
              chatMessageModel := []; sessionManager := sm;
              messageBuffer := MessageBuffer.init; server := true;
              emitted := [] |} in
  let w' := ChatGateway.handleMessage MessageBuffer.defaultConfig 30 60000
              (ChatGateway.mkChatMessageDto "r1" "hello" None) "s1"
              (ChatGateway.mkWsUser "u1" "Alice" "u1") 3 "id1" w in
  SessionManager.getUserBySocketId "s1" sm
    = Some (Session.mk "u1" "alice" "s1" "r1" 1 1)
  ∧ emitted w'
    = [ClientEmit "s1" "user:banned" (BannedPayload (Some "spam") (Some "admin"));
       ClientDisconnect "s1"]
  ∧ SessionManager.getUserBySocketId "s1" (sessionManager w') = None
  ∧ disconnected "s1" w'
  ∧ messageBuffer w' = MessageBuffer.init
  ∧ userModel w' = userModel w.
Proof.
  intros sm w w'. split; [reflexivity|].
  apply (banned_sender_is_disconnected MessageBuffer.defaultConfig 30 60000
           (ChatGateway.mkChatMessageDto "r1" "hello" None) "s1"
           (ChatGateway.mkWsUser "u1" "Alice" "u1") 3 "id1" w).
  - vm_compute. apply NoDup_singleton.
  - reflexivity.
  - reflexivity.
Defined.

(** ** Banning a user *)

Section Ban.
Import SessionManager AdminService.

Lemma disconnectUser_sessions userId st :
  RegistryInv st ->
  userSessions (disconnectUser userId st)
  = filter (λ e, Session.userId e.2 ≠ userId) (userSessions st).
Proof.
  intros Hinv. pose proof Hinv as [Hk Hu _ _].
  rewrite <- evict_first_is_filter by done.
  unfold disconnectUser.
  destruct (OMap.findFirst _ _) as [[sid s]|] eqn:Hf; [|done].
  apply omap_findFirst_Some in Hf as [Hin _].
  unfold removeUserFromRoom. by rewrite (omap_elem_get _ _ _ Hk Hin).
Qed.

(** Once [disconnectUser] has run, the registry knows no socket of the
    user. *)
Lemma disconnectUser_leaves_no_socket userId st :
  RegistryInv st -> getUserSocketIds userId (disconnectUser userId st) = [].
Proof.
  intros Hinv. unfold getUserSocketIds.
  rewrite disconnectUser_sessions by done.
  replace (filter (λ e, Session.userId e.2 = userId)
             (filter (λ e, Session.userId e.2 ≠ userId) (userSessions st)))
    with (@nil (string * Session.t)); [done|].
  symmetry. apply elem_of_nil_inv.
  intros e [Heq [Hne _]%list_elem_of_filter]%list_elem_of_filter. done.
Qed.

(** [banUser] raises exactly when the user is unknown or already banned,
    and then changes nothing. *)
Lemma banUser_rejects_unknown_or_banned dto now w :
  ((banUser dto now w).2 ≠ None
   ↔ userModel w !! ban_userId dto = None
     ∨ User.isBanned <$> userModel w !! ban_userId dto = Some true)
  ∧ ((banUser dto now w).2 ≠ None -> (banUser dto now w).1 = w).
Proof.
  unfold banUser.
  destruct (userModel w !! ban_userId dto) as [user|]; simpl.
  - destruct (User.isBanned user); simpl.
    + split; [|done]. split; [by right | done].
    + split; [|done]. split; [done|]. by intros [|[=]].
  - split; [|done]. split; [by left | done].
Qed.

(** Otherwise the ban is stored and the user's session is removed; the
    lookup of the sockets to notify comes after that removal and finds
    none, so the only event emitted is the one for the dashboard. *)
Lemma banUser_persists_and_disconnects dto now w user :
  RegistryInv (sessionManager w) ->
  userModel w !! ban_userId dto = Some user -> User.isBanned user = false ->
  let w' := (banUser dto now w).1 in
  (banUser dto now w).2 = None
  ∧ User.isBanned <$> userModel w' !! ban_userId dto = Some true
  ∧ getUserSocketIds (ban_userId dto) (sessionManager w') = []
  ∧ emitted w'
    = emitted w
      ++ (if server w
          then [ServerEmit "admin:userBanned"
                  (AdminUserBanned (ban_userId dto) (ban_reason dto)
                     (ban_bannedBy dto))]
          else []).
Proof.
  intros Hinv Huser Hnot. unfold banUser. rewrite Huser, Hnot. simpl.
  split_and!.
  - done.
  - destruct (server w); simpl; by rewrite lookup_insert_eq.
  - destruct (server w); simpl; by apply disconnectUser_leaves_no_socket.
  - destruct (server w); simpl; [|by rewrite app_nil_r].
    rewrite disconnectUser_leaves_no_socket by done. simpl.
    by rewrite app_nil_r.
Qed.

End Ban.

(** C7. [banUser] is to send a termination notice to every connection on
    which the user had a live session when it was called.  For a known
    user u1 who is not banned and has a session on socket s1, the ban is
    stored and the session removed, but no [user:banned] notice goes to
    s1: the sockets to notify are looked up after [disconnectUser] has
    removed the session, and none is found.  The rest holds in general:
    the call raises exactly when the user is unknown or already banned and
    then changes nothing; otherwise it stores the ban and leaves the
    registry without a session of the user. *)
Theorem banUser_sends_no_termination_notice :
  (let sm := SessionManager.addUserToRoom "s1" "u1" "alice" "r1" 1
               SessionManager.init in
   let w := {| userModel := {["u1" := User.mk "u1" "Alice" true false None None None]};
               chatMessageModel := []; sessionManager := sm;
               messageBuffer := MessageBuffer.init; server := true;
               emitted := [] |} in
   let dto := AdminService.mkBanUserDto "u1" (Some "spam") (Some "admin") in
   let w' := (AdminService.banUser dto 5 w).1 in
   SessionManager.getUserSocketIds "u1" (sessionManager w) = ["s1"]
   ∧ (AdminService.banUser dto 5 w).2 = None
   ∧ User.isBanned <$> userModel w' !! "u1" = Some true
   ∧ SessionManager.getUserSocketIds "u1" (sessionManager w') = []
   ∧ emitted w'
     = [ServerEmit "admin:userBanned"
          (AdminUserBanned "u1" (Some "spam") (Some "admin"))]
   ∧ existsb (AdminService.isBannedNotice "s1") (emitted w') = false)
  ∧ (∀ dto now w,
       ((AdminService.banUser dto now w).2 ≠ None
        ↔ userModel w !! AdminService.ban_userId dto = None
          ∨ User.isBanned <$> userModel w !! AdminService.ban_userId dto
            = Some true)
       ∧ ((AdminService.banUser dto now w).2 ≠ None ->
          (AdminService.banUser dto now w).1 = w))
  ∧ (∀ dto now w user,
       RegistryInv (sessionManager w) ->
       userModel w !! AdminService.ban_userId dto = Some user ->
       User.isBanned user = false ->
       let w' := (AdminService.banUser dto now w).1 in
       (AdminService.banUser dto now w).2 = None
       ∧ User.isBanned <$> userModel w' !! AdminService.ban_userId dto = Some true
       ∧ SessionManager.getUserSocketIds (AdminService.ban_userId dto)
           (sessionManager w') = []
       ∧ emitted w'
         = emitted w
           ++ (if server w
               then [ServerEmit "admin:userBanned"
                       (AdminUserBanned (AdminService.ban_userId dto)
                          (AdminService.ban_reason dto)
                          (AdminService.ban_bannedBy dto))]
               else [])).
Proof.
  split_and!.
  - vm_compute. split_and!; reflexivity.
  - apply banUser_rejects_unknown_or_banned.
  - apply banUser_persists_and_disconnects.
Qed.

(** ** Deleting a message *)

Section Delete.
Import AdminService.

Lemma deleteOne_count messageId roomId docs :
  ((deleteOne messageId roomId docs).1 = 1
   ↔ Exists (matchesDoc messageId roomId) docs)
  ∧ ((deleteOne messageId roomId docs).1 = 0
     ↔ ¬ Exists (matchesDoc messageId roomId) docs).
Proof.
  induction docs as [|d docs [IH1 IH0]]; simpl.
  - rewrite Exists_nil. split; split; [done | tauto | tauto | done].
  - rewrite Exists_cons. destruct (decide (matchesDoc messageId roomId d)); simpl.
    + split; split; [tauto | done | done | tauto].
    + destruct (deleteOne messageId roomId docs) as [cnt rest]; simpl in *.
      split; [rewrite IH1 | rewrite IH0]; tauto.
Qed.

(** [deleteOne] takes out the first matching document and no other. *)
Lemma deleteOne_first messageId roomId docs :
  Exists (matchesDoc messageId roomId) docs ->
  ∃ before doc after,
    docs = before ++ doc :: after
    ∧ matchesDoc messageId roomId doc
    ∧ Forall (λ d, ¬ matchesDoc messageId roomId d) before
    ∧ (deleteOne messageId roomId docs).2 = before ++ after.
Proof.
  induction docs as [|d docs IH]; intros Hex; [by apply Exists_nil in Hex|].
  simpl. destruct (decide (matchesDoc messageId roomId d)) as [Hd|Hd].
  - exists [], d, docs. by split_and!.
  - apply Exists_cons in Hex as [?|Hex]; [done|].
    destruct (IH Hex) as (before & doc & after & -> & Hdoc & Hbefore & Hrest).
    destruct (deleteOne messageId roomId (before ++ doc :: after)) as [cnt rest].
    simpl in *. subst rest.
    exists (d :: before), doc, after. split_and!; try done.
    by apply Forall_cons.
Qed.

Lemma deleteOne_absent messageId roomId docs :
  ¬ Exists (matchesDoc messageId roomId) docs ->
  (deleteOne messageId roomId docs).2 = docs.
Proof.
  induction docs as [|d docs IH]; intros Hex; [done|].
  simpl. rewrite Exists_cons in Hex.
  destruct (decide (matchesDoc messageId roomId d)); [tauto|].
  destruct (deleteOne messageId roomId docs) as [cnt rest]. simpl in *.
  f_equal. apply IH. tauto.
Qed.

Lemma buffer_deleteMessage_spec messageId roomId (buf : MessageBuffer.State) :
  let cached := default [] (MessageBuffer.recentMessages buf !! roomId) in
  let after := (MessageBuffer.deleteMessage messageId roomId buf).2 in
  (MessageBuffer.deleteMessage messageId roomId buf).1
  = bool_decide (Exists (λ msg, Msg.id msg = messageId) cached)
  ∧ (∀ msg, msg ∈ default [] (MessageBuffer.recentMessages after !! roomId)
            ↔ msg ∈ cached ∧ Msg.id msg ≠ messageId)
  ∧ (∀ other, other ≠ roomId ->
       MessageBuffer.recentMessages after !! other
       = MessageBuffer.recentMessages buf !! other)
  ∧ (¬ Exists (λ msg, Msg.id msg = messageId) cached -> after = buf).
Proof.
  intros cached after. unfold after, MessageBuffer.deleteMessage. fold cached.
  case_bool_decide as Hc; simpl; split_and!; try done.
  - intros msg. rewrite lookup_insert_eq. simpl. rewrite list_elem_of_filter. tauto.
  - intros other Hne. by rewrite lookup_insert_ne.
  - intros msg. fold cached. split; [|tauto]. intros Hin. split; [done|].
    intros Heq. apply Hc. apply Exists_exists. by exists msg.
Qed.

End Delete.

(** C9. [deleteMessage] takes the message out of the room's recent
    cache when it is there, deletes the first matching document of the
    store, and raises the not-found error exactly when neither the cache
    nor the store held the message; it succeeds exactly when one of them
    did. *)
Theorem deleteMessage_found_or_not_found (dto : AdminService.DeleteMessageDto)
    (w : World) :
  let messageId := AdminService.del_messageId dto in
  let roomId := AdminService.del_roomId dto in
  let cached := default [] (MessageBuffer.recentMessages (messageBuffer w) !! roomId) in
  let inCache := Exists (λ msg, Msg.id msg = messageId) cached in
  let inStore :=
    Exists (AdminService.matchesDoc messageId roomId) (chatMessageModel w) in
  let w' := (AdminService.deleteMessage dto w).1 in
  let raised := (AdminService.deleteMessage dto w).2 in
  ((MessageBuffer.deleteMessage messageId roomId (messageBuffer w)).1 = true
   ↔ inCache)
  ∧ (raised = None ↔ inCache ∨ inStore)
  ∧ (raised
     = Some (NotFoundException ("Message with ID " +:+ messageId +:+ " not found"))
     ↔ ¬ inCache ∧ ¬ inStore)
  ∧ (∀ msg,
       msg ∈ default [] (MessageBuffer.recentMessages (messageBuffer w') !! roomId)
       ↔ msg ∈ cached ∧ Msg.id msg ≠ messageId)
  ∧ (∀ other, other ≠ roomId ->
       MessageBuffer.recentMessages (messageBuffer w') !! other
       = MessageBuffer.recentMessages (messageBuffer w) !! other)
  ∧ (inStore ->
       ∃ before doc after,
         chatMessageModel w = before ++ doc :: after
         ∧ AdminService.matchesDoc messageId roomId doc
         ∧ Forall (λ d, ¬ AdminService.matchesDoc messageId roomId d) before
         ∧ chatMessageModel w' = before ++ after)
  ∧ (¬ inStore -> chatMessageModel w' = chatMessageModel w)
  ∧ (raised ≠ None -> w' = w).
Proof.
  intros messageId roomId cached inCache inStore w' raised.
  pose proof (deleteOne_count messageId roomId (chatMessageModel w)) as [Hone Hzero].
  fold inStore in Hone, Hzero.
  assert (Hdocs : chatMessageModel w'
                  = (AdminService.deleteOne messageId roomId (chatMessageModel w)).2).
  { unfold w', AdminService.deleteMessage. fold messageId roomId.
    destruct (MessageBuffer.deleteMessage _ _ _) as [found buf]. simpl.
    destruct (AdminService.deleteOne _ _ _) as [cnt docs]. simpl.
    by destruct (negb found && bool_decide (cnt = 0)). }
  assert (Hbuf : messageBuffer w'
                 = (MessageBuffer.deleteMessage messageId roomId (messageBuffer w)).2).
  { unfold w', AdminService.deleteMessage. fold messageId roomId.
    destruct (MessageBuffer.deleteMessage _ _ _) as [found buf]. simpl.
    destruct (AdminService.deleteOne _ _ _) as [cnt docs]. simpl.
    by destruct (negb found && bool_decide (cnt = 0)). }
  assert (Hraised : raised
    = if negb (MessageBuffer.deleteMessage messageId roomId (messageBuffer w)).1
         && bool_decide
              ((AdminService.deleteOne messageId roomId (chatMessageModel w)).1 = 0)
      then Some (NotFoundException ("Message with ID " +:+ messageId +:+ " not found"))
      else None).
  { unfold raised, AdminService.deleteMessage. fold messageId roomId.
    destruct (MessageBuffer.deleteMessage _ _ _) as [found buf]. simpl.
    destruct (AdminService.deleteOne _ _ _) as [cnt docs]. simpl.
    by destruct (negb found && bool_decide (cnt = 0)). }
  pose proof (buffer_deleteMessage_spec messageId roomId (messageBuffer w))
    as (Hflag & Hcache & Hothers & Hsame).
  fold cached in Hflag, Hcache, Hsame. fold inCache in Hflag, Hsame.
  assert (Hfound : (MessageBuffer.deleteMessage messageId roomId (messageBuffer w)).1
                   = true ↔ inCache).
  { rewrite Hflag. apply bool_decide_eq_true. }
  assert (Hcount : (AdminService.deleteOne messageId roomId (chatMessageModel w)).1
                   = if decide inStore then 1 else 0).
  { destruct (decide inStore) as [Hs|Hs]; [by apply Hone | by apply Hzero]. }
  rewrite Hflag, Hcount in Hraised.
  split_and!.
  - exact Hfound.
  - rewrite Hraised.
    destruct (decide inCache), (decide inStore);
      rewrite ?bool_decide_eq_true_2, ?bool_decide_eq_false_2 by done;
      simpl; split; (done || tauto).
  - rewrite Hraised.
    destruct (decide inCache), (decide inStore);
      rewrite ?bool_decide_eq_true_2, ?bool_decide_eq_false_2 by done;
      simpl; split; (done || tauto).
  - intros msg. rewrite Hbuf. apply Hcache.
  - intros other Hne. rewrite Hbuf. by apply Hothers.
  - intros Hs. rewrite Hdocs. by apply deleteOne_first.
  - intros Hs. rewrite Hdocs. by apply deleteOne_absent.
  - intros Hr. rewrite Hraised in Hr.
    destruct (decide inCache) as [Hc|Hc], (decide inStore) as [Hs|Hs];
      rewrite ?bool_decide_eq_true_2, ?bool_decide_eq_false_2 in Hr by done;
      simpl in Hr; try done.
    assert (Hb : messageBuffer w' = messageBuffer w).
    { rewrite Hbuf. by apply Hsame. }
    assert (Hd : chatMessageModel w' = chatMessageModel w).
    { rewrite Hdocs. by apply deleteOne_absent. }
    clear -Hb Hd. revert Hb Hd. unfold w', AdminService.deleteMessage.
    destruct (MessageBuffer.deleteMessage _ _ _) as [found buf].
    destruct (AdminService.deleteOne _ _ _) as [cnt docs].
    destruct (negb found && bool_decide (cnt = 0)); simpl;
      destruct w; simpl; intros -> ->; done.
Qed.

(** * Further properties of the services *)

(** ** Registry: membership index *)

Section RoomIndex.
Import SessionManager.
Implicit Types st : State.

Lemma inRoomSet_setAdd roomId userId room user (m : gmap string (gset string)) :
  inRoomSet roomId userId (setAdd room user m)
  ↔ inRoomSet roomId userId m ∨ (roomId = room ∧ userId = user).
Proof.
  unfold inRoomSet, setAdd. destruct (decide (room = roomId)) as [->|Hne].
  - rewrite lookup_insert_eq. simpl. rewrite elem_of_union, elem_of_singleton.
    tauto.
  - rewrite lookup_insert_ne by done. split; [by left|].
    intros [?|[? _]]; [done | congruence].
Qed.

Lemma inRoomSet_setDelete roomId userId room user (m : gmap string (gset string)) :
  inRoomSet roomId userId (setDelete room user m)
  ↔ inRoomSet roomId userId m ∧ ¬ (roomId = room ∧ userId = user).
Proof.
  unfold inRoomSet, setDelete. destruct (decide (room = roomId)) as [->|Hne].
  - rewrite lookup_alter_eq. destruct (m !! roomId) as [users|]; simpl.
    + rewrite elem_of_difference, elem_of_singleton. tauto.
    + split; [by intros ?%not_elem_of_empty | by intros [?%not_elem_of_empty _]].
  - rewrite lookup_alter_ne by done. split; [|tauto].
    intros H. split; [done|]. intros [? _]. congruence.
Qed.

Lemma removeUserFromRoom_roomUsers socketId st :
  roomUsers (removeUserFromRoom socketId st).2
  = match OMap.get socketId (userSessions st) with
    | Some s => setDelete (Session.roomId s) (Session.userId s) (roomUsers st)
    | None => roomUsers st
    end.
Proof. unfold removeUserFromRoom. by destruct (OMap.get _ _). Qed.

Lemma index_removeUserFromAllRooms userId st :
  RegistryInv st -> RoomIndexInv st ->
  RoomIndexInv (removeUserFromAllRooms userId st).
Proof.
  intros Hinv Hidx e He.
  rewrite removeUserFromAllRooms_sessions in He by done.
  apply list_elem_of_filter in He as [Hne He].
  rewrite removeUserFromAllRooms_roomUsers.
  destruct (userRooms st !! userId) as [r|]; [case_bool_decide|]; try by apply Hidx.
  apply inRoomSet_setDelete. split; [by apply Hidx | tauto].
Qed.

Lemma index_removeUserFromRoom socketId st :
  RegistryInv st -> RoomIndexInv st ->
  RoomIndexInv (removeUserFromRoom socketId st).2.
Proof.
  intros Hinv Hidx e He. pose proof Hinv as [Hk Hu _ _].
  rewrite removeUserFromRoom_sessions in He by done.
  apply list_elem_of_filter in He as [Hne He].
  rewrite removeUserFromRoom_roomUsers.
  destruct (OMap.get socketId (userSessions st)) as [s|] eqn:Hg; [|by apply Hidx].
  apply inRoomSet_setDelete. split; [by apply Hidx|].
  intros [_ Heq]. apply Hne.
  apply omap_get_Some_elem in Hg.
  assert (e = (socketId, s)) as ->; [|done].
  apply (NoDup_fmap_eq (λ e, Session.userId e.2) (userSessions st));
    [|done|done|done].
  unfold OMap.values in Hu. by rewrite <- list_fmap_compose in Hu.
Qed.

Lemma index_addUserToRoom socketId userId username roomId now st :
  RegistryInv st -> RoomIndexInv st ->
  RoomIndexInv (addUserToRoom socketId userId username roomId now st).
Proof.
  intros Hinv Hidx.
  pose proof (index_removeUserFromAllRooms userId st Hinv Hidx) as Hev.
  unfold addUserToRoom. intros e He. simpl in *.
  apply inRoomSet_setAdd.
  apply omap_elem_put in He as [->|He]; simpl; [by right|].
  left. by apply Hev.
Qed.

Lemma index_updateUserActivity userId now st :
  RoomIndexInv st -> RoomIndexInv (updateUserActivity userId now st).
Proof.
  intros Hidx e He. unfold updateUserActivity in *. simpl in *.
  apply omap_elem_updateFirst in He as [He|(v & He & Hv)]; [by apply Hidx|].
  rewrite Hv. simpl. by apply (Hidx (e.1, v)).
Qed.

Lemma both_cleanupInactiveUsers threshold now st :
  RegistryInv st -> RoomIndexInv st ->
  RoomIndexInv (cleanupInactiveUsers threshold now st).
Proof.
  unfold cleanupInactiveUsers. generalize (OMap.keys
    (filter (λ e, now - Session.lastActivity e.2 > threshold) (userSessions st))).
  intros l. revert st. induction l as [|sid l IH]; intros st Hinv Hidx; [done|].
  simpl. apply IH; [by apply inv_removeUserFromRoom | by apply index_removeUserFromRoom].
Qed.

Lemma index_applyOp op st :
  RegistryInv st -> RoomIndexInv st -> RoomIndexInv (applyOp op st).
Proof.
  intros Hinv Hidx. destruct op; simpl.
  - by apply index_addUserToRoom.
  - by apply index_removeUserFromRoom.
  - by apply index_removeUserFromAllRooms.
  - by apply index_updateUserActivity.
  - done.
  - by apply both_cleanupInactiveUsers.
  - unfold checkRateLimit. by case_bool_decide.
  - done.
  - done.
  - unfold disconnectUser. destruct (OMap.findFirst _ _) as [[sid s]|]; [|done].
    by apply index_removeUserFromRoom.
Qed.

Lemma reachable_invariants ops : ∀ st,
  Forall fromGateway ops -> RegistryInv st -> RoomIndexInv st ->
  RegistryInv (run ops st) ∧ RoomIndexInv (run ops st).
Proof.
  induction ops as [|op ops IH]; intros st Hops Hinv Hidx; [done|].
  apply Forall_cons in Hops as [Hop Hops]. simpl.
  apply IH; [done | by apply inv_applyOp | by apply index_applyOp].
Qed.

Lemma index_init : RoomIndexInv init.
Proof. intros e He. by inv He. Qed.

End RoomIndex.

(** ** Registry: joining, leaving and listing *)

Section RegistryUse.
Import SessionManager.
Implicit Types st : State.

Lemma findFirst_put_fresh (p : Session.t -> bool) (m : list (string * Session.t)) k v :
  p v = true -> (∀ e, e ∈ m -> p e.2 = false) ->
  OMap.findFirst p (OMap.put k v m) = Some (k, v).
Proof.
  intros Hv. induction m as [|[k0 v0] m IH]; intros Hm; simpl.
  - by rewrite Hv.
  - case_bool_decide as Hk; simpl.
    + by rewrite Hv.
    + pose proof (Hm (k0, v0)) as H0. simpl in H0. rewrite H0 by (by left).
      apply IH. intros e He. apply Hm. by right.
Qed.

Lemma findFirst_none_iff (p : Session.t -> bool) (m : list (string * Session.t)) :
  (∀ e, e ∈ m -> p e.2 = false) -> OMap.findFirst p m = None.
Proof.
  induction m as [|[k0 v0] m IH]; intros Hm; simpl; [done|].
  pose proof (Hm (k0, v0)) as H0. simpl in H0. rewrite H0 by (by left).
  apply IH. intros e He. apply Hm. by right.
Qed.

Lemma length_le_size (l : list string) (X : gset string) :
  NoDup l -> (∀ x, x ∈ l -> x ∈ X) -> (length l <= size X)%nat.
Proof.
  intros Hnd Hin. rewrite <- (size_list_to_set (C := gset string) l) by done.
  apply subseteq_size. intros x Hx. apply Hin. by apply elem_of_list_to_set in Hx.
Qed.

Lemma removeUserFromRoom_userRooms socketId st :
  userRooms (removeUserFromRoom socketId st).2
  = match OMap.get socketId (userSessions st) with
    | Some s => delete (Session.userId s) (userRooms st)
    | None => userRooms st
    end.
Proof. unfold removeUserFromRoom. by destruct (OMap.get _ _). Qed.

Lemma removeUserFromRoom_typingUsers socketId st :
  typingUsers (removeUserFromRoom socketId st).2
  = match OMap.get socketId (userSessions st) with
    | Some s => setDelete (Session.roomId s) (Session.userId s) (typingUsers st)
    | None => typingUsers st
    end.
Proof. unfold removeUserFromRoom. by destruct (OMap.get _ _). Qed.

Lemma joined_facts ops socketId userId username roomId now :
  Forall fromGateway ops -> roomId ≠ "" ->
  let joined := addUserToRoom socketId userId username roomId now (run ops init) in
  let session := Session.mk userId username socketId roomId now now in
  RegistryInv joined ∧ RoomIndexInv joined
  ∧ OMap.get socketId (userSessions joined) = Some session
  ∧ OMap.findFirst (isUser userId) (userSessions joined) = Some (socketId, session).
Proof.
  intros Hops Hroom joined session.
  destruct (reachable_invariants ops init Hops inv_init index_init) as [Hinv Hidx].
  split_and!.
  - by apply inv_addUserToRoom.
  - by apply index_addUserToRoom.
  - unfold joined, addUserToRoom. simpl. apply omap_get_put_eq.
  - unfold joined, addUserToRoom. simpl. apply findFirst_put_fresh.
    + unfold isUser. simpl. by apply bool_decide_eq_true_2.
    + intros e He. rewrite removeUserFromAllRooms_sessions in He by done.
      apply list_elem_of_filter in He as [Hne _].
      unfold isUser. by apply bool_decide_eq_false_2.
Qed.

End RegistryUse.

(** X1. In a state the registry reaches through the gateway, a join makes
    the new session the one found by socket id and by user id, the only
    socket of the user, records the room for the user and lists the session
    among the users of the room, whose count is then at least one. *)
Theorem join_then_lookup (ops : list SessionManager.Op)
    (socketId userId username roomId : string) (now : Z) :
  Forall SessionManager.fromGateway ops -> roomId ≠ "" ->
  let st := SessionManager.addUserToRoom socketId userId username roomId now
              (SessionManager.run ops SessionManager.init) in
  let session := Session.mk userId username socketId roomId now now in
  SessionManager.getUserBySocketId socketId st = Some session
  ∧ SessionManager.getUserByUserId userId st = Some session
  ∧ SessionManager.getUserSocketIds userId st = [socketId]
  ∧ SessionManager.userRooms st !! userId = Some roomId
  ∧ session ∈ SessionManager.getRoomUsers roomId st
  ∧ 1 <= SessionManager.getRoomUserCount roomId st.
Proof.
  intros Hops Hroom st session.
  destruct (joined_facts ops socketId userId username roomId now Hops Hroom)
    as (Hinv & Hidx & Hget & Hfind).
  fold st session in Hinv, Hidx, Hget, Hfind.
  pose proof Hinv as [Hk Hu Hr Hn].
  pose proof (omap_get_Some_elem _ _ _ Hget) as Hin.
  assert (Hmember : userId ∈ default ∅ (SessionManager.roomUsers st !! roomId)).
  { apply (Hidx (socketId, session) Hin). }
  split_and!.
  - exact Hget.
  - unfold SessionManager.getUserByUserId. by rewrite Hfind.
  - unfold SessionManager.getUserSocketIds.
    assert (Hone : filter (λ e, Session.userId e.2 = userId)
                     (SessionManager.userSessions st) = [(socketId, session)]).
    { pose proof (one_socket_per_user userId _ Hu) as Hlen.
      assert (Hel : (socketId, session)
                    ∈ filter (λ e, Session.userId e.2 = userId)
                        (SessionManager.userSessions st)).
      { apply list_elem_of_filter. by split. }
      destruct (filter _ _) as [|e [|e' l]]; simpl in Hlen; [by inv Hel| |lia].
      apply list_elem_of_singleton in Hel. by subst. }
    by rewrite Hone.
  - apply (Hr (socketId, session) Hin).
  - unfold SessionManager.getRoomUsers. apply list_elem_of_filter. split; [done|].
    unfold OMap.values. by apply (list_elem_of_fmap_2 snd) in Hin.
  - unfold SessionManager.getRoomUserCount.
    assert (size (default ∅ (SessionManager.roomUsers st !! roomId)) ≠ 0%nat); [|lia].
    intros Hz. apply size_empty_inv in Hz. by apply Hz in Hmember.
Qed.

Lemma join_then_lookup_witness :
  let ops := [SessionManager.OpAddUserToRoom "s1" "u1" "alice" "r1" 1] in
  let st := SessionManager.addUserToRoom "s2" "u2" "bob" "r1" 5
              (SessionManager.run ops SessionManager.init) in
  Forall SessionManager.fromGateway ops
  ∧ SessionManager.getUserByUserId "u2" st = Some (Session.mk "u2" "bob" "s2" "r1" 5 5)
  ∧ SessionManager.getUserSocketIds "u2" st = ["s2"].
Proof.
  intros ops st.
  assert (Hops : Forall SessionManager.fromGateway ops).
  { repeat constructor. simpl. discriminate. }
  destruct (join_then_lookup ops "s2" "u2" "bob" "r1" 5 Hops) as (_ & H2 & H3 & _).
  - discriminate.
  - split; [exact Hops|]. split; [exact H2 | exact H3].
Defined.

(** X2. A join followed by the leave of the same connection returns the
    session that was registered and undoes the join for the user: no
    session by socket or by user, no recorded room, no membership and no
    typing entry in the room, and the room's user count is one less than
    right after the join; other rooms keep their count. *)
Theorem join_then_leave (ops : list SessionManager.Op)
    (socketId userId username roomId : string) (now : Z) :
  Forall SessionManager.fromGateway ops -> roomId ≠ "" ->
  let joined := SessionManager.addUserToRoom socketId userId username roomId now
                  (SessionManager.run ops SessionManager.init) in
  let session := Session.mk userId username socketId roomId now now in
  let left := (SessionManager.removeUserFromRoom socketId joined).1 in
  let st := (SessionManager.removeUserFromRoom socketId joined).2 in
  left = Some session
  ∧ SessionManager.getUserBySocketId socketId st = None
  ∧ SessionManager.getUserByUserId userId st = None
  ∧ SessionManager.userRooms st !! userId = None
  ∧ ¬ SessionManager.inRoomSet roomId userId (SessionManager.roomUsers st)
  ∧ ¬ SessionManager.inRoomSet roomId userId (SessionManager.typingUsers st)
  ∧ SessionManager.getRoomUserCount roomId st
    = SessionManager.getRoomUserCount roomId joined - 1
  ∧ (∀ other, other ≠ roomId ->
       SessionManager.getRoomUserCount other st
       = SessionManager.getRoomUserCount other joined).
Proof.
  intros Hops Hroom joined session left st.
  destruct (joined_facts ops socketId userId username roomId now Hops Hroom)
    as (Hinv & Hidx & Hget & Hfind).
  fold joined session in Hinv, Hidx, Hget, Hfind.
  pose proof Hinv as [Hk Hu Hr Hn].
  pose proof (omap_get_Some_elem _ _ _ Hget) as Hin.
  assert (Hru : SessionManager.roomUsers st
                = SessionManager.setDelete roomId userId
                    (SessionManager.roomUsers joined)).
  { unfold st. by rewrite removeUserFromRoom_roomUsers, Hget. }
  split_and!.
  - unfold left, SessionManager.removeUserFromRoom. by rewrite Hget.
  - by apply removeUserFromRoom_gone.
  - unfold SessionManager.getUserByUserId, st.
    rewrite removeUserFromRoom_sessions by done.
    rewrite findFirst_none_iff; [done|].
    intros e [Hne He]%list_elem_of_filter.
    unfold SessionManager.isUser. apply bool_decide_eq_false_2. intros Heq.
    apply Hne.
    assert (e = (socketId, session)) as ->; [|done].
    apply (NoDup_fmap_eq (λ e, Session.userId e.2) (SessionManager.userSessions joined));
      [|done|done|done].
    unfold OMap.values in Hu. by rewrite <- list_fmap_compose in Hu.
  - unfold st. rewrite removeUserFromRoom_userRooms, Hget. simpl.
    apply lookup_delete_eq.
  - rewrite Hru. apply setDelete_not_in.
  - unfold st. rewrite removeUserFromRoom_typingUsers, Hget. simpl.
    apply setDelete_not_in.
  - unfold SessionManager.getRoomUserCount. rewrite Hru.
    unfold SessionManager.setDelete. rewrite lookup_alter_eq.
    assert (Hmem : userId ∈ default ∅ (SessionManager.roomUsers joined !! roomId))
      by apply (Hidx (socketId, session) Hin).
    destruct (SessionManager.roomUsers joined !! roomId) as [users|];
      simpl in Hmem; simpl.
    + assert (Hsub : ({[userId]} : gset string) ⊆ users).
      { apply singleton_subseteq_l. exact Hmem. }
      rewrite (size_difference users {[userId]} Hsub).
      rewrite size_singleton.
      assert (size users ≠ 0%nat); [|lia].
      intros Hz. apply size_empty_inv in Hz. by apply Hz in Hmem.
    + by apply not_elem_of_empty in Hmem.
  - intros other Hne. unfold SessionManager.getRoomUserCount. rewrite Hru.
    unfold SessionManager.setDelete. by rewrite lookup_alter_ne.
Qed.

Lemma join_then_leave_witness :
  let ops := [SessionManager.OpAddUserToRoom "s1" "u1" "alice" "r1" 1] in
  let joined := SessionManager.addUserToRoom "s2" "u2" "bob" "r1" 5
                  (SessionManager.run ops SessionManager.init) in
  let st := (SessionManager.removeUserFromRoom "s2" joined).2 in
  Forall SessionManager.fromGateway ops
  ∧ SessionManager.getUserByUserId "u2" st = None
  ∧ SessionManager.getRoomUserCount "r1" st
    = SessionManager.getRoomUserCount "r1" joined - 1.
Proof.
  intros ops joined st.
  assert (Hops : Forall SessionManager.fromGateway ops).
  { repeat constructor. simpl. discriminate. }
  destruct (join_then_leave ops "s2" "u2" "bob" "r1" 5 Hops)
    as (_ & _ & H3 & _ & _ & _ & H7 & _).
  - discriminate.
  - split; [exact Hops|]. split; [exact H3 | exact H7].
Defined.

(** X3. Leaving on a connection that has no session returns nothing and
    changes nothing; in particular a second leave of the same connection
    is without effect. *)
Theorem leave_without_session (ops : list SessionManager.Op) (socketId : string) :
  Forall SessionManager.fromGateway ops ->
  let st := SessionManager.run ops SessionManager.init in
  (SessionManager.getUserBySocketId socketId st = None ->
   SessionManager.removeUserFromRoom socketId st = (None, st))
  ∧ SessionManager.removeUserFromRoom socketId
      (SessionManager.removeUserFromRoom socketId st).2
    = (None, (SessionManager.removeUserFromRoom socketId st).2).
Proof.
  intros Hops st.
  assert (Hinv : RegistryInv st) by (apply inv_run; [done | apply inv_init]).
  assert (Hnone : ∀ st', SessionManager.getUserBySocketId socketId st' = None ->
                         SessionManager.removeUserFromRoom socketId st' = (None, st')).
  { intros st' Hg. unfold SessionManager.removeUserFromRoom.
    unfold SessionManager.getUserBySocketId in Hg. by rewrite Hg. }
  split; [apply Hnone|].
  apply Hnone. apply removeUserFromRoom_gone. by destruct Hinv.
Qed.

Lemma leave_without_session_witness :
  let ops := [SessionManager.OpAddUserToRoom "s1" "u1" "alice" "r1" 1] in
  let st := SessionManager.run ops SessionManager.init in
  Forall SessionManager.fromGateway ops
  ∧ SessionManager.removeUserFromRoom "s1"
      (SessionManager.removeUserFromRoom "s1" st).2
    = (None, (SessionManager.removeUserFromRoom "s1" st).2).
Proof.
  intros ops st.
  assert (Hops : Forall SessionManager.fromGateway ops).
  { repeat constructor. simpl. discriminate. }
  split; [exact Hops|].
  exact (proj2 (leave_without_session ops "s1" Hops)).
Defined.

(** X4. In a reachable state [getRoomUsers] lists exactly the sessions
    whose room is the given one, each user once, and never more of them
    than [getRoomUserCount] reports; the [users] of [getRoomStats] are as
    many as the listed sessions. *)
Theorem room_users_within_count (ops : list SessionManager.Op)
    (roomId : string) (now : Z) :
  Forall SessionManager.fromGateway ops ->
  let st := SessionManager.run ops SessionManager.init in
  SessionManager.getRoomUsers roomId st
  = filter (λ s, Session.roomId s = roomId) (SessionManager.getAllOnlineSessions st)
  ∧ NoDup (Session.userId <$> SessionManager.getRoomUsers roomId st)
  ∧ JsArray.len (SessionManager.getRoomUsers roomId st)
    <= SessionManager.getRoomUserCount roomId st
  ∧ JsArray.len (SessionManager.ri_users (SessionManager.getRoomStats roomId now st))
    <= SessionManager.ri_userCount (SessionManager.getRoomStats roomId now st).
Proof.
  intros Hops st.
  destruct (reachable_invariants ops SessionManager.init Hops inv_init index_init)
    as [Hinv Hidx].
  fold st in Hinv, Hidx. pose proof Hinv as [Hk Hu Hr Hn].
  assert (Hnd : NoDup (Session.userId <$> SessionManager.getRoomUsers roomId st)).
  { eapply sublist_NoDup; [exact Hu|].
    apply fmap_sublist. unfold SessionManager.getRoomUsers. apply sublist_filter. }
  assert (Hlen : JsArray.len (SessionManager.getRoomUsers roomId st)
                 <= SessionManager.getRoomUserCount roomId st).
  { unfold JsArray.len, SessionManager.getRoomUserCount.
    rewrite <- (length_fmap Session.userId).
    apply inj_le. apply length_le_size; [done|].
    intros x (s & -> & Hs)%list_elem_of_fmap.
    unfold SessionManager.getRoomUsers in Hs.
    by apply list_elem_of_filter in Hs as [[? _] _]. }
  split_and!.
  - unfold SessionManager.getRoomUsers, SessionManager.getAllOnlineSessions.
    apply filter_ext_in. intros s Hs. split; [by intros [_ ?]|].
    intros Heq. split; [|done].
    unfold OMap.values in Hs. apply list_elem_of_fmap in Hs as (e & -> & He).
    rewrite <- Heq. apply (Hidx e He).
  - exact Hnd.
  - exact Hlen.
  - simpl. unfold JsArray.len in *. by rewrite length_map.
Qed.

Lemma room_users_within_count_witness :
  let ops := [SessionManager.OpAddUserToRoom "s1" "u1" "alice" "r1" 1;
              SessionManager.OpAddUserToRoom "s2" "u2" "bob" "r1" 2;
              SessionManager.OpRemoveUserFromRoom "s1"] in
  let st := SessionManager.run ops SessionManager.init in
  Forall SessionManager.fromGateway ops
  ∧ JsArray.len (SessionManager.getRoomUsers "r1" st)
    <= SessionManager.getRoomUserCount "r1" st.
Proof.
  intros ops st.
  assert (Hops : Forall SessionManager.fromGateway ops).
  { repeat constructor; simpl; discriminate. }
  split; [exact Hops|].
  exact (proj1 (proj2 (proj2 (room_users_within_count ops "r1" 0 Hops)))).
Defined.

(** ** Registry: inactivity cleanup *)

Section Cleanup.
Import SessionManager.
Implicit Types st : State.

#[local] Abbreviation removeAll st sockets :=
  (foldl (λ acc socketId, (removeUserFromRoom socketId acc).2) st sockets).

Lemma removeAll_inv sockets : ∀ st, RegistryInv st -> RegistryInv (removeAll st sockets).
Proof.
  induction sockets as [|sid l IH]; intros st Hinv; [done|].
  simpl. apply IH. by apply inv_removeUserFromRoom.
Qed.

Lemma removeAll_sessions sockets : ∀ st,
  RegistryInv st ->
  userSessions (removeAll st sockets)
  = filter (λ e, e.1 ∉ sockets) (userSessions st).
Proof.
  induction sockets as [|sid l IH]; intros st Hinv; simpl.
  - symmetry. apply filter_all_in. intros e _. apply not_elem_of_nil.
  - rewrite IH by (by apply inv_removeUserFromRoom).
    rewrite removeUserFromRoom_sessions by done.
    rewrite list_filter_filter. apply list_filter_iff.
    intros e. rewrite not_elem_of_cons. tauto.
Qed.

Lemma removeUserFromRoom_keeps_absent socketId userId roomId st :
  userRooms st !! userId = None ->
  ¬ inRoomSet roomId userId (roomUsers st) ->
  userRooms (removeUserFromRoom socketId st).2 !! userId = None
  ∧ ¬ inRoomSet roomId userId (roomUsers (removeUserFromRoom socketId st).2).
Proof.
  intros Hur Hru.
  rewrite removeUserFromRoom_userRooms, removeUserFromRoom_roomUsers.
  destruct (OMap.get socketId (userSessions st)) as [s|]; [|done]. split.
  - destruct (decide (Session.userId s = userId)) as [->|Hne].
    + apply lookup_delete_eq.
    + by rewrite lookup_delete_ne.
  - rewrite inRoomSet_setDelete. tauto.
Qed.

Lemma removeAll_keeps_absent sockets userId roomId : ∀ st,
  userRooms st !! userId = None ->
  ¬ inRoomSet roomId userId (roomUsers st) ->
  userRooms (removeAll st sockets) !! userId = None
  ∧ ¬ inRoomSet roomId userId (roomUsers (removeAll st sockets)).
Proof.
  induction sockets as [|sid l IH]; intros st Hur Hru; [done|].
  simpl. destruct (removeUserFromRoom_keeps_absent sid userId roomId st Hur Hru).
  by apply IH.
Qed.

Lemma removeAll_evicts sockets : ∀ st socketId s,
  RegistryInv st -> socketId ∈ sockets -> (socketId, s) ∈ userSessions st ->
  userRooms (removeAll st sockets) !! Session.userId s = None
  ∧ ¬ inRoomSet (Session.roomId s) (Session.userId s)
        (roomUsers (removeAll st sockets)).
Proof.
  induction sockets as [|sid l IH]; intros st socketId s Hinv Hel Hin;
    [by apply elem_of_nil in Hel|].
  simpl. destruct (decide (sid = socketId)) as [->|Hne].
  - apply removeAll_keeps_absent.
    + rewrite removeUserFromRoom_userRooms.
      rewrite (omap_elem_get _ _ _ (inv_sockets _ Hinv) Hin).
      apply lookup_delete_eq.
    + rewrite removeUserFromRoom_roomUsers.
      rewrite (omap_elem_get _ _ _ (inv_sockets _ Hinv) Hin).
      apply setDelete_not_in.
  - apply (IH _ socketId s).
    + by apply inv_removeUserFromRoom.
    + apply elem_of_cons in Hel as [?|?]; [congruence | done].
    + rewrite removeUserFromRoom_sessions by done.
      apply list_elem_of_filter. split; [simpl; congruence | done].
Qed.

Lemma inactive_keys threshold now (m : list (string * Session.t)) e :
  NoDup (OMap.keys m) -> e ∈ m ->
  e.1 ∈ OMap.keys (filter (λ e, now - Session.lastActivity e.2 > threshold) m)
  ↔ now - Session.lastActivity e.2 > threshold.
Proof.
  intros Hk He. unfold OMap.keys. split.
  - intros (e' & Heq & [Hin' He']%list_elem_of_filter)%list_elem_of_fmap.
    assert (e = e') as ->; [|done].
    by apply (NoDup_fmap_eq fst m).
  - intros Hin. apply list_elem_of_fmap. exists e. split; [done|].
    by apply list_elem_of_filter.
Qed.

Lemma findFirst_updateFirst (p : Session.t -> bool) f (m : list (string * Session.t)) k v :
  OMap.findFirst p m = Some (k, v) -> p (f v) = true ->
  OMap.findFirst p (OMap.updateFirst p f m) = Some (k, f v).
Proof.
  induction m as [|[k0 v0] m IH]; simpl; [done|].
  destruct (p v0) eqn:Hp; simpl.
  - intros [= -> ->] Hf. by rewrite Hf.
  - intros Hfind Hf. rewrite Hp. by apply IH.
Qed.

Lemma findFirst_filter (p : Session.t -> bool) (Q : string * Session.t -> Prop)
    `{!∀ e, Decision (Q e)} (m : list (string * Session.t)) e :
  OMap.findFirst p m = Some e -> Q e ->
  OMap.findFirst p (filter Q m) = Some e.
Proof.
  induction m as [|[k0 v0] m IH]; simpl; [done|].
  destruct (p v0) eqn:Hp.
  - intros [= <-] HQ. rewrite filter_cons_True by done. simpl. by rewrite Hp.
  - intros Hfind HQ. rewrite filter_cons.
    destruct (decide (Q (k0, v0))); simpl; [rewrite Hp|]; by apply IH.
Qed.

End Cleanup.

(** X5. In a reachable state the inactivity cleanup keeps exactly the
    sessions whose last activity is at most the threshold old, unchanged
    and in order; every session it removes is gone by socket id, its user
    has no recorded room any more and is no longer a member of the
    session's room. *)
Theorem cleanup_removes_exactly_inactive (ops : list SessionManager.Op)
    (inactiveThresholdMs now : Z) :
  Forall SessionManager.fromGateway ops ->
  let st := SessionManager.run ops SessionManager.init in
  let after := SessionManager.cleanupInactiveUsers inactiveThresholdMs now st in
  SessionManager.userSessions after
  = filter (λ e, now - Session.lastActivity e.2 <= inactiveThresholdMs)
      (SessionManager.userSessions st)
  ∧ (∀ socketId s,
       SessionManager.getUserBySocketId socketId st = Some s ->
       now - Session.lastActivity s <= inactiveThresholdMs ->
       SessionManager.getUserBySocketId socketId after = Some s)
  ∧ (∀ socketId s,
       SessionManager.getUserBySocketId socketId st = Some s ->
       now - Session.lastActivity s > inactiveThresholdMs ->
       SessionManager.getUserBySocketId socketId after = None
       ∧ SessionManager.userRooms after !! Session.userId s = None
       ∧ ¬ SessionManager.inRoomSet (Session.roomId s) (Session.userId s)
             (SessionManager.roomUsers after)).
Proof.
  intros Hops st after.
  assert (Hinv : RegistryInv st) by (apply inv_run; [done | apply inv_init]).
  pose proof Hinv as [Hk Hu Hr Hn].
  assert (Hafter : RegistryInv after) by (by apply inv_cleanupInactiveUsers).
  assert (Hs : SessionManager.userSessions after
               = filter (λ e, now - Session.lastActivity e.2 <= inactiveThresholdMs)
                   (SessionManager.userSessions st)).
  { unfold after, SessionManager.cleanupInactiveUsers.
    rewrite removeAll_sessions by done.
    apply filter_ext_in. intros e He.
    rewrite (inactive_keys _ _ _ _ Hk He). lia. }
  split_and!.
  - exact Hs.
  - intros socketId s Hget Hact. unfold SessionManager.getUserBySocketId in *.
    apply omap_get_Some_elem in Hget.
    apply omap_elem_get; [by destruct Hafter|].
    rewrite Hs. by apply list_elem_of_filter.
  - intros socketId s Hget Hinact. unfold SessionManager.getUserBySocketId in *.
    apply omap_get_Some_elem in Hget as Hin.
    split.
    + apply omap_get_None. rewrite Hs. unfold OMap.keys.
      intros (e & Heq & [Hact He]%list_elem_of_filter)%list_elem_of_fmap.
      assert (e = (socketId, s)) as ->; [|simpl in Hact; lia].
      by apply (NoDup_fmap_eq fst (SessionManager.userSessions st)).
    + unfold after, SessionManager.cleanupInactiveUsers.
      apply (removeAll_evicts _ st socketId s); [done| |done].
      by apply (inactive_keys _ _ _ (socketId, s) Hk Hin).
Qed.

Lemma cleanup_removes_exactly_inactive_witness :
  let ops := [SessionManager.OpAddUserToRoom "s1" "u1" "alice" "r1" 1000;
              SessionManager.OpAddUserToRoom "s2" "u2" "bob" "r1" 250000] in
  let st := SessionManager.run ops SessionManager.init in
  let after := SessionManager.cleanupInactiveUsers 300000 400000 st in
  Forall SessionManager.fromGateway ops
  ∧ SessionManager.userSessions after
    = filter (λ e, 400000 - Session.lastActivity e.2 <= 300000)
        (SessionManager.userSessions st).
Proof.
  intros ops st after.
  assert (Hops : Forall SessionManager.fromGateway ops).
  { repeat constructor; simpl; discriminate. }
  split; [exact Hops|].
  exact (proj1 (cleanup_removes_exactly_inactive ops 300000 400000 Hops)).
Defined.

(** X6. Activity protects a session: once [updateUserActivity] has stamped
    the session of a user at [now], a cleanup at a time no more than the
    threshold later keeps that session, with the new stamp. *)
Theorem activity_keeps_session (ops : list SessionManager.Op) (userId : string)
    (s : Session.t) (now later inactiveThresholdMs : Z) :
  Forall SessionManager.fromGateway ops ->
  SessionManager.getUserByUserId userId
    (SessionManager.run ops SessionManager.init) = Some s ->
  later - now <= inactiveThresholdMs ->
  SessionManager.getUserByUserId userId
    (SessionManager.cleanupInactiveUsers inactiveThresholdMs later
       (SessionManager.updateUserActivity userId now
          (SessionManager.run ops SessionManager.init)))
  = Some (Session.touch now s).
Proof.
  intros Hops Hget Hlater.
  set (st := SessionManager.run ops SessionManager.init) in *.
  assert (Hinv : RegistryInv st) by (apply inv_run; [done | apply inv_init]).
  pose proof (inv_updateUserActivity userId now st Hinv) as Hinv1.
  unfold SessionManager.getUserByUserId in *.
  destruct (OMap.findFirst _ (SessionManager.userSessions st)) as [[sid s0]|] eqn:Hf;
    [|done].
  simpl in Hget. injection Hget as ->.
  pose proof (omap_findFirst_Some _ _ _ _ Hf) as [_ Hp].
  unfold SessionManager.cleanupInactiveUsers.
  rewrite removeAll_sessions by done.
  rewrite (findFirst_filter _ _ _ (sid, Session.touch now s)); [done| |].
  - unfold SessionManager.updateUserActivity. simpl.
    apply findFirst_updateFirst; [done|].
    unfold SessionManager.isUser in *. simpl. done.
  - simpl. intros Hin.
    apply (inactive_keys inactiveThresholdMs later _ (sid, Session.touch now s))
      in Hin; [simpl in Hin; lia | by destruct Hinv1 |].
    unfold SessionManager.updateUserActivity. simpl.
    eapply omap_findFirst_Some.
    apply findFirst_updateFirst; [exact Hf|].
    unfold SessionManager.isUser in *. simpl. done.
Qed.

Lemma activity_keeps_session_witness :
  let ops := [SessionManager.OpAddUserToRoom "s1" "u1" "alice" "r1" 1000] in
  Forall SessionManager.fromGateway ops
  ∧ SessionManager.getUserByUserId "u1"
      (SessionManager.cleanupInactiveUsers 300000 900000
         (SessionManager.updateUserActivity "u1" 700000
            (SessionManager.run ops SessionManager.init)))
    = Some (Session.touch 700000 (Session.mk "u1" "alice" "s1" "r1" 1000 1000)).
Proof.
  intros ops.
  assert (Hops : Forall SessionManager.fromGateway ops).
  { repeat constructor; simpl; discriminate. }
  split; [exact Hops|].
  apply (activity_keeps_session ops "u1" _ 700000 900000 300000 Hops).
  - reflexivity.
  - lia.
Defined.

(** X7. No operation of the registry removes a room from [roomUsers]: a
    room that has been joined stays a key of the map when its last user
    leaves, so [getActiveRoomsCount] never decreases. *)
Theorem active_rooms_never_decrease (ops : list SessionManager.Op)
    (st : SessionManager.State) :
  dom (SessionManager.roomUsers st)
    ⊆ dom (SessionManager.roomUsers (SessionManager.run ops st))
  ∧ SessionManager.getActiveRoomsCount st
    <= SessionManager.getActiveRoomsCount (SessionManager.run ops st).
Proof.
  assert (Hdel : ∀ r u m, dom (SessionManager.setDelete r u m) = dom m).
  { intros. unfold SessionManager.setDelete. apply dom_alter_L. }
  assert (Hrem : ∀ sid st', dom (SessionManager.roomUsers st')
     ⊆ dom (SessionManager.roomUsers (SessionManager.removeUserFromRoom sid st').2)).
  { intros sid st'. rewrite removeUserFromRoom_roomUsers.
    destruct (OMap.get _ _); [by rewrite Hdel | done]. }
  assert (Hev : ∀ u st', dom (SessionManager.roomUsers st')
     ⊆ dom (SessionManager.roomUsers (SessionManager.removeUserFromAllRooms u st'))).
  { intros u st'. rewrite removeUserFromAllRooms_roomUsers.
    destruct (_ !! u); [case_bool_decide|]; by rewrite ?Hdel. }
  assert (Hop : ∀ op st', dom (SessionManager.roomUsers st')
     ⊆ dom (SessionManager.roomUsers (SessionManager.applyOp op st'))).
  { intros op st'. destruct op; simpl; try done.
    - etrans; [apply (Hev userId)|]. apply dom_insert_subseteq.
    - unfold SessionManager.cleanupInactiveUsers.
      generalize (OMap.keys (filter (λ e, now - Session.lastActivity e.2
                                          > inactiveThresholdMs)
                               (SessionManager.userSessions st'))).
      intros l. revert st'. induction l as [|sid l IH]; intros st'; [done|].
      simpl. etrans; [apply (Hrem sid)|]. apply IH.
    - unfold SessionManager.checkRateLimit. by case_bool_decide.
    - unfold SessionManager.disconnectUser.
      destruct (OMap.findFirst _ _) as [[sid s]|]; [apply Hrem | done]. }
  assert (Hrun : dom (SessionManager.roomUsers st)
                 ⊆ dom (SessionManager.roomUsers (SessionManager.run ops st))).
  { revert st. induction ops as [|op ops IH]; intros st; [done|].
    simpl. etrans; [apply (Hop op)|]. apply IH. }
  split; [exact Hrun|].
  unfold SessionManager.getActiveRoomsCount.
  rewrite <- !(size_dom (D := gset string)).
  apply inj_le. by apply subseteq_size.
Qed.

(** ** Rate limiter: the bound it enforces *)

Section RateBound.
Import JsArray SessionManager.
Variables (socketId : string) (maxRequests windowMs : Z).
Hypothesis window_positive : 0 < windowMs.

Lemma admittedWindow_snoc admitted time :
  (∀ latest, last admitted = Some latest -> latest <= time) ->
  admittedWindow windowMs (admitted ++ [time])
  = filter (λ t, time - t < windowMs) (admittedWindow windowMs admitted) ++ [time].
Proof.
  intros Hlast. unfold admittedWindow. rewrite last_snoc.
  rewrite filter_app, filter_cons_True, filter_nil by lia. f_equal.
  destruct (last admitted) as [latest|] eqn:Hl.
  - rewrite list_filter_filter. apply list_filter_iff. intros t.
    specialize (Hlast latest eq_refl). split; [|tauto]. intros H. split; [done | lia].
  - apply last_None in Hl. by subst.
Qed.

Lemma rateLimitCalls_window times : ∀ st admitted,
  StronglySorted Z.le times ->
  (∀ latest time, last admitted = Some latest -> time ∈ times -> latest <= time) ->
  default [] (rateLimitMap st !! socketId) = admittedWindow windowMs admitted ->
  (admitted ≠ [] -> len (admittedWindow windowMs admitted) <= maxRequests) ->
  let result := rateLimitCalls socketId maxRequests windowMs times st in
  let admitted' := admitted ++ admittedTimes times result.1 in
  default [] (rateLimitMap result.2 !! socketId) = admittedWindow windowMs admitted'
  ∧ (admitted' ≠ [] -> len (admittedWindow windowMs admitted') <= maxRequests).
Proof.
  induction times as [|time times IH]; intros st admitted Hs Hlast Hst Hlen.
  - simpl. by rewrite app_nil_r.
  - apply StronglySorted_inv in Hs as [Hs Hall].
    cbn [rateLimitCalls].
    destruct (Z.lt_ge_cases
                (len (recentRequests time windowMs
                        (default [] (rateLimitMap st !! socketId))))
                maxRequests) as [Hlt|Hge].
    + rewrite checkRateLimit_admits by done.
      set (st1 := setRateLimitMap _ st).
      assert (Hw : admittedWindow windowMs (admitted ++ [time])
                   = recentRequests time windowMs
                       (default [] (rateLimitMap st !! socketId)) ++ [time]).
      { rewrite admittedWindow_snoc, Hst; [done|].
        intros latest Hl. apply (Hlast latest time Hl). by left. }
      specialize (IH st1 (admitted ++ [time]) Hs).
      destruct (rateLimitCalls socketId maxRequests windowMs times st1)
        as [oks st2] eqn:Hcalls.
      cbn [fst snd admittedTimes] in *.
      rewrite <- app_assoc in IH. cbn [app] in IH. apply IH.
      * intros latest t Hl Ht. rewrite last_snoc in Hl. injection Hl as <-.
        rewrite Forall_forall in Hall. by apply Hall.
      * unfold st1. simpl. rewrite lookup_insert_eq. simpl. by rewrite Hw.
      * intros _. rewrite Hw, len_app. unfold len at 2. simpl. lia.
    + rewrite checkRateLimit_rejects by lia.
      specialize (IH st admitted Hs).
      destruct (rateLimitCalls socketId maxRequests windowMs times st)
        as [oks st2] eqn:Hcalls.
      cbn [fst snd admittedTimes] in *. apply IH; [|done|done].
      intros latest t Hl Ht. apply (Hlast latest t Hl). by right.
Qed.

End RateBound.

(** X8. With a clock that does not go back and a positive window, after
    any run of calls on a connection that had no record, the admitted calls
    less than [windowMs] older than the last admitted one, that one
    included, are exactly the connection's record and number at most
    [maxRequests]. *)
Theorem rate_limit_never_exceeds_max (socketId : string)
    (maxRequests windowMs : Z) (times : list Z) (st : SessionManager.State) :
  0 < windowMs ->
  StronglySorted Z.le times ->
  SessionManager.rateLimitMap st !! socketId = None ->
  let result := rateLimitCalls socketId maxRequests windowMs times st in
  let admitted := admittedTimes times result.1 in
  default [] (SessionManager.rateLimitMap result.2 !! socketId)
  = admittedWindow windowMs admitted
  ∧ (admitted ≠ [] ->
     JsArray.len (admittedWindow windowMs admitted) <= maxRequests).
Proof.
  intros Hw Hs Hnone result admitted.
  apply (rateLimitCalls_window socketId maxRequests windowMs Hw times st [] Hs).
  - intros latest time Hl. done.
  - by rewrite Hnone.
  - done.
Qed.

Lemma rate_limit_never_exceeds_max_witness :
  let result := rateLimitCalls "s1" 2 1000 [0; 10; 20; 1005; 1015; 1018]
                  SessionManager.init in
  result.1 = [true; true; false; true; true; false]
  ∧ default [] (SessionManager.rateLimitMap result.2 !! "s1")
    = admittedWindow 1000 (admittedTimes [0; 10; 20; 1005; 1015; 1018] result.1)
  ∧ JsArray.len
      (admittedWindow 1000 (admittedTimes [0; 10; 20; 1005; 1015; 1018] result.1))
    <= 2.
Proof.
  intros result. split; [reflexivity|].
  destruct (rate_limit_never_exceeds_max "s1" 2 1000 [0; 10; 20; 1005; 1015; 1018]
              SessionManager.init) as [H1 H2].
  - lia.
  - repeat constructor; lia.
  - reflexivity.
  - split; [exact H1|]. apply H2. discriminate.
Defined.

(** ** Message buffer: adding, draining, statistics *)

Section BufferUse.
Import JsArray MessageBuffer.
Variable cfg : Config.

Lemma drain_conserves st :
  let result := flushToDatabase_drain cfg st in
  from_option id [] result.2 ++ pendingWrites result.1 = pendingWrites st
  ∧ inFlight result.1 = inFlight st
  ∧ stored result.1 = stored st.
Proof.
  unfold flushToDatabase_drain. case_bool_decide as Hlen; [simpl; done|].
  pose proof (splice0_app (BATCH_SIZE cfg) (pendingWrites st)) as Happ.
  destruct (splice0 _ _) as [batch rest]. simpl in *. done.
Qed.

Lemma addMessage_conserves roomId userId username message type newId now st :
  let result := addMessage cfg roomId userId username message type newId now st in
  concat (inFlight result.2) ++ pendingWrites result.2
  = concat (inFlight st) ++ pendingWrites st ++ [result.1]
  ∧ stored result.2 = stored st.
Proof.
  unfold addMessage. cbn [fst snd].
  match goal with |- context [if ?b then _ else _] => destruct b end.
  - match goal with |- context [flushToDatabase_drain cfg ?s] =>
      pose proof (drain_conserves s) as (Hc & Hf & Hs);
      destruct (flushToDatabase_drain cfg s) as [st' [batch|]] end;
      simpl in *.
    + rewrite Hf, Hs. split; [|done].
      rewrite concat_app. simpl. rewrite app_nil_r, <- app_assoc. by rewrite Hc.
    + rewrite Hf, Hs, Hc. done.
  - simpl. done.
Qed.

Lemma addMessage_recentMessages roomId userId username message type newId now st :
  recentMessages (addMessage cfg roomId userId username message type newId now st).2
  = <[roomId :=
        capped cfg (default [] (recentMessages st !! roomId)
                    ++ [Msg.mk newId roomId userId username message type now])]>
      (recentMessages st).
Proof.
  exact (addCall_recentMessages cfg st
           (mkAddCall roomId userId username message type newId now)).
Qed.

Lemma flushes_all_ok_cons k st :
  flushes cfg (replicate (S k) true) st
  = flushes cfg (replicate k true) (flushToDatabase cfg true st).
Proof. reflexivity. Qed.

Lemma flushes_all_ok k : ∀ st,
  0 <= BATCH_SIZE cfg ->
  pendingWrites (flushes cfg (replicate k true) st)
  = drop (k * Z.to_nat (BATCH_SIZE cfg)) (pendingWrites st)
  ∧ stored (flushes cfg (replicate k true) st)
    = stored st
      ++ map toMongo (take (k * Z.to_nat (BATCH_SIZE cfg)) (pendingWrites st)).
Proof.
  induction k as [|k IH]; intros st Hb.
  - simpl. by rewrite app_nil_r.
  - rewrite flushes_all_ok_cons.
    destruct (IH (flushToDatabase cfg true st) Hb) as [Hp Hs].
    rewrite Hp, Hs, flush_ok_pending, flush_ok_stored.
    set (b := Z.to_nat (BATCH_SIZE cfg)).
    assert (Hrest : (splice0 (BATCH_SIZE cfg) (pendingWrites st)).2
                    = drop b (pendingWrites st)).
    { by rewrite splice0_rest_drop. }
    assert (Hbatch : (splice0 (BATCH_SIZE cfg) (pendingWrites st)).1
                     = take b (pendingWrites st)).
    { pose proof (splice0_app (BATCH_SIZE cfg) (pendingWrites st)) as Happ.
      rewrite Hrest in Happ.
      rewrite <- (take_drop b (pendingWrites st)) in Happ at 3.
      by apply app_inv_tail in Happ. }
    rewrite Hrest, Hbatch, drop_drop. split.
    + f_equal; lia.
    + rewrite <- app_assoc, <- map_app. do 2 f_equal.
      replace (S k * b)%nat with (b + k * b)%nat by lia.
      apply take_take_drop.
Qed.

Lemma caches_bounded calls roomId messages :
  0 <= MAX_RECENT_MESSAGES cfg ->
  recentMessages (addAll cfg calls init) !! roomId = Some messages ->
  len messages <= MAX_RECENT_MESSAGES cfg.
Proof.
  intros Hcap Hl. pose proof (recent_cache_contents cfg roomId calls Hcap) as H.
  rewrite Hl in H. simpl in H. rewrite H, newest_length by done. lia.
Qed.

Lemma total_bounded (bound : Z) (m : gmap string (list Msg.t)) :
  (∀ roomId messages, m !! roomId = Some messages -> len messages <= bound) ->
  map_fold (λ _ messages sum, sum + len messages) 0 m <= bound * Z.of_nat (size m).
Proof.
  apply (map_fold_weak_ind
    (λ r m, (∀ roomId messages, m !! roomId = Some messages -> len messages <= bound)
            -> r <= bound * Z.of_nat (size m))).
  - intros _. rewrite map_size_empty. lia.
  - intros i x m' r Hi IH Hall.
    rewrite map_size_insert_None by done.
    assert (len x <= bound) by (apply (Hall i); by rewrite lookup_insert_eq).
    assert (r <= bound * Z.of_nat (size m')).
    { apply IH. intros k l Hk. apply (Hall k).
      rewrite lookup_insert_ne; [done|]. intros ->. congruence. }
    lia.
Qed.

End BufferUse.

(** X9. [addMessage] returns the message it built from its arguments;
    with a capacity of at least one that message is the newest of its room,
    the caches of the other rooms are untouched, the message is the only
    thing added to the batches in flight and the queue taken together, in
    last position, and the store is not written. *)
Theorem added_message_is_newest (cfg : MessageBuffer.Config)
    (roomId userId username message type newId : string) (now : Z)
    (st : MessageBuffer.State) :
  1 <= MessageBuffer.MAX_RECENT_MESSAGES cfg ->
  let result := MessageBuffer.addMessage cfg roomId userId username message type
                  newId now st in
  result.1 = Msg.mk newId roomId userId username message type now
  ∧ MessageBuffer.getRecentMessages roomId 1 result.2 = [result.1]
  ∧ (∀ other, other ≠ roomId ->
       MessageBuffer.recentMessages result.2 !! other
       = MessageBuffer.recentMessages st !! other)
  ∧ concat (MessageBuffer.inFlight result.2) ++ MessageBuffer.pendingWrites result.2
    = concat (MessageBuffer.inFlight st) ++ MessageBuffer.pendingWrites st
      ++ [result.1]
  ∧ MessageBuffer.stored result.2 = MessageBuffer.stored st.
Proof.
  intros Hcap result.
  pose proof (addMessage_recentMessages cfg roomId userId username message type
                newId now st) as Hrec.
  fold result in Hrec.
  destruct (addMessage_conserves cfg roomId userId username message type newId now st)
    as [Hcons Hstored].
  split_and!.
  - reflexivity.
  - unfold MessageBuffer.getRecentMessages. rewrite Hrec, lookup_insert_eq.
    rewrite capped_newest by lia.
    change (default [] (Some ?x)) with x.
    rewrite (slice_neg_positive 1) by lia.
    rewrite newest_newest by lia.
    replace (Z.min 1 (MessageBuffer.MAX_RECENT_MESSAGES cfg)) with 1 by lia.
    rewrite newest_snoc by lia.
    unfold newest. simpl. rewrite Nat.sub_0_r, drop_all. done.
  - intros other Hne. rewrite Hrec. by rewrite lookup_insert_ne.
  - exact Hcons.
  - exact Hstored.
Qed.

Lemma added_message_is_newest_witness :
  let st := addAll MessageBuffer.defaultConfig
              [mkAddCall "r1" "u1" "alice" "hello" "text" "id1" 1]
              MessageBuffer.init in
  let result := MessageBuffer.addMessage MessageBuffer.defaultConfig
                  "r1" "u2" "bob" "world" "text" "id2" 2 st in
  MessageBuffer.getRecentMessages "r1" 1 result.2 = [result.1].
Proof.
  intros st result.
  destruct (added_message_is_newest MessageBuffer.defaultConfig
              "r1" "u2" "bob" "world" "text" "id2" 2 st) as (_ & H & _).
  - simpl. lia.
  - exact H.
Defined.

(** X10. Flushes whose inserts all succeed store the queue in the order
    of arrival, [BATCH_SIZE] entries at a time: after [k] of them the first
    [k * BATCH_SIZE] entries are in the store, in order, and the rest is
    the queue; once [k * BATCH_SIZE] covers the queue, the queue is empty
    and all of it is stored. *)
Theorem successful_flushes_store_in_order (cfg : MessageBuffer.Config) (k : nat)
    (st : MessageBuffer.State) :
  0 <= MessageBuffer.BATCH_SIZE cfg ->
  let queue := MessageBuffer.pendingWrites st in
  let after := flushes cfg (replicate k true) st in
  let n := (k * Z.to_nat (MessageBuffer.BATCH_SIZE cfg))%nat in
  MessageBuffer.pendingWrites after = drop n queue
  ∧ MessageBuffer.stored after
    = MessageBuffer.stored st ++ map MessageBuffer.toMongo (take n queue)
  ∧ (JsArray.len queue <= Z.of_nat k * MessageBuffer.BATCH_SIZE cfg ->
     MessageBuffer.pendingWrites after = []
     ∧ MessageBuffer.stored after
       = MessageBuffer.stored st ++ map MessageBuffer.toMongo queue).
Proof.
  intros Hb queue after n.
  destruct (flushes_all_ok cfg k st Hb) as [Hp Hs].
  split_and!; [exact Hp | exact Hs |].
  intros Hcover. unfold after. rewrite Hp, Hs.
  assert ((length queue <= n)%nat) by (unfold JsArray.len, n in *; lia).
  fold queue n. by rewrite drop_ge, take_ge.
Qed.

Lemma successful_flushes_store_in_order_witness :
  let entry i := Msg.mk "m" "r1" "u1" "alice" "x" "text" i in
  let st := MessageBuffer.setPending (entry <$> [1; 2; 3; 4; 5]) MessageBuffer.init in
  let after := flushes (MessageBuffer.sourceConfig 2) [true; true; true] st in
  MessageBuffer.pendingWrites after = []
  ∧ MessageBuffer.stored after
    = map MessageBuffer.toMongo (entry <$> [1; 2; 3; 4; 5]).
Proof.
  intros entry st after.
  destruct (successful_flushes_store_in_order (MessageBuffer.sourceConfig 2) 3 st)
    as (_ & _ & H).
  - simpl. lia.
  - apply H. vm_compute. discriminate.
Defined.

Section Conservation.
Import JsArray MessageBuffer.
Variable cfg : Config.



End Conservation.



(** X12. For every run of [addMessage] calls, the total that [getStats]
    reports for the recent caches is at most [MAX_RECENT_MESSAGES] times
    the number of rooms it reports (100 per room with the source's value). *)
Theorem stats_total_within_capacity (batchSize flushInterval : Z)
    (calls : list AddCall) :
  let stats := MessageBuffer.getStats (MessageBuffer.sourceConfig batchSize)
                 flushInterval
                 (addAll (MessageBuffer.sourceConfig batchSize) calls
                    MessageBuffer.init) in
  MessageBuffer.stat_totalRecentMessages stats
  <= 100 * MessageBuffer.stat_activeRooms stats.
Proof.
  intros stats. unfold stats, MessageBuffer.getStats. simpl.
  apply total_bounded. intros roomId messages Hl.
  by apply (caches_bounded (MessageBuffer.sourceConfig batchSize) calls roomId).
Qed.

Section Emergency.
Import JsArray MessageBuffer.
Variable cfg : Config.

Lemma addMessage_state roomId userId username message type newId now st :
  let m := Msg.mk newId roomId userId username message type now in
  let s1 :=
    setPending (pendingWrites st ++ [m])
      (setRecent
         (<[roomId := capped cfg (default [] (recentMessages st !! roomId) ++ [m])]>
            (recentMessages st)) st) in
  (addMessage cfg roomId userId username message type newId now st).2
  = if len (pendingWrites st ++ [m]) >=? EMERGENCY_FLUSH_SIZE cfg then
      match flushToDatabase_drain cfg s1 with
      | (st', None) => st'
      | (st', Some batch) => setInFlight (inFlight st' ++ [batch]) st'
      end
    else s1.
Proof. reflexivity. Qed.

Lemma addMessage_queue roomId userId username message type newId now st :
  let added := addMessage cfg roomId userId username message type newId now st in
  let queue :=
    pendingWrites st ++ [Msg.mk newId roomId userId username message type now] in
  (len queue < EMERGENCY_FLUSH_SIZE cfg ->
   inFlight added.2 = inFlight st ∧ pendingWrites added.2 = queue)
  ∧ (EMERGENCY_FLUSH_SIZE cfg <= len queue ->
     inFlight added.2 = inFlight st ++ [(splice0 (BATCH_SIZE cfg) queue).1]
     ∧ pendingWrites added.2 = (splice0 (BATCH_SIZE cfg) queue).2).
Proof.
  intros added queue. unfold added. rewrite addMessage_state.
  cbv zeta. fold queue.
  destruct (Z.geb_spec (len queue) (EMERGENCY_FLUSH_SIZE cfg)) as [Hge|Hlt].
  - split; [lia|]. intros _.
    unfold flushToDatabase_drain. cbn [pendingWrites setPending].
    fold queue. rewrite bool_decide_eq_false_2.
    + by destruct (splice0 (BATCH_SIZE cfg) queue) as [b r].
    + unfold queue. rewrite len_app. unfold len at 2. simpl.
      pose proof (len_nonneg (pendingWrites st)). lia.
  - split; [|lia]. intros _. done.
Qed.

End Emergency.

(** X13. [addMessage] starts a flush exactly when the queue, the new
    message included, reaches the emergency threshold: below it the queue
    just grows by the message; from it on the first [BATCH_SIZE] entries
    leave the queue at once as a batch in flight.  When that insert
    succeeds the batch is stored; when it fails within the ceiling the
    queue is again the old queue followed by the new message. *)
Theorem emergency_flush_outcome (cfg : MessageBuffer.Config)
    (roomId userId username message type newId : string) (now : Z)
    (st : MessageBuffer.State) :
  MessageBuffer.inFlight st = [] ->
  let added := MessageBuffer.addMessage cfg roomId userId username message type
                 newId now st in
  let queue := MessageBuffer.pendingWrites st ++ [added.1] in
  let batch := (JsArray.splice0 (MessageBuffer.BATCH_SIZE cfg) queue).1 in
  let rest := (JsArray.splice0 (MessageBuffer.BATCH_SIZE cfg) queue).2 in
  (JsArray.len queue < MessageBuffer.EMERGENCY_FLUSH_SIZE cfg ->
   MessageBuffer.inFlight added.2 = []
   ∧ MessageBuffer.pendingWrites added.2 = queue)
  ∧ (MessageBuffer.EMERGENCY_FLUSH_SIZE cfg <= JsArray.len queue ->
     MessageBuffer.inFlight added.2 = [batch]
     ∧ MessageBuffer.pendingWrites added.2 = rest
     ∧ MessageBuffer.stored (MessageBuffer.settleInFlight cfg true added.2)
       = MessageBuffer.stored st ++ map MessageBuffer.toMongo batch
     ∧ MessageBuffer.pendingWrites (MessageBuffer.settleInFlight cfg true added.2)
       = rest
     ∧ (JsArray.len queue <= MessageBuffer.EMERGENCY_FLUSH_SIZE cfg * 2 ->
        MessageBuffer.pendingWrites (MessageBuffer.settleInFlight cfg false added.2)
        = queue
        ∧ MessageBuffer.stored (MessageBuffer.settleInFlight cfg false added.2)
          = MessageBuffer.stored st)).
Proof.
  intros Hin added queue batch rest.
  destruct (addMessage_queue cfg roomId userId username message type newId now st)
    as [Hbelow Hfrom].
  destruct (addMessage_conserves cfg roomId userId username message type newId now st)
    as [_ Hstored].
  cbv zeta in Hbelow, Hfrom, Hstored.
  change (MessageBuffer.addMessage cfg roomId userId username message type newId
            now st) with added in Hbelow, Hfrom, Hstored.
  change (MessageBuffer.pendingWrites st
          ++ [Msg.mk newId roomId userId username message type now])
    with queue in Hbelow, Hfrom.
  rewrite Hin in Hbelow, Hfrom.
  split; [exact Hbelow|].
  intros Hge. destruct (Hfrom Hge) as [Hf Hp].
  change (MessageBuffer.inFlight added.2 = [batch]) in Hf.
  change (MessageBuffer.pendingWrites added.2 = rest) in Hp.
  unfold MessageBuffer.settleInFlight. rewrite Hf.
  unfold MessageBuffer.flushToDatabase_settle.
  cbn [MessageBuffer.stored MessageBuffer.pendingWrites MessageBuffer.setStored
       MessageBuffer.setPending MessageBuffer.setInFlight].
  split_and!; try done.
  - by rewrite Hstored.
  - intros Hceil. split; [|done]. rewrite Hp.
    rewrite requeue_under_ceiling; unfold batch, rest; by rewrite splice0_app.
Qed.

Lemma emergency_flush_outcome_witness :
  let cfg := {| MessageBuffer.BATCH_SIZE := 2;
                MessageBuffer.MAX_RECENT_MESSAGES := 100;
                MessageBuffer.EMERGENCY_FLUSH_SIZE := 3 |} in
  let entry i := Msg.mk "m" "r1" "u1" "alice" "x" "text" i in
  let st := MessageBuffer.setPending [entry 1; entry 2] MessageBuffer.init in
  let added := MessageBuffer.addMessage cfg "r1" "u1" "alice" "x" "text" "m" 3 st in
  MessageBuffer.inFlight added.2 = [[entry 1; entry 2]]
  ∧ MessageBuffer.pendingWrites (MessageBuffer.settleInFlight cfg false added.2)
    = [entry 1; entry 2; entry 3].
Proof.
  intros cfg entry st added.
  destruct (emergency_flush_outcome cfg "r1" "u1" "alice" "x" "text" "m" 3 st)
    as [_ H].
  - reflexivity.
  - destruct H as (H1 & _ & _ & _ & H5).
    + vm_compute. discriminate.
    + split; [exact H1|]. apply H5. vm_compute. discriminate.
Defined.

(** ** Moderation: unban, and sending after a ban *)

Section Moderation.
Import AdminService.

Lemma banUser_accepts dto now w user :
  userModel w !! ban_userId dto = Some user -> User.isBanned user = false ->
  let w' := (banUser dto now w).1 in
  (banUser dto now w).2 = None
  ∧ userModel w'
    = <[ban_userId dto :=
          User.mk (User.studentId user) (User.fullName user) (User.isActive user)
            true (Some (reasonOrDefault (ban_reason dto))) (Some now)
            (ban_bannedBy dto)]> (userModel w)
  ∧ sessionManager w'
    = SessionManager.disconnectUser (ban_userId dto) (sessionManager w)
  ∧ messageBuffer w' = messageBuffer w
  ∧ chatMessageModel w' = chatMessageModel w.
Proof.
  intros Huser Hnot. unfold banUser. rewrite Huser, Hnot. simpl.
  destruct (server w); simpl; done.
Qed.

Lemma handleMessage_banned cfg maxRequests windowMs data client user now newId w :
  (SessionManager.checkRateLimit client maxRequests windowMs now
     (sessionManager w)).1 = true ->
  st_isBanned (checkUserBannedStatus (ChatGateway.ws_userId user) w) = true ->
  let status := checkUserBannedStatus (ChatGateway.ws_userId user) w in
  ChatGateway.handleMessage cfg maxRequests windowMs data client user now newId w
  = emit [ClientDisconnect client]
      (setSessionManager
         (SessionManager.removeUserFromRoom client
            (SessionManager.checkRateLimit client maxRequests windowMs now
               (sessionManager w)).2).2
         (emit [ClientEmit client "user:banned"
                  (BannedPayload (st_bannedReason status) (st_bannedBy status))]
            (setSessionManager
               (SessionManager.checkRateLimit client maxRequests windowMs now
                  (sessionManager w)).2 w))).
Proof.
  intros Hrate Hban status. unfold ChatGateway.handleMessage.
  destruct (SessionManager.checkRateLimit _ _ _ _ _) as [allowed sm].
  simpl in Hrate. subst allowed. simpl.
  change (checkUserBannedStatus (ChatGateway.ws_userId user)
            (setSessionManager sm w)) with status.
  unfold status at 1. rewrite Hban. done.
Qed.

End Moderation.

(** X14. A ban followed by an unban of the same user succeeds and clears
    every ban field of the user's record, so the ban oracle reports the
    user as not banned; the other users' records, the registry (the
    session the ban removed is not restored) and the buffer are as the ban
    left them, and a second unban is refused without any change. *)
Theorem ban_then_unban_clears (dto : AdminService.BanUserDto) (now : Z)
    (w : World) (user : User.t) :
  userModel w !! AdminService.ban_userId dto = Some user ->
  User.isBanned user = false ->
  let userId := AdminService.ban_userId dto in
  let banned := (AdminService.banUser dto now w).1 in
  let after := (AdminService.unbanUser userId banned).1 in
  (AdminService.unbanUser userId banned).2 = None
  ∧ userModel after !! userId
    = Some (User.mk (User.studentId user) (User.fullName user)
              (User.isActive user) false None None None)
  ∧ AdminService.checkUserBannedStatus userId after
    = AdminService.mkBannedStatus false None None
  ∧ (∀ other, other ≠ userId -> userModel after !! other = userModel w !! other)
  ∧ sessionManager after = sessionManager banned
  ∧ messageBuffer after = messageBuffer w
  ∧ (∃ message,
       (AdminService.unbanUser userId after).2 = Some (BadRequestException message))
  ∧ (AdminService.unbanUser userId after).1 = after.
Proof.
  intros Huser Hnot userId banned after.
  destruct (banUser_accepts dto now w user Huser Hnot) as (_ & Hum & Hsm & Hmb & _).
  fold banned userId in Hum, Hsm, Hmb.
  assert (Hlook : userModel banned !! userId
                  = Some (User.mk (User.studentId user) (User.fullName user)
                            (User.isActive user) true
                            (Some (AdminService.reasonOrDefault
                                     (AdminService.ban_reason dto)))
                            (Some now) (AdminService.ban_bannedBy dto))).
  { rewrite Hum. apply lookup_insert_eq. }
  assert (Hafter : after
    = (if server banned
       then emit [ServerEmit "admin:userUnbanned" (AdminUserUnbanned userId)]
       else id)
        (setUserModel
           (<[userId := User.mk (User.studentId user) (User.fullName user)
                          (User.isActive user) false None None None]>
              (userModel banned)) banned)).
  { unfold after, AdminService.unbanUser. rewrite Hlook. simpl.
    by destruct (server banned). }
  assert (Hlook' : userModel after !! userId
                   = Some (User.mk (User.studentId user) (User.fullName user)
                             (User.isActive user) false None None None)).
  { rewrite Hafter. destruct (server banned); simpl; apply lookup_insert_eq. }
  split_and!.
  - unfold AdminService.unbanUser. rewrite Hlook. done.
  - exact Hlook'.
  - unfold AdminService.checkUserBannedStatus. by rewrite Hlook'.
  - intros other Hne. rewrite Hafter.
    destruct (server banned); simpl; rewrite lookup_insert_ne by done;
      rewrite Hum; by rewrite lookup_insert_ne.
  - rewrite Hafter. by destruct (server banned).
  - rewrite Hafter. by destruct (server banned).
  - unfold AdminService.unbanUser. rewrite Hlook'. simpl. eauto.
  - unfold AdminService.unbanUser. rewrite Hlook'. done.
Qed.

Lemma ban_then_unban_clears_witness :
  let w := {| userModel := {["u1" := User.mk "u1" "Alice" true false None None None]};
              chatMessageModel := [];
              sessionManager := SessionManager.init;
              messageBuffer := MessageBuffer.init; server := true;
              emitted := [] |} in
  let dto := AdminService.mkBanUserDto "u1" None (Some "admin") in
  let banned := (AdminService.banUser dto 5 w).1 in
  AdminService.checkUserBannedStatus "u1" banned
  = AdminService.mkBannedStatus true (Some "Violated community guidelines")
      (Some "admin")
  ∧ AdminService.checkUserBannedStatus "u1"
      (AdminService.unbanUser "u1" banned).1
    = AdminService.mkBannedStatus false None None.
Proof.
  intros w dto banned. split; [reflexivity|].
  destruct (ban_then_unban_clears dto 5 w
              (User.mk "u1" "Alice" true false None None None))
    as (_ & _ & H & _).
  - reflexivity.
  - reflexivity.
  - exact H.
Defined.

(** X15. Once [banUser] has accepted a ban, a send by that user that
    passes the rate limit, from any connection and with any content, is
    answered with the ban notice carrying the stored reason and the banning
    admin, closes the connection and adds nothing to the message buffer. *)
Theorem banned_user_cannot_send (cfg : MessageBuffer.Config)
    (maxRequests windowMs : Z) (dto : AdminService.BanUserDto) (banTime : Z)
    (target : User.t) (data : ChatGateway.ChatMessageDto) (client : string)
    (user : ChatGateway.WsUser) (now : Z) (newId : string) (w : World) :
  userModel w !! AdminService.ban_userId dto = Some target ->
  User.isBanned target = false ->
  ChatGateway.ws_userId user = AdminService.ban_userId dto ->
  let banned := (AdminService.banUser dto banTime w).1 in
  (SessionManager.checkRateLimit client maxRequests windowMs now
     (sessionManager banned)).1 = true ->
  let w' := ChatGateway.handleMessage cfg maxRequests windowMs data client user
              now newId banned in
  emitted w'
  = emitted banned
    ++ [ClientEmit client "user:banned"
          (BannedPayload
             (Some (AdminService.reasonOrDefault (AdminService.ban_reason dto)))
             (AdminService.ban_bannedBy dto));
        ClientDisconnect client]
  ∧ disconnected client w'
  ∧ messageBuffer w' = messageBuffer w.
Proof.
  intros Huser Hnot Hid banned Hrate w'.
  destruct (banUser_accepts dto banTime w target Huser Hnot)
    as (_ & Hum & _ & Hmb & _).
  fold banned in Hum, Hmb.
  assert (Hstatus : AdminService.checkUserBannedStatus (ChatGateway.ws_userId user)
                      banned
                    = AdminService.mkBannedStatus true
                        (Some (AdminService.reasonOrDefault
                                 (AdminService.ban_reason dto)))
                        (AdminService.ban_bannedBy dto)).
  { unfold AdminService.checkUserBannedStatus. rewrite Hid, Hum.
    by rewrite lookup_insert_eq. }
  unfold w'. rewrite handleMessage_banned; [|done | by rewrite Hstatus].
  rewrite Hstatus. simpl. split_and!.
  - by rewrite <- app_assoc.
  - unfold disconnected. simpl. rewrite !elem_of_app. right.
    by apply list_elem_of_singleton.
  - exact Hmb.
Qed.

Lemma banned_user_cannot_send_witness :
  let sm := SessionManager.addUserToRoom "s1" "u1" "alice" "r1" 1
              SessionManager.init in
  let w := {| userModel := {["u1" := User.mk "u1" "Alice" true false None None None]};
              chatMessageModel := []; sessionManager := sm;
              messageBuffer := MessageBuffer.init; server := false;
              emitted := [] |} in
  let dto := AdminService.mkBanUserDto "u1" (Some "spam") (Some "admin") in
  let banned := (AdminService.banUser dto 5 w).1 in
  let w' := ChatGateway.handleMessage MessageBuffer.defaultConfig 30 60000
              (ChatGateway.mkChatMessageDto "r1" "hello" None) "s9"
              (ChatGateway.mkWsUser "u1" "Alice" "u1") 8 "id1" banned in
  emitted w'
  = [ClientEmit "s9" "user:banned" (BannedPayload (Some "spam") (Some "admin"));
     ClientDisconnect "s9"]
  ∧ disconnected "s9" w'
  ∧ messageBuffer w' = MessageBuffer.init.
Proof.
  intros sm w dto banned w'.
  apply (banned_user_cannot_send MessageBuffer.defaultConfig 30 60000 dto 5
           (User.mk "u1" "Alice" true false None None None)
           (ChatGateway.mkChatMessageDto "r1" "hello" None) "s9"
           (ChatGateway.mkWsUser "u1" "Alice" "u1") 8 "id1" w);
    reflexivity.
Defined.

(** ** The send handler *)

Section Send.
Import ChatGateway.






Lemma get_updateFirst_user (m : list (string * Session.t)) socketId session now :
  NoDup (Session.userId <$> OMap.values m) ->
  OMap.get socketId m = Some session ->
  OMap.get socketId
    (OMap.updateFirst (SessionManager.isUser (Session.userId session))
       (Session.touch now) m)
  = Some (Session.touch now session).
Proof.
  unfold OMap.values, SessionManager.isUser.
  induction m as [|[k0 v0] m IH]; simpl; [done|].
  intros Hnd Hget. apply NoDup_cons in Hnd as [Hfresh Hnd].
  destruct (bool_decide_reflect (k0 = socketId)) as [->|Hk].
  - injection Hget as ->. rewrite bool_decide_eq_true_2 by done. simpl.
    by rewrite bool_decide_eq_true_2.
  - destruct (bool_decide_reflect (Session.userId v0 = Session.userId session))
      as [Hsame|Hother]; simpl.
    + exfalso. apply Hfresh. rewrite Hsame.
      apply omap_get_Some_elem in Hget.
      apply list_elem_of_fmap. exists session. split; [done|].
      apply list_elem_of_fmap. by exists (socketId, session).
    + rewrite bool_decide_eq_false_2 by done. by apply IH.
Qed.

Variable cfg : MessageBuffer.Config.
Variable maxRequests windowMs : Z.


End Send.





(** X18. A send refused by the rate limit: when the connection already has
    [maxRequests] or more requests inside the window, the handler only
    answers with the rate-limit error.  The refused request is not recorded
    against the connection, and the ban check is not reached, so the
    registry, the buffer and the connection of a banned sender stay as they
    are. *)
Theorem rate_limited_send_only_errors (cfg : MessageBuffer.Config)
    (maxRequests windowMs : Z) (data : ChatGateway.ChatMessageDto)
    (client : string) (user : ChatGateway.WsUser) (now : Z) (newId : string)
    (w : World) :
  maxRequests
  <= JsArray.len
       (SessionManager.recentRequests now windowMs
          (default [] (SessionManager.rateLimitMap (sessionManager w) !! client))) ->
  ChatGateway.handleMessage cfg maxRequests windowMs data client user now newId w
  = emit [ClientEmit client "error"
            (ErrorPayload "Rate limit exceeded. Please slow down." None)] w.
Proof.
  intros Hfull. unfold ChatGateway.handleMessage, SessionManager.checkRateLimit.
  rewrite bool_decide_eq_true_2 by lia. cbn [negb]. by destruct w.
Qed.

Lemma rate_limited_send_only_errors_witness :
  let sm := (SessionManager.checkRateLimit "s1" 1 60000 5 SessionManager.init).2 in
  let w := {| userModel := {["u1" := User.mk "u1" "Alice" true true None None None]};
              chatMessageModel := []; sessionManager := sm;
              messageBuffer := MessageBuffer.init; server := true;
              emitted := [] |} in
  let w' := ChatGateway.handleMessage MessageBuffer.defaultConfig 1 60000
              (ChatGateway.mkChatMessageDto "r1" "hello" None) "s1"
              (ChatGateway.mkWsUser "u1" "Alice" "u1") 8 "id1" w in
  emitted w'
  = [ClientEmit "s1" "error"
       (ErrorPayload "Rate limit exceeded. Please slow down." None)]
  ∧ sessionManager w' = sm.
Proof.
  intros sm w w'. unfold w'.
  rewrite (rate_limited_send_only_errors MessageBuffer.defaultConfig 1 60000
             (ChatGateway.mkChatMessageDto "r1" "hello" None) "s1"
             (ChatGateway.mkWsUser "u1" "Alice" "u1") 8 "id1" w).
  - split; reflexivity.
  - vm_compute. discriminate.
Defined.

(** ** Registry: the room listing *)

Section Rooms.
Import SessionManager.

Lemma getRoomUsers_by_room roomId st :
  RoomIndexInv st ->
  getRoomUsers roomId st
  = filter (λ s, Session.roomId s = roomId) (OMap.values (userSessions st)).
Proof.
  intros Hidx. unfold getRoomUsers.
  apply filter_ext_in. intros s Hs. split; [by intros [_ ?]|].
  intros Heq. split; [|done].
  unfold OMap.values in Hs. apply list_elem_of_fmap in Hs as (e & -> & He).
  rewrite <- Heq. apply (Hidx e He).
Qed.

Lemma length_filter_split {A} (P : A -> Prop) `{!∀ x, Decision (P x)} (l : list A) :
  length l = (length (filter P l) + length (filter (λ x, ¬ P x) l))%nat.
Proof.
  induction l as [|x l IH]; [done|].
  rewrite !filter_cons. destruct (decide (P x)) as [HP|HP].
  - rewrite decide_False by tauto. simpl. lia.
  - rewrite decide_True by done. simpl. lia.
Qed.

Lemma sessions_by_room (rooms : list string) : ∀ sessions : list Session.t,
  NoDup rooms ->
  (∀ s, s ∈ sessions -> Session.roomId s ∈ rooms) ->
  sum_list_with (λ roomId, length (filter (λ s, Session.roomId s = roomId) sessions))
    rooms
  = length sessions.
Proof.
  induction rooms as [|r rooms IH]; intros sessions Hnd Hin.
  - destruct sessions as [|s sessions]; [done|].
    exfalso. eapply elem_of_nil, (Hin s). by left.
  - apply NoDup_cons in Hnd as [Hr Hnd]. simpl.
    rewrite (length_filter_split (λ s, Session.roomId s = r) sessions).
    f_equal.
    rewrite <- (IH (filter (λ s, Session.roomId s ≠ r) sessions) Hnd).
    + clear IH Hin Hnd. induction rooms as [|r' rooms IH]; [done|].
      apply not_elem_of_cons in Hr as [Hne Hr]. simpl. rewrite (IH Hr). f_equal.
      f_equal. rewrite list_filter_filter.
      apply filter_ext_in. intros s _. split; [|tauto].
      intros Heq. split; [done|]. congruence.
    + intros s [Hne Hs]%list_elem_of_filter.
      apply Hin in Hs. apply elem_of_cons in Hs as [Heq|Hs]; [done | done].
Qed.

End Rooms.

(** X19. In a reachable state [getAllRooms] has one entry per room ever
    joined, each room once, as many entries as [getActiveRoomsCount]
    reports, and the users listed over all entries are exactly as many as
    the online sessions [getTotalOnlineUsers] counts: every session is
    listed under one room and one only. *)
Theorem all_rooms_account_for_sessions (ops : list SessionManager.Op) (now : Z) :
  Forall SessionManager.fromGateway ops ->
  let st := SessionManager.run ops SessionManager.init in
  let rooms := SessionManager.getAllRooms now st in
  NoDup (SessionManager.ri_roomId <$> rooms)
  ∧ JsArray.len rooms = SessionManager.getActiveRoomsCount st
  ∧ Z.of_nat (sum_list_with (λ room, length (SessionManager.ri_users room)) rooms)
    = SessionManager.getTotalOnlineUsers st.
Proof.
  intros Hops st rooms.
  destruct (reachable_invariants ops SessionManager.init Hops inv_init index_init)
    as [Hinv Hidx].
  fold st in Hinv, Hidx.
  set (keys := (map_to_list (SessionManager.roomUsers st)).*1).
  assert (Hkeys : NoDup keys) by apply NoDup_fst_map_to_list.
  assert (Hids : SessionManager.ri_roomId <$> rooms = keys).
  { unfold rooms, SessionManager.getAllRooms. fold keys.
    rewrite <- list_fmap_compose. simpl. apply list_fmap_id. }
  split_and!.
  - by rewrite Hids.
  - unfold JsArray.len, SessionManager.getActiveRoomsCount.
    rewrite <- (length_fmap SessionManager.ri_roomId), Hids.
    unfold keys. by rewrite length_fmap, length_map_to_list.
  - unfold SessionManager.getTotalOnlineUsers, JsArray.len. f_equal.
    replace (length (SessionManager.userSessions st))
      with (length (OMap.values (SessionManager.userSessions st)))
      by (unfold OMap.values; apply length_fmap).
    rewrite <- (sessions_by_room keys (OMap.values (SessionManager.userSessions st))
                  Hkeys).
    + unfold rooms, SessionManager.getAllRooms. fold keys.
      clear Hids Hkeys. induction keys as [|r keys IH]; [done|].
      simpl. rewrite length_map, IH. f_equal.
      by rewrite getRoomUsers_by_room.
    + intros s Hs. unfold OMap.values in Hs.
      apply list_elem_of_fmap in Hs as (e & -> & He).
      pose proof (Hidx e He) as Hm. unfold SessionManager.inRoomSet in Hm.
      destruct (SessionManager.roomUsers st !! Session.roomId e.2) as [users|] eqn:Hl;
        [|by apply elem_of_empty in Hm].
      unfold keys. apply list_elem_of_fmap.
      exists (Session.roomId e.2, users). split; [done|].
      by apply elem_of_map_to_list.
Qed.

Lemma all_rooms_account_for_sessions_witness :
  let ops := [SessionManager.OpAddUserToRoom "s1" "u1" "alice" "r1" 1;
              SessionManager.OpAddUserToRoom "s2" "u2" "bob" "r2" 2;
              SessionManager.OpAddUserToRoom "s3" "u3" "carol" "r1" 3;
              SessionManager.OpRemoveUserFromRoom "s2"] in
  let st := SessionManager.run ops SessionManager.init in
  Forall SessionManager.fromGateway ops
  ∧ JsArray.len (SessionManager.getAllRooms 9 st) = 2
  ∧ SessionManager.getTotalOnlineUsers st = 2.
Proof.
  intros ops st.
  assert (Hops : Forall SessionManager.fromGateway ops).
  { repeat constructor; simpl; discriminate. }
  split; [exact Hops|].
  destruct (all_rooms_account_for_sessions ops 9 Hops) as (_ & Hlen & _).
  split; [|reflexivity].
  etrans; [exact Hlen | reflexivity].
Defined.

(** ** The gateway's room handlers *)

Section RoomHandlers.
Import SessionManager.

Lemma addUserToRoom_members socketId userId username roomId now st :
  roomUsers (addUserToRoom socketId userId username roomId now st) !! roomId
  = Some (default ∅ (roomUsers st !! roomId) ∪ {[userId]}).
Proof.
  unfold addUserToRoom. cbn [roomUsers setRoomUsers setUserRooms setUserSessions].
  unfold setAdd. rewrite lookup_insert_eq. f_equal.
  rewrite removeUserFromAllRooms_roomUsers.
  destruct (userRooms st !! userId) as [r|]; [|done].
  case_bool_decide; [|done].
  unfold setDelete. destruct (decide (r = roomId)) as [->|Hne].
  - rewrite lookup_alter_eq. destruct (roomUsers st !! roomId) as [users|]; simpl.
    + apply set_eq. intros x.
      rewrite !elem_of_union, elem_of_difference, !elem_of_singleton.
      destruct (decide (x = userId)); tauto.
    + done.
  - by rewrite lookup_alter_ne.
Qed.

Lemma addUserToRoom_other_room socketId userId username roomId now st s other :
  RegistryInv st -> RoomIndexInv st ->
  getUserByUserId userId st = Some s ->
  other = Session.roomId s -> other ≠ roomId ->
  getRoomUserCount other (addUserToRoom socketId userId username roomId now st)
  = getRoomUserCount other st - 1.
Proof.
  intros Hinv Hidx Hget -> Hne. pose proof Hinv as [Hk Hu Hr Hn].
  unfold getUserByUserId in Hget.
  destruct (OMap.findFirst (isUser userId) (userSessions st)) as [[sid s0]|] eqn:Hf;
    [|done].
  injection Hget as ->. apply omap_findFirst_Some in Hf as [He Hp].
  unfold isUser in Hp. apply bool_decide_eq_true in Hp.
  pose proof (Hr _ He) as Hroom. pose proof (Hn _ He) as Hnonempty.
  pose proof (Hidx _ He) as Hmem. simpl in Hroom, Hnonempty, Hmem.
  rewrite Hp in Hroom, Hmem.
  unfold getRoomUserCount, addUserToRoom.
  cbn [roomUsers setRoomUsers setUserRooms setUserSessions].
  unfold setAdd. rewrite lookup_insert_ne by done.
  rewrite removeUserFromAllRooms_roomUsers, Hroom.
  rewrite bool_decide_eq_true_2 by done.
  unfold setDelete. rewrite lookup_alter_eq.
  unfold inRoomSet in Hmem.
  destruct (roomUsers st !! Session.roomId s) as [users|]; simpl in *;
    [|by apply elem_of_empty in Hmem].
  assert (Hsub : ({[userId]} : gset string) ⊆ users).
  { intros x ->%elem_of_singleton. done. }
  rewrite (size_difference users {[userId]} Hsub), size_singleton.
  assert (size users ≠ 0)%nat.
  { intros H0. apply size_empty_inv in H0. apply H0 in Hmem.
    by apply elem_of_empty in Hmem. }
  lia.
Qed.

Lemma removeUserFromRoom_count socketId st s :
  RoomIndexInv st ->
  OMap.get socketId (userSessions st) = Some s ->
  getRoomUserCount (Session.roomId s) (removeUserFromRoom socketId st).2
  = getRoomUserCount (Session.roomId s) st - 1
  ∧ 1 <= getRoomUserCount (Session.roomId s) st.
Proof.
  intros Hidx Hget.
  pose proof (Hidx _ (omap_get_Some_elem _ _ _ Hget)) as Hmem. simpl in Hmem.
  unfold getRoomUserCount. rewrite removeUserFromRoom_roomUsers, Hget.
  unfold setDelete. rewrite lookup_alter_eq. unfold inRoomSet in Hmem.
  destruct (roomUsers st !! Session.roomId s) as [users|]; simpl in *;
    [|by apply elem_of_empty in Hmem].
  assert (Hsub : ({[Session.userId s]} : gset string) ⊆ users).
  { intros x ->%elem_of_singleton. done. }
  rewrite (size_difference users {[Session.userId s]} Hsub), size_singleton.
  assert (size users ≠ 0)%nat.
  { intros H0. apply size_empty_inv in H0. apply H0 in Hmem.
    by apply elem_of_empty in Hmem. }
  lia.
Qed.

Lemma removeUserFromRoom_other_count socketId st s other :
  OMap.get socketId (userSessions st) = Some s ->
  other ≠ Session.roomId s ->
  getRoomUserCount other (removeUserFromRoom socketId st).2
  = getRoomUserCount other st.
Proof.
  intros Hget Hne. unfold getRoomUserCount.
  rewrite removeUserFromRoom_roomUsers, Hget. unfold setDelete.
  by rewrite lookup_alter_ne.
Qed.

Lemma removeUserFromRoom_user_gone socketId st s :
  RegistryInv st ->
  OMap.get socketId (userSessions st) = Some s ->
  getUserByUserId (Session.userId s) (removeUserFromRoom socketId st).2 = None.
Proof.
  intros Hinv Hget. pose proof Hinv as [Hk Hu _ _].
  unfold getUserByUserId.
  destruct (OMap.findFirst _ _) as [[sid s0]|] eqn:Hf; [|done]. exfalso.
  apply omap_findFirst_Some in Hf as [He Hp].
  rewrite removeUserFromRoom_sessions in He by done.
  apply list_elem_of_filter in He as [Hne He]. simpl in Hne.
  unfold isUser in Hp. apply bool_decide_eq_true in Hp.
  apply omap_get_Some_elem in Hget.
  assert (Heq : (sid, s0) = (socketId, s)); [|congruence].
  eapply (NoDup_fmap_eq (λ e : string * Session.t, Session.userId e.2));
    [|done|done|done].
  unfold OMap.values in Hu. by rewrite <- list_fmap_compose in Hu.
Qed.

End RoomHandlers.

(** X20. Joining a room with a non-empty name: the connection gets the
    session built from the authenticated user; it receives [joinedRoom]
    with the cached messages of the room in arrival order (the newest 100)
    and the room document as it was before the join; the room is told
    [userJoined]; the count in both notices is the size of the room's
    member set with the user added, at least 1, and is the count written
    to the room's document.  Joining creates no room document, changes
    which rooms exist in no way and writes nothing to the buffer. *)
Theorem join_room_outcome (roomId client : string) (user : ChatGateway.WsUser)
    (now : Z) (st : RoomGateway.State) :
  roomId ≠ "" ->
  let st' := RoomGateway.handleJoinRoom roomId client user now st in
  let userId := ChatGateway.ws_userId user in
  let username := ChatGateway.ws_fullName user in
  let count :=
    Z.of_nat
      (size (default ∅ (SessionManager.roomUsers (RoomGateway.registry st) !! roomId)
             ∪ {[userId]})) in
  let cached :=
    default [] (MessageBuffer.recentMessages (messageBuffer (RoomGateway.world st))
                !! roomId) in
  RoomGateway.actions st'
  = RoomGateway.actions st
    ++ [RoomGateway.SocketJoin client roomId;
        RoomGateway.Reply client "joinedRoom"
          (RoomGateway.JoinedRoomNotice roomId (newest 100 cached)
             (LiveRooms.getRoomInfo roomId (RoomGateway.liveRoomModel st)) count);
        RoomGateway.Broadcast client roomId "userJoined"
          (RoomGateway.UserJoinedNotice userId username now count)]
  ∧ RoomGateway.liveRoomModel st'
    = LiveRooms.updateViewerCount roomId count (RoomGateway.liveRoomModel st)
  ∧ SessionManager.getUserBySocketId client (RoomGateway.registry st')
    = Some (Session.mk userId username client roomId now now)
  ∧ 1 <= count
  ∧ (∀ other, LiveRooms.roomExists other (RoomGateway.liveRoomModel st')
              = LiveRooms.roomExists other (RoomGateway.liveRoomModel st))
  ∧ messageBuffer (RoomGateway.world st') = messageBuffer (RoomGateway.world st).
Proof.
  intros Hroom st' userId username count cached.
  assert (Hcount : SessionManager.getRoomUserCount roomId
            (SessionManager.addUserToRoom client userId username roomId now
               (RoomGateway.registry st)) = count).
  { unfold SessionManager.getRoomUserCount.
    by rewrite addUserToRoom_members. }
  assert (Hmsgs : reverse (MessageBuffer.getRecentMessages roomId 100
                             (messageBuffer (RoomGateway.world st)))
                  = newest 100 cached).
  { unfold MessageBuffer.getRecentMessages. rewrite reverse_involutive.
    by rewrite (slice_neg_positive 100) by lia. }
  unfold st', RoomGateway.handleJoinRoom.
  rewrite bool_decide_eq_false_2 by done.
  fold userId username. cbv zeta.
  cbn [RoomGateway.actions RoomGateway.liveRoomModel RoomGateway.world
       RoomGateway.registry RoomGateway.setRegistry RoomGateway.setWorld
       RoomGateway.setLiveRoomModel RoomGateway.act sessionManager
       setSessionManager messageBuffer].
  rewrite Hcount, Hmsgs.
  split_and!.
  - rewrite <- !app_assoc. done.
  - done.
  - unfold SessionManager.getUserBySocketId, SessionManager.addUserToRoom.
    cbn [SessionManager.userSessions SessionManager.setRoomUsers
         SessionManager.setUserRooms SessionManager.setUserSessions].
    apply omap_get_put_eq.
  - unfold count.
    assert (size (default ∅ (SessionManager.roomUsers (RoomGateway.registry st)
                             !! roomId) ∪ {[userId]}) ≠ 0)%nat; [|lia].
    intros H0. apply size_empty_inv in H0.
    apply (not_elem_of_empty (C := gset string) userId). apply H0.
    apply elem_of_union_r. by apply elem_of_singleton.
  - intros other. unfold LiveRooms.roomExists, LiveRooms.getRoomInfo,
      LiveRooms.updateViewerCount.
    destruct (decide (roomId = other)) as [->|Hne].
    + rewrite lookup_alter_eq.
      destruct (RoomGateway.liveRoomModel st !! other) as [room|]; simpl;
        [by destruct (LiveRooms.isActive room) | done].
    + by rewrite lookup_alter_ne.
  - done.
Qed.

Lemma join_room_outcome_witness :
  let buffer := addAll MessageBuffer.defaultConfig
                  [mkAddCall "r1" "u1" "alice" "first" "text" "m1" 1;
                   mkAddCall "r1" "u1" "alice" "second" "text" "m2" 2]
                  MessageBuffer.init in
  let w := {| userModel := ∅; chatMessageModel := [];
              sessionManager :=
                SessionManager.addUserToRoom "s1" "u1" "alice" "r1" 1
                  SessionManager.init;
              messageBuffer := buffer; server := true; emitted := [] |} in
  let st := RoomGateway.mkState w ∅ [] in
  let st' := RoomGateway.handleJoinRoom "r1" "s2"
               (ChatGateway.mkWsUser "u2" "Bob" "u2") 5 st in
  RoomGateway.actions st'
  = [RoomGateway.SocketJoin "s2" "r1";
     RoomGateway.Reply "s2" "joinedRoom"
       (RoomGateway.JoinedRoomNotice "r1"
          [Msg.mk "m1" "r1" "u1" "alice" "first" "text" 1;
           Msg.mk "m2" "r1" "u1" "alice" "second" "text" 2] None 2);
     RoomGateway.Broadcast "s2" "r1" "userJoined"
       (RoomGateway.UserJoinedNotice "u2" "Bob" 5 2)].
Proof.
  intros buffer w st st'.
  destruct (join_room_outcome "r1" "s2" (ChatGateway.mkWsUser "u2" "Bob" "u2") 5 st)
    as (Hact & _); [discriminate|].
  etrans; [exact Hact|]. vm_compute. reflexivity.
Defined.

Section RoomHandlerEquations.
Import SessionManager RoomGateway.

Lemma handleJoinRoom_accepts roomId client user now st :
  roomId ≠ "" ->
  let sm := addUserToRoom client (ChatGateway.ws_userId user)
              (ChatGateway.ws_fullName user) roomId now (registry st) in
  let count := getRoomUserCount roomId sm in
  handleJoinRoom roomId client user now st
  = {| world := setSessionManager sm (world st);
       liveRoomModel := LiveRooms.updateViewerCount roomId count (liveRoomModel st);
       actions :=
         actions st
         ++ [SocketJoin client roomId;
             Reply client "joinedRoom"
               (JoinedRoomNotice roomId
                  (reverse (MessageBuffer.getRecentMessages roomId 100
                              (messageBuffer (world st))))
                  (LiveRooms.getRoomInfo roomId (liveRoomModel st)) count);
             Broadcast client roomId "userJoined"
               (UserJoinedNotice (ChatGateway.ws_userId user)
                  (ChatGateway.ws_fullName user) now count)] |}.
Proof.
  intros Hroom sm count. unfold handleJoinRoom.
  rewrite bool_decide_eq_false_2 by done.
  destruct st as [w rooms acts]. unfold setLiveRoomModel, act, setRegistry, setWorld.
  cbn [world liveRoomModel actions]. f_equal.
  by rewrite <- !app_assoc.
Qed.

Lemma leave_typing_count roomId userId other sm :
  getRoomUserCount other (removeTypingUser roomId userId sm)
  = getRoomUserCount other sm.
Proof. done. Qed.

Lemma handleDisconnect_session client now st s :
  getUserBySocketId client (registry st) = Some s ->
  let sm := removeTypingUser (Session.roomId s) (Session.userId s)
              (removeUserFromRoom client (registry st)).2 in
  let count := getRoomUserCount (Session.roomId s) sm in
  handleDisconnect client now st
  = {| world := setSessionManager sm (world st);
       liveRoomModel :=
         LiveRooms.updateViewerCount (Session.roomId s) count (liveRoomModel st);
       actions :=
         actions st
         ++ [Broadcast client (Session.roomId s) "userLeft"
               (UserLeftNotice (Session.userId s) (Session.username s) now count)] |}.
Proof.
  intros Hget. cbv zeta. unfold handleDisconnect, removeUserFromRoom.
  unfold getUserBySocketId in Hget.
  rewrite Hget. by destruct st as [w rooms acts].
Qed.

Lemma handleLeaveRoom_session roomId client user now st s :
  getUserBySocketId client (registry st) = Some s ->
  let sm := removeTypingUser roomId (ChatGateway.ws_userId user)
              (removeUserFromRoom client (registry st)).2 in
  let count := getRoomUserCount roomId sm in
  handleLeaveRoom roomId client user now st
  = {| world := setSessionManager sm (world st);
       liveRoomModel := LiveRooms.updateViewerCount roomId count (liveRoomModel st);
       actions :=
         actions st
         ++ [SocketLeave client roomId;
             Broadcast client roomId "userLeft"
               (UserLeftNotice (ChatGateway.ws_userId user) (Session.username s)
                  now count)] |}.
Proof.
  intros Hget. cbv zeta. unfold handleLeaveRoom, removeUserFromRoom.
  unfold getUserBySocketId in Hget.
  destruct st as [w rooms acts]. unfold registry, act in *.
  cbn [world liveRoomModel actions] in *. rewrite Hget.
  unfold setLiveRoomModel, act, setRegistry, setWorld, registry.
  cbn [world liveRoomModel actions]. f_equal.
  by rewrite <- !app_assoc.
Qed.

End RoomHandlerEquations.

(** X21. Switching rooms: when the user already has a session in another
    room, joining takes the user out of that room's member set, so its live
    count drops by one, but the old room's document keeps its stored viewer
    count and the join broadcasts nothing to the old room. *)
Theorem room_switch_leaves_old_count (roomId client : string)
    (user : ChatGateway.WsUser) (now : Z) (st : RoomGateway.State)
    (s : Session.t) :
  RegistryInv (RoomGateway.registry st) ->
  RoomIndexInv (RoomGateway.registry st) ->
  SessionManager.getUserByUserId (ChatGateway.ws_userId user)
    (RoomGateway.registry st) = Some s ->
  roomId ≠ "" ->
  Session.roomId s ≠ roomId ->
  let st' := RoomGateway.handleJoinRoom roomId client user now st in
  let old := Session.roomId s in
  SessionManager.getRoomUserCount old (RoomGateway.registry st')
  = SessionManager.getRoomUserCount old (RoomGateway.registry st) - 1
  ∧ RoomGateway.liveRoomModel st' !! old = RoomGateway.liveRoomModel st !! old
  ∧ (∀ sender event notice,
       RoomGateway.Broadcast sender old event notice ∈ RoomGateway.actions st' ->
       RoomGateway.Broadcast sender old event notice ∈ RoomGateway.actions st).
Proof.
  intros Hinv Hidx Hget Hroom Hne st' old. unfold st'.
  rewrite handleJoinRoom_accepts by done.
  cbn [RoomGateway.registry RoomGateway.world RoomGateway.liveRoomModel
       RoomGateway.actions sessionManager setSessionManager].
  split_and!.
  - by apply (addUserToRoom_other_room _ _ _ _ _ _ s).
  - unfold LiveRooms.updateViewerCount. by rewrite lookup_alter_ne.
  - intros sender event notice [Hin|Hin]%elem_of_app; [done|]. exfalso.
    repeat (apply elem_of_cons in Hin as [Heq|Hin]; [try discriminate Heq|]).
    + injection Heq as _ Heq _ _. by apply Hne.
    + by apply elem_of_nil in Hin.
Qed.

Lemma room_switch_leaves_old_count_witness :
  let ops := [SessionManager.OpAddUserToRoom "s1" "u1" "alice" "r1" 1;
              SessionManager.OpAddUserToRoom "s2" "u2" "bob" "r1" 2] in
  let w := {| userModel := ∅; chatMessageModel := [];
              sessionManager := SessionManager.run ops SessionManager.init;
              messageBuffer := MessageBuffer.init; server := true;
              emitted := [] |} in
  let rooms : gmap string LiveRooms.Doc :=
    {["r1" := LiveRooms.mkDoc "Room 1" "h1" "Host" 2 true 0 None]} in
  let st := RoomGateway.mkState w rooms [] in
  let st' := RoomGateway.handleJoinRoom "r2" "s1"
               (ChatGateway.mkWsUser "u1" "Alice" "u1") 5 st in
  SessionManager.getRoomUserCount "r1" (RoomGateway.registry st') = 1
  ∧ LiveRooms.viewerCount <$> RoomGateway.liveRoomModel st' !! "r1" = Some 2.
Proof.
  intros ops w rooms st st'.
  assert (Hops : Forall SessionManager.fromGateway ops).
  { repeat constructor; simpl; discriminate. }
  destruct (reachable_invariants ops SessionManager.init Hops inv_init index_init)
    as [Hinv Hidx].
  destruct (room_switch_leaves_old_count "r2" "s1"
              (ChatGateway.mkWsUser "u1" "Alice" "u1") 5 st
              (Session.mk "u1" "alice" "s1" "r1" 1 1) Hinv Hidx)
    as (Hcount & Hdoc & _).
  - reflexivity.
  - discriminate.
  - discriminate.
  - split.
    + etrans; [exact Hcount | reflexivity].
    + etrans; [exact (f_equal (fmap LiveRooms.viewerCount) Hdoc) | reflexivity].
Defined.

(** X22. A disconnect of a connection that has a session, in a state that
    satisfies the registry invariants: the session is gone and its user is
    offline; the member count of the session's room is one less than
    before and not negative; that count is broadcast to the room in
    [userLeft] and written to the room's document; the user is no longer
    typing in that room. *)
Theorem disconnect_outcome (client : string) (now : Z) (st : RoomGateway.State)
    (s : Session.t) :
  RegistryInv (RoomGateway.registry st) ->
  RoomIndexInv (RoomGateway.registry st) ->
  SessionManager.getUserBySocketId client (RoomGateway.registry st) = Some s ->
  let st' := RoomGateway.handleDisconnect client now st in
  let roomId := Session.roomId s in
  let count := SessionManager.getRoomUserCount roomId (RoomGateway.registry st) - 1 in
  0 <= count
  ∧ SessionManager.getRoomUserCount roomId (RoomGateway.registry st') = count
  ∧ RoomGateway.actions st'
    = RoomGateway.actions st
      ++ [RoomGateway.Broadcast client roomId "userLeft"
            (RoomGateway.UserLeftNotice (Session.userId s) (Session.username s)
               now count)]
  ∧ RoomGateway.liveRoomModel st'
    = LiveRooms.updateViewerCount roomId count (RoomGateway.liveRoomModel st)
  ∧ SessionManager.getUserBySocketId client (RoomGateway.registry st') = None
  ∧ SessionManager.getUserByUserId (Session.userId s) (RoomGateway.registry st')
    = None
  ∧ ¬ SessionManager.inRoomSet roomId (Session.userId s)
        (SessionManager.typingUsers (RoomGateway.registry st')).
Proof.
  intros Hinv Hidx Hget. cbv zeta.
  rewrite (handleDisconnect_session client now st s Hget).
  cbn [RoomGateway.registry RoomGateway.world RoomGateway.liveRoomModel
       RoomGateway.actions sessionManager setSessionManager].
  rewrite !leave_typing_count.
  destruct (removeUserFromRoom_count client (RoomGateway.registry st) s Hidx Hget)
    as [Hcount Hpos].
  rewrite !Hcount.
  split_and!; [lia | done | done | done | | |].
  - apply (removeUserFromRoom_gone client (RoomGateway.registry st)).
    by destruct Hinv.
  - by apply (removeUserFromRoom_user_gone client (RoomGateway.registry st) s).
  - apply setDelete_not_in.
Qed.

Lemma disconnect_outcome_witness :
  let ops := [SessionManager.OpAddUserToRoom "s1" "u1" "alice" "r1" 1;
              SessionManager.OpAddUserToRoom "s2" "u2" "bob" "r1" 2] in
  let w := {| userModel := ∅; chatMessageModel := [];
              sessionManager := SessionManager.run ops SessionManager.init;
              messageBuffer := MessageBuffer.init; server := true;
              emitted := [] |} in
  let rooms : gmap string LiveRooms.Doc :=
    {["r1" := LiveRooms.mkDoc "Room 1" "h1" "Host" 2 true 0 None]} in
  let st' := RoomGateway.handleDisconnect "s1" 9 (RoomGateway.mkState w rooms []) in
  RoomGateway.actions st'
  = [RoomGateway.Broadcast "s1" "r1" "userLeft"
       (RoomGateway.UserLeftNotice "u1" "alice" 9 1)]
  ∧ LiveRooms.viewerCount <$> RoomGateway.liveRoomModel st' !! "r1" = Some 1.
Proof.
  intros ops w rooms st'.
  assert (Hops : Forall SessionManager.fromGateway ops).
  { repeat constructor; simpl; discriminate. }
  destruct (reachable_invariants ops SessionManager.init Hops inv_init index_init)
    as [Hinv Hidx].
  destruct (disconnect_outcome "s1" 9 (RoomGateway.mkState w rooms [])
              (Session.mk "u1" "alice" "s1" "r1" 1 1) Hinv Hidx)
    as (_ & _ & Hact & Hdoc & _); [reflexivity|].
  split.
  - etrans; [exact Hact | reflexivity].
  - etrans; [exact (f_equal (λ m, LiveRooms.viewerCount <$> m !! "r1") Hdoc)
            | reflexivity].
Defined.

(** X23. [handleLeaveRoom] takes the room and the user from the request and
    the authentication, not from the removed session.  When they agree with
    the session, leaving is a disconnect preceded by the socket leaving the
    room.  When the request names another room, the session is removed all
    the same and the live count of its room drops by one, but the notice
    and the stored viewer count go to the named room, with that room's
    unchanged count, and the document of the session's room is not
    updated. *)
Theorem leave_room_uses_request_room (roomId client : string)
    (user : ChatGateway.WsUser) (now : Z) (st : RoomGateway.State)
    (s : Session.t) :
  RoomIndexInv (RoomGateway.registry st) ->
  SessionManager.getUserBySocketId client (RoomGateway.registry st) = Some s ->
  let st' := RoomGateway.handleLeaveRoom roomId client user now st in
  (roomId = Session.roomId s ->
   ChatGateway.ws_userId user = Session.userId s ->
   st' = RoomGateway.handleDisconnect client now
           (RoomGateway.act [RoomGateway.SocketLeave client roomId] st))
  ∧ (roomId ≠ Session.roomId s ->
     let named := SessionManager.getRoomUserCount roomId (RoomGateway.registry st) in
     SessionManager.getRoomUserCount (Session.roomId s) (RoomGateway.registry st')
       = SessionManager.getRoomUserCount (Session.roomId s) (RoomGateway.registry st)
         - 1
     ∧ RoomGateway.liveRoomModel st' !! Session.roomId s
       = RoomGateway.liveRoomModel st !! Session.roomId s
     ∧ RoomGateway.liveRoomModel st'
       = LiveRooms.updateViewerCount roomId named (RoomGateway.liveRoomModel st)
     ∧ RoomGateway.actions st'
       = RoomGateway.actions st
         ++ [RoomGateway.SocketLeave client roomId;
             RoomGateway.Broadcast client roomId "userLeft"
               (RoomGateway.UserLeftNotice (ChatGateway.ws_userId user)
                  (Session.username s) now named)]).
Proof.
  intros Hidx Hget st'. unfold st'.
  rewrite (handleLeaveRoom_session roomId client user now st s Hget).
  split.
  - intros -> Huser.
    rewrite (handleDisconnect_session client now _ s) by done.
    rewrite Huser. destruct st as [w rooms acts]. cbn. f_equal.
    by rewrite <- app_assoc.
  - intros Hne.
    cbn [RoomGateway.registry RoomGateway.world RoomGateway.liveRoomModel
         RoomGateway.actions sessionManager setSessionManager].
    rewrite !leave_typing_count.
    rewrite (removeUserFromRoom_other_count client _ s roomId) by done.
    destruct (removeUserFromRoom_count client (RoomGateway.registry st) s Hidx Hget)
      as [Hcount _].
    split_and!; [exact Hcount | | done | done].
    unfold LiveRooms.updateViewerCount. rewrite lookup_alter_ne; done.
Qed.

Lemma leave_room_uses_request_room_witness :
  let ops := [SessionManager.OpAddUserToRoom "s1" "u1" "alice" "r1" 1;
              SessionManager.OpAddUserToRoom "s2" "u2" "bob" "r2" 2] in
  let w := {| userModel := ∅; chatMessageModel := [];
              sessionManager := SessionManager.run ops SessionManager.init;
              messageBuffer := MessageBuffer.init; server := true;
              emitted := [] |} in
  let rooms : gmap string LiveRooms.Doc :=
    {["r1" := LiveRooms.mkDoc "Room 1" "h1" "Host" 1 true 0 None;
      "r2" := LiveRooms.mkDoc "Room 2" "h2" "Host" 1 true 0 None]} in
  let st := RoomGateway.mkState w rooms [] in
  let st' := RoomGateway.handleLeaveRoom "r2" "s1"
               (ChatGateway.mkWsUser "u1" "Alice" "u1") 9 st in
  SessionManager.getRoomUserCount "r1" (RoomGateway.registry st') = 0
  ∧ LiveRooms.viewerCount <$> RoomGateway.liveRoomModel st' !! "r1" = Some 1.
Proof.
  intros ops w rooms st st'.
  assert (Hops : Forall SessionManager.fromGateway ops).
  { repeat constructor; simpl; discriminate. }
  destruct (reachable_invariants ops SessionManager.init Hops inv_init index_init)
    as [_ Hidx].
  destruct (leave_room_uses_request_room "r2" "s1"
              (ChatGateway.mkWsUser "u1" "Alice" "u1") 9 st
              (Session.mk "u1" "alice" "s1" "r1" 1 1) Hidx)
    as [_ Hother]; [reflexivity|].
  destruct Hother as (Hcount & Hdoc & _); [discriminate|].
  split.
  - etrans; [exact Hcount | reflexivity].
  - etrans; [exact (f_equal (fmap LiveRooms.viewerCount) Hdoc) | reflexivity].
Defined.

(** X24. Typing: for a connection whose session belongs to the
    authenticated user, a typing notice puts the user into the typing set
    of the room named in the request (whether or not it is the session's
    room) and stamps the session with the time of the notice; a later
    notice that typing has stopped takes the user out of the set again and
    leaves the stamp as it was; each notice is broadcast to the named
    room. *)
Theorem typing_round_trip (roomId client : string) (user : ChatGateway.WsUser)
    (now later : Z) (st : RoomGateway.State) (s : Session.t) :
  RegistryInv (RoomGateway.registry st) ->
  SessionManager.getUserBySocketId client (RoomGateway.registry st) = Some s ->
  ChatGateway.ws_userId user = Session.userId s ->
  let userId := ChatGateway.ws_userId user in
  let started :=
    RoomGateway.handleTyping (RoomGateway.mkUserTypingDto roomId true) client user
      now st in
  let stopped :=
    RoomGateway.handleTyping (RoomGateway.mkUserTypingDto roomId false) client user
      later started in
  userId ∈ SessionManager.getTypingUsers roomId (RoomGateway.registry started)
  ∧ SessionManager.getUserBySocketId client (RoomGateway.registry started)
    = Some (Session.touch now s)
  ∧ (userId ∉ SessionManager.getTypingUsers roomId (RoomGateway.registry stopped))
  ∧ SessionManager.getUserBySocketId client (RoomGateway.registry stopped)
    = Some (Session.touch now s)
  ∧ RoomGateway.actions stopped
    = RoomGateway.actions st
      ++ [RoomGateway.Broadcast client roomId "userTyping"
            (RoomGateway.UserTypingNotice userId (ChatGateway.ws_fullName user)
               true now);
          RoomGateway.Broadcast client roomId "userTyping"
            (RoomGateway.UserTypingNotice userId (ChatGateway.ws_fullName user)
               false later)].
Proof.
  intros Hinv Hget Huser userId started stopped.
  assert (Htouched : OMap.get client
            (OMap.updateFirst (SessionManager.isUser userId) (Session.touch now)
               (SessionManager.userSessions (RoomGateway.registry st)))
          = Some (Session.touch now s)).
  { unfold userId. rewrite Huser. apply get_updateFirst_user; [by destruct Hinv|done]. }
  assert (Hstarted : started
    = RoomGateway.setRegistry
        (SessionManager.updateUserActivity userId now
           (SessionManager.addTypingUser roomId userId (RoomGateway.registry st)))
        (RoomGateway.act
           [RoomGateway.Broadcast client roomId "userTyping"
              (RoomGateway.UserTypingNotice userId (ChatGateway.ws_fullName user)
                 true now)] st)).
  { unfold started, RoomGateway.handleTyping. rewrite Hget.
    by destruct st as [w rooms acts]. }
  assert (Hget' : SessionManager.getUserBySocketId client (RoomGateway.registry started)
                  = Some (Session.touch now s)).
  { rewrite Hstarted. exact Htouched. }
  assert (Hstopped : stopped
    = RoomGateway.act
        [RoomGateway.Broadcast client roomId "userTyping"
           (RoomGateway.UserTypingNotice userId (ChatGateway.ws_fullName user)
              false later)]
        (RoomGateway.setRegistry
           (SessionManager.removeTypingUser roomId userId
              (RoomGateway.registry started)) started)).
  { unfold stopped, RoomGateway.handleTyping. by rewrite Hget'. }
  split_and!.
  - rewrite Hstarted. unfold SessionManager.getTypingUsers.
    apply elem_of_elements.
    cbn. unfold SessionManager.setAdd. rewrite lookup_insert_eq. simpl.
    apply elem_of_union_r. by apply elem_of_singleton.
  - exact Hget'.
  - rewrite Hstopped. unfold SessionManager.getTypingUsers.
    rewrite elem_of_elements.
    apply (setDelete_not_in roomId userId).
  - rewrite Hstopped. exact Hget'.
  - rewrite Hstopped, Hstarted. destruct st as [w rooms acts]. cbn.
    by rewrite <- app_assoc.
Qed.

Lemma typing_round_trip_witness :
  let ops := [SessionManager.OpAddUserToRoom "s1" "u1" "alice" "r1" 1] in
  let w := {| userModel := ∅; chatMessageModel := [];
              sessionManager := SessionManager.run ops SessionManager.init;
              messageBuffer := MessageBuffer.init; server := true;
              emitted := [] |} in
  let st := RoomGateway.mkState w ∅ [] in
  let user := ChatGateway.mkWsUser "u1" "Alice" "u1" in
  let started :=
    RoomGateway.handleTyping (RoomGateway.mkUserTypingDto "r1" true) "s1" user 5 st in
  let stopped :=
    RoomGateway.handleTyping (RoomGateway.mkUserTypingDto "r1" false) "s1" user 7
      started in
  "u1" ∈ SessionManager.getTypingUsers "r1" (RoomGateway.registry started)
  ∧ ("u1" ∉ SessionManager.getTypingUsers "r1" (RoomGateway.registry stopped)).
Proof.
  intros ops w st user started stopped.
  assert (Hops : Forall SessionManager.fromGateway ops).
  { repeat constructor; simpl; discriminate. }
  destruct (typing_round_trip "r1" "s1" user 5 7 st
              (Session.mk "u1" "alice" "s1" "r1" 1 1))
    as (Hin & _ & Hout & _).
  - apply (inv_run ops); [exact Hops | apply inv_init].
  - reflexivity.
  - reflexivity.
  - split; [exact Hin | exact Hout].
Defined.

Section BanStatus.
Import AdminService.

Lemma status_after_ban dto now w user :
  userModel w !! ban_userId dto = Some user -> User.isBanned user = false ->
  checkUserBannedStatus (ban_userId dto) (banUser dto now w).1
  = mkBannedStatus true (Some (reasonOrDefault (ban_reason dto))) (ban_bannedBy dto).
Proof.
  intros Huser Hnot.
  destruct (banUser_accepts dto now w user Huser Hnot) as (_ & Hum & _).
  unfold checkUserBannedStatus. rewrite Hum. by rewrite lookup_insert_eq.
Qed.

Lemma status_after_unban dto now w user :
  userModel w !! ban_userId dto = Some user -> User.isBanned user = false ->
  checkUserBannedStatus (ban_userId dto)
    (unbanUser (ban_userId dto) (banUser dto now w).1).1
  = mkBannedStatus false None None.
Proof.
  intros Huser Hnot.
  destruct (banUser_accepts dto now w user Huser Hnot) as (_ & Hum & _).
  unfold checkUserBannedStatus, unbanUser. rewrite Hum, lookup_insert_eq. simpl.
  destruct (server _); simpl; by rewrite lookup_insert_eq.
Qed.

End BanStatus.

(** X25. Connecting after a ban: once [banUser] has accepted the ban of a
    user, a connection authenticated as that user is answered with the ban
    error carrying the stored reason and is closed, without a [connected]
    event and without any change to the users, the registry or the buffer;
    after [unbanUser] the same connection attempt is accepted and receives
    [connected] with the socket id and the user's identity. *)
Theorem banned_user_cannot_connect (dto : AdminService.BanUserDto) (banTime : Z)
    (target : User.t) (client : string) (user : ChatGateway.WsUser) (now : Z)
    (st : RoomGateway.State) :
  userModel (RoomGateway.world st) !! AdminService.ban_userId dto = Some target ->
  User.isBanned target = false ->
  ChatGateway.ws_studentId user = AdminService.ban_userId dto ->
  let banned :=
    RoomGateway.setWorld
      (AdminService.banUser dto banTime (RoomGateway.world st)).1 st in
  let refused := RoomGateway.handleConnection client (Some user) now banned in
  let unbanned :=
    RoomGateway.setWorld
      (AdminService.unbanUser (AdminService.ban_userId dto)
         (RoomGateway.world banned)).1 banned in
  let accepted := RoomGateway.handleConnection client (Some user) now unbanned in
  RoomGateway.actions refused
  = RoomGateway.actions st
    ++ [RoomGateway.Reply client "error"
          (RoomGateway.BannedNotice
             (Some (AdminService.reasonOrDefault (AdminService.ban_reason dto))));
        RoomGateway.SocketDisconnect client]
  ∧ RoomGateway.world refused = RoomGateway.world banned
  ∧ RoomGateway.actions accepted
    = RoomGateway.actions st
      ++ [RoomGateway.Reply client "connected"
            (RoomGateway.ConnectedNotice now client (ChatGateway.ws_studentId user)
               (ChatGateway.ws_fullName user))]
  ∧ RoomGateway.world accepted = RoomGateway.world unbanned.
Proof.
  intros Huser Hnot Hid banned refused unbanned accepted.
  pose proof (status_after_ban dto banTime _ target Huser Hnot) as Hban.
  pose proof (status_after_unban dto banTime _ target Huser Hnot) as Hunban.
  unfold refused, accepted, RoomGateway.handleConnection.
  rewrite Hid.
  change (RoomGateway.world banned)
    with (AdminService.banUser dto banTime (RoomGateway.world st)).1.
  change (RoomGateway.world unbanned)
    with (AdminService.unbanUser (AdminService.ban_userId dto)
            (AdminService.banUser dto banTime (RoomGateway.world st)).1).1.
  rewrite Hban, Hunban. done.
Qed.

Lemma banned_user_cannot_connect_witness :
  let w := {| userModel := {["u1" := User.mk "u1" "Alice" true false None None None]};
              chatMessageModel := []; sessionManager := SessionManager.init;
              messageBuffer := MessageBuffer.init; server := false;
              emitted := [] |} in
  let st := RoomGateway.mkState w ∅ [] in
  let dto := AdminService.mkBanUserDto "u1" (Some "spam") (Some "admin") in
  let banned := RoomGateway.setWorld (AdminService.banUser dto 5 w).1 st in
  RoomGateway.actions
    (RoomGateway.handleConnection "s1"
       (Some (ChatGateway.mkWsUser "u1" "Alice" "u1")) 8 banned)
  = [RoomGateway.Reply "s1" "error" (RoomGateway.BannedNotice (Some "spam"));
     RoomGateway.SocketDisconnect "s1"].
Proof.
  intros w st dto banned.
  destruct (banned_user_cannot_connect dto 5
              (User.mk "u1" "Alice" true false None None None) "s1"
              (ChatGateway.mkWsUser "u1" "Alice" "u1") 8 st)
    as (Hrefused & _); [reflexivity | reflexivity | reflexivity |].
  exact Hrefused.
Defined.

(** X26. The room statistics a connection asks for: with a session, in a
    state that satisfies the registry invariants, the reply is [roomStats]
    for the session's room; the requester is among the listed users, each
    listed user appears once, and the list is never longer than the
    reported user count.  The request changes nothing but the event log. *)
Theorem room_stats_lists_requester (client : string) (now : Z)
    (st : RoomGateway.State) (s : Session.t) :
  RegistryInv (RoomGateway.registry st) ->
  RoomIndexInv (RoomGateway.registry st) ->
  SessionManager.getUserBySocketId client (RoomGateway.registry st) = Some s ->
  let st' := RoomGateway.handleGetRoomStats client now st in
  let stats :=
    SessionManager.getRoomStats (Session.roomId s) now (RoomGateway.registry st) in
  RoomGateway.actions st'
  = RoomGateway.actions st
    ++ [RoomGateway.Reply client "roomStats" (RoomGateway.RoomStatsNotice stats)]
  ∧ SessionManager.mkRoomStatsUser (Session.userId s) (Session.username s)
      (Session.joinTime s) (Session.lastActivity s)
    ∈ SessionManager.ri_users stats
  ∧ NoDup (SessionManager.su_userId <$> SessionManager.ri_users stats)
  ∧ 1 <= JsArray.len (SessionManager.ri_users stats)
       <= SessionManager.ri_userCount stats
  ∧ RoomGateway.world st' = RoomGateway.world st
  ∧ RoomGateway.liveRoomModel st' = RoomGateway.liveRoomModel st.
Proof.
  intros Hinv Hidx Hget st' stats. pose proof Hinv as [Hk Hu Hr Hn].
  assert (Hin : s ∈ SessionManager.getRoomUsers (Session.roomId s)
                      (RoomGateway.registry st)).
  { rewrite getRoomUsers_by_room by done. apply list_elem_of_filter.
    split; [done|]. apply omap_get_Some_elem in Hget.
    unfold OMap.values. apply list_elem_of_fmap. by exists (client, s). }
  assert (Hids : SessionManager.su_userId <$> SessionManager.ri_users stats
                 = Session.userId <$> SessionManager.getRoomUsers (Session.roomId s)
                                        (RoomGateway.registry st)).
  { unfold stats, SessionManager.getRoomStats. simpl.
    rewrite <- list_fmap_compose. done. }
  assert (Hnd : NoDup (SessionManager.su_userId <$> SessionManager.ri_users stats)).
  { rewrite Hids. eapply sublist_NoDup; [exact Hu|].
    apply fmap_sublist. unfold SessionManager.getRoomUsers. apply sublist_filter. }
  unfold st', RoomGateway.handleGetRoomStats. rewrite Hget.
  split_and!; [done | | done | | | done | done].
  - unfold stats, SessionManager.getRoomStats. simpl.
    apply list_elem_of_fmap. by exists s.
  - unfold JsArray.len. unfold stats, SessionManager.getRoomStats. simpl.
    rewrite length_map. destruct (SessionManager.getRoomUsers _ _); simpl; [|lia].
    by apply elem_of_nil in Hin.
  - unfold JsArray.len.
    rewrite <- (length_fmap SessionManager.su_userId).
    unfold stats at 2. unfold SessionManager.getRoomStats.
    cbn [SessionManager.ri_userCount]. unfold SessionManager.getRoomUserCount.
    apply inj_le. apply length_le_size; [done|].
    rewrite Hids. intros x (s0 & -> & Hs)%list_elem_of_fmap.
    unfold SessionManager.getRoomUsers in Hs.
    by apply list_elem_of_filter in Hs as [[? _] _].
Qed.

Lemma room_stats_lists_requester_witness :
  let ops := [SessionManager.OpAddUserToRoom "s1" "u1" "alice" "r1" 1;
              SessionManager.OpAddUserToRoom "s2" "u2" "bob" "r1" 2] in
  let w := {| userModel := ∅; chatMessageModel := [];
              sessionManager := SessionManager.run ops SessionManager.init;
              messageBuffer := MessageBuffer.init; server := true;
              emitted := [] |} in
  let st := RoomGateway.mkState w ∅ [] in
  SessionManager.mkRoomStatsUser "u2" "bob" 2 2
  ∈ SessionManager.ri_users
      (SessionManager.getRoomStats "r1" 9 (RoomGateway.registry st)).
Proof.
  intros ops w st.
  assert (Hops : Forall SessionManager.fromGateway ops).
  { repeat constructor; simpl; discriminate. }
  destruct (reachable_invariants ops SessionManager.init Hops inv_init index_init)
    as [Hinv Hidx].
  destruct (room_stats_lists_requester "s2" 9 st
              (Session.mk "u2" "bob" "s2" "r1" 2 2) Hinv Hidx)
    as (_ & Hin & _); [reflexivity|].
  exact Hin.
Defined.

(** ** The token of a connection *)

Section Token.
Import WsAuthMiddleware.


Lemma truthy_spec s : truthy s = true ↔ s ≠ "".
Proof. unfold truthy. destruct s; simpl; split; intros H; done. Qed.

Lemma split_parts sep s part : part ∈ split sep s -> sep ∉ chars part.
Proof.
  revert part. induction s as [|c s IH]; intros part Hin; simpl in Hin.
  - apply list_elem_of_singleton in Hin as ->. apply not_elem_of_nil.
  - destruct (Ascii.eqb_spec c sep) as [->|Hne].
    + apply elem_of_cons in Hin as [->|Hin]; [apply not_elem_of_nil | by apply IH].
    + destruct (split sep s) as [|first parts] eqn:Hsplit.
      * apply list_elem_of_singleton in Hin as ->. simpl.
        intros [?|[]%elem_of_nil]%elem_of_cons. done.
      * apply elem_of_cons in Hin as [->|Hin].
        -- simpl. intros [?|Hin]%elem_of_cons; [done|].
           revert Hin. apply IH. by left.
        -- apply IH. by right.
Qed.










Lemma findCookie_value cookieArray token :
  findCookie cookieArray = Some token -> token ≠ "" ∧ "="%char ∉ chars token.
Proof.
  induction cookieArray as [|cookie rest IH]; simpl; [done|].
  destruct (split "=" (ChatGateway.trim cookie)) as [|name [|value parts]] eqn:Hs;
    [done | done |].
  destruct (String.eqb name "access_token" && truthy value) eqn:Hc; [|done].
  intros [= <-]. apply andb_true_iff in Hc as [_ Hv]. split.
  - by apply truthy_spec.
  - apply (split_parts "=" (ChatGateway.trim cookie)). rewrite Hs.
    right. by left.
Qed.

End Token.



(** X28. What [extractTokenFromSocket] can return: never the empty string;
    a non-empty string token of the query is returned as it is, before the
    header and the cookies are looked at; any other result was cut out of
    the authorization header or of a cookie, so it contains no space or no
    equals sign. *)
Theorem token_never_empty (handshake : WsAuthMiddleware.Handshake) :
  (∀ queryToken,
     WsAuthMiddleware.query_token handshake
     = Some (WsAuthMiddleware.QueryString queryToken) ->
     queryToken ≠ "" ->
     WsAuthMiddleware.extractTokenFromSocket handshake = Some queryToken)
  ∧ (∀ token,
       WsAuthMiddleware.extractTokenFromSocket handshake = Some token ->
       token ≠ ""
       ∧ (WsAuthMiddleware.query_token handshake
          = Some (WsAuthMiddleware.QueryString token)
          ∨ " "%char ∉ chars token
          ∨ "="%char ∉ chars token)).
Proof.
  split.
  - intros queryToken Hq Hne. unfold WsAuthMiddleware.extractTokenFromSocket.
    rewrite Hq. by rewrite (proj2 (truthy_spec queryToken)).
  - intros token. unfold WsAuthMiddleware.extractTokenFromSocket.
    destruct (WsAuthMiddleware.query_token handshake) as [[queryToken|values]|]
      eqn:Hq.
    1: destruct (WsAuthMiddleware.truthy queryToken) eqn:Ht;
         [intros [= <-]; split; [by apply truthy_spec | by left]|].
    all: cbv zeta;
      (destruct (WsAuthMiddleware.header_authorization handshake) as [authHeader|];
       [destruct (WsAuthMiddleware.truthy authHeader);
        [destruct (WsAuthMiddleware.split " " authHeader)
           as [|type [|bearer parts]] eqn:Hs;
         [| |destruct (String.eqb type "Bearer" && WsAuthMiddleware.truthy bearer)
               eqn:Hb;
             [intros [= <-]; apply andb_true_iff in Hb as [_ Hb]; split;
              [by apply truthy_spec|];
              right; left; apply (split_parts " " authHeader); rewrite Hs;
              right; by left|]]|]|]);
      (destruct (WsAuthMiddleware.header_cookie handshake) as [cookies|]; [|done]);
      (destruct (WsAuthMiddleware.truthy cookies); [|done]);
      intros [Hne Heq]%findCookie_value; (split; [done|]); right; by right.
Qed.

Lemma token_never_empty_witness :
  WsAuthMiddleware.extractTokenFromSocket
    (WsAuthMiddleware.mkHandshake (Some (WsAuthMiddleware.QueryString "tok"))
       (Some "Bearer other") (Some "access_token=third"))
  = Some "tok".
Proof.
  destruct (token_never_empty
              (WsAuthMiddleware.mkHandshake
                 (Some (WsAuthMiddleware.QueryString "tok"))
                 (Some "Bearer other") (Some "access_token=third")))
    as [Hquery _].
  apply Hquery; [reflexivity | discriminate].
Defined.
